(** * Label taxonomy, label encoding and dataset views of [yj/dataset.py]

    A shallow embedding of the dataset module: the label enumerations and
    their parsers, the multi-class label encoder, the directory scan that
    fills the class-level sample lists, and the two split policies.

    Conventions of the embedding.
    - Python [int] is [Z]; [//] and [%] are [Z.div] and [Z.modulo] (both
      round towards minus infinity, as Python does).
    - Python [str] is [string], the UTF-8 bytes of the text; [str.lower]
      acts on A-Z. [int(s)] reads the code points of the bytes, with the
      white space and the decimal digits of Unicode 14.0 and the limit of
      4300 digits (CPython 3.11).
    - A Python exception is a value of [PyError]; a call that can raise
      returns a [result].
    - A Python [float] is an IEEE 754 binary64 number, a [spec_float] of
      the Standard Library at precision 53 and exponent bound 1024:
      [length * val_ratio] is the correctly rounded product [SFmul] of
      the converted length and the ratio, and [int] truncates it. The
      weights handed to [random.choices] are rationals.
    - A path built by [os.path.join] is the list of its components. *)

From Stdlib Require Import ZArith NArith QArith Qround String Ascii List Lia.
From Stdlib Require Import SpecFloat.
From stdpp Require Import base option list sorting gmap sets strings.

Import ListNotations.
Local Open Scope string_scope.
Local Open Scope Z_scope.

(** ** Python primitives *)

Module Py.

(** The values [AgeLabels.from_number] is applied to. *)
Inductive value : Type :=
| VInt (n : Z)
| VStr (s : string)
| VNone.

(** The exceptions the module raises or lets through. *)
Inductive PyError : Type :=
| ValueError_gender (value : string)
    (* "Gender value should be either 'male' or 'female', {value}" *)
| ValueError_age (value : value)
    (* "Age value should be numeric, {value}" *)
| ValueError_unpack (got : nat)
    (* tuple unpacking of [profile.split("_")] with the wrong arity *)
| ValueError_lengths
    (* random_split: sum of lengths differs from the dataset length *)
| ValueError_weights
    (* random.choices: "Total of weights must be greater than zero" *)
| AssertionError_transform
    (* ".set_tranform ..." : __getitem__ before a transform is bound *)
| OverflowError
    (* "int too large to convert to float",
       "cannot convert float infinity to integer" *)
| ValueError_nan
    (* "cannot convert float NaN to integer" *)
| IndexError
| KeyError (key : string)
| OSError (path : list string).

Inductive result (A : Type) : Type :=
| Ok (a : A)
| Raise (e : PyError).
Arguments Ok {A} a.
Arguments Raise {A} e.

#[global] Instance result_ret : MRet result := @Ok.
#[global] Instance result_bind : MBind result := fun A B k r =>
  match r with
  | Ok a => k a
  | Raise e => Raise e
  end.

(** *** [float]: IEEE 754 binary64 *)

Definition float : Type := spec_float.
Definition prec : Z := 53.
Definition emax : Z := 1024.

(** The conversion of the int operand of [n * x] (PyLong_AsDouble): the
    nearest float, ties to even, and OverflowError beyond the largest. *)
Definition float_of_int (n : Z) : result float :=
  match binary_normalize prec emax n 0 false with
  | S754_infinity _ => Raise OverflowError
  | x => Ok x
  end.

(** [n * x] for an int [n] and a float [x]. *)
Definition int_mul_float (n : Z) (x : float) : result float :=
  a ← float_of_int n;
  Ok (SFmul prec emax a x).

(** [int(x)] on a float: truncation towards zero. *)
Definition int_of_float (x : float) : result Z :=
  match x with
  | S754_zero _ => Ok 0
  | S754_finite s m e =>
      Ok (cond_Zopp s (if 0 <=? e then Zpos m * 2 ^ e else Zpos m / 2 ^ (- e)))
  | S754_infinity _ => Raise OverflowError
  | S754_nan => Raise ValueError_nan
  end.

(** [int(n * x)] *)
Definition int_of_product (n : Z) (x : float) : result Z :=
  product ← int_mul_float n x;
  int_of_float product.

(** The number a finite float stands for. *)
Definition float_value (x : float) : option Q :=
  match x with
  | S754_zero _ => Some 0%Q
  | S754_finite s m e =>
      Some (if 0 <=? e then inject_Z (cond_Zopp s (Zpos m) * 2 ^ e)
            else cond_Zopp s (Zpos m) # Z.to_pos (2 ^ (- e)))
  | S754_infinity _ | S754_nan => None
  end.

(** *** Strings *)

Definition chars (s : string) : list ascii := list_ascii_of_string s.
Definition str (l : list ascii) : string := string_of_list_ascii l.

(** [str.lower] on a byte string. *)
Definition lower_char (c : ascii) : ascii :=
  let n := nat_of_ascii c in
  if ((65 <=? n)%nat && (n <=? 90)%nat)%bool then ascii_of_nat (n + 32) else c.

Fixpoint lower (s : string) : string :=
  match s with
  | EmptyString => EmptyString
  | String c r => String (lower_char c) (lower r)
  end.

(** [s.startswith(p)] *)
Definition startswith (s p : string) : bool := String.prefix p s.

(** [s.split(sep)] for a one-character separator: never empty. *)
Fixpoint split (sep : ascii) (s : string) : list string :=
  match s with
  | EmptyString => [EmptyString]
  | String c r =>
      if Ascii.eqb c sep then EmptyString :: split sep r
      else match split sep r with
           | [] => [String c EmptyString]
           | w :: ws => String c w :: ws
           end
  end.

(** [p.rfind(c)]: index of the last occurrence. *)
Fixpoint rfind_from (c : ascii) (i : nat) (l : list ascii) : option nat :=
  match l with
  | [] => None
  | x :: r =>
      match rfind_from c (S i) r with
      | Some j => Some j
      | None => if Ascii.eqb x c then Some i else None
      end
  end.

Definition rfind (c : ascii) (l : list ascii) : option nat := rfind_from c 0 l.

(** [os.path.splitext] (genericpath._splitext with sep "/" and extsep
    "."): the extension starts at the last dot of the last component,
    unless that component has only dots before it. *)
Definition splitext (p : string) : string * string :=
  let l := chars p in
  let filenameIndex := match rfind "/" l with Some s => S s | None => O end in
  match rfind "." l with
  | Some dotIndex =>
      if (filenameIndex <=? dotIndex)%nat then
        if existsb (fun c => negb (Ascii.eqb c "."))
             (take (dotIndex - filenameIndex) (drop filenameIndex l))
        then (str (take dotIndex l), str (drop dotIndex l))
        else (p, EmptyString)
      else (p, EmptyString)
  | None => (p, EmptyString)
  end.

(** *** [int(s)] on a string, base 10 *)

(** The code points of a str, read from its UTF-8 bytes. Bytes that
    encode no character have none: [os.listdir] hands such a byte over as
    a lone surrogate, which is neither a digit nor white space, so [int]
    rejects the name. *)
Definition continuation (b : N) : bool := ((128 <=? b) && (b <? 192))%N.

Fixpoint code_points (l : list N) : option (list N) :=
  match l with
  | [] => Some []
  | b0 :: r =>
      if (b0 <? 128)%N then cons b0 <$> code_points r
      else if (b0 <? 194)%N then None
      else if (b0 <? 224)%N then
        match r with
        | b1 :: r' =>
            if continuation b1
            then cons ((b0 - 192) * 64 + (b1 - 128))%N <$> code_points r'
            else None
        | _ => None
        end
      else if (b0 <? 240)%N then
        match r with
        | b1 :: b2 :: r' =>
            let c := ((b0 - 224) * 4096 + (b1 - 128) * 64 + (b2 - 128))%N in
            if (continuation b1 && continuation b2 && (2048 <=? c)%N
                && negb ((55296 <=? c)%N && (c <? 57344)%N))%bool
            then cons c <$> code_points r'
            else None
        | _ => None
        end
      else if (b0 <? 245)%N then
        match r with
        | b1 :: b2 :: b3 :: r' =>
            let c := ((b0 - 240) * 262144 + (b1 - 128) * 4096
                      + (b2 - 128) * 64 + (b3 - 128))%N in
            if (continuation b1 && continuation b2 && continuation b3
                && (65536 <=? c)%N && (c <? 1114112)%N)%bool
            then cons c <$> code_points r'
            else None
        | _ => None
        end
      else None
  end.

(** White space of the C locale, which [PyLong_FromString] skips at both
    ends: tab, line feed, vertical tab, form feed, carriage return and
    space. The separators 28 to 31 are not among them. *)
Definition Py_ISSPACE (c : N) : bool := (((9 <=? c) && (c <=? 13)) || (c =? 32))%N.

(** White space of Unicode. *)
Definition Py_UNICODE_ISSPACE (c : N) : bool :=
  (Py_ISSPACE c || ((28 <=? c) && (c <=? 31)) || (c =? 133) || (c =? 160) || (c =? 5760)
   || ((8192 <=? c) && (c <=? 8202)) || (c =? 8232) || (c =? 8233) || (c =? 8239)
   || (c =? 8287) || (c =? 12288))%N.

(** The digit zero of every run of ten decimal digits (category Nd). *)
Definition decimal_zeros : list N :=
  [48; 1632; 1776; 1984; 2406; 2534; 2662; 2790; 2918; 3046; 3174; 3302; 3430;
   3558; 3664; 3792; 3872; 4160; 4240; 6112; 6160; 6470; 6608; 6784; 6800;
   6992; 7088; 7232; 7248; 42528; 43216; 43264; 43472; 43504; 43600; 44016;
   65296; 66720; 68912; 69734; 69872; 69942; 70096; 70384; 70736; 70864;
   71248; 71360; 71472; 71904; 72016; 72784; 73040; 73120; 92768; 92864;
   93008; 120782; 120792; 120802; 120812; 120822; 123200; 123632; 125264;
   130032]%N.

Definition Py_UNICODE_TODECIMAL (c : N) : option N :=
  (fun zero => c - zero)%N <$>
    List.find (fun zero => ((zero <=? c) && (c <? zero + 10))%N) decimal_zeros.

(** [_PyUnicode_TransformDecimalAndSpaceToASCII]: an ASCII str is handed
    on as it is; in any other str a code point below 127 stays, white
    space becomes a space and a decimal digit its ASCII digit, and any
    other character makes the str unreadable. *)
Definition to_ascii (ch : N) : option N :=
  if (ch <? 127)%N then Some ch
  else if Py_UNICODE_ISSPACE ch then Some 32%N
  else (fun decimal => 48 + decimal)%N <$> Py_UNICODE_TODECIMAL ch.

Definition TransformDecimalAndSpaceToASCII (u : list N) : option (list N) :=
  if forallb (fun ch => (ch <? 128)%N) u then Some u else mapM to_ascii u.

Fixpoint lstrip (l : list N) : list N :=
  match l with
  | c :: r => if Py_ISSPACE c then lstrip r else l
  | [] => []
  end.

Definition strip (l : list N) : list N := rev (lstrip (rev (lstrip l))).

Definition is_digit (c : N) : bool := ((48 <=? c) && (c <=? 57))%N.

(** Digits, with single underscores allowed between two digits; the
    value and the number of digits read. *)
Fixpoint parse_digits (acc : Z) (digits : nat) (prev_digit : bool) (l : list N)
    : option (Z * nat) :=
  match l with
  | [] => if prev_digit then Some (acc, digits) else None
  | c :: r =>
      if is_digit c then parse_digits (acc * 10 + (Z.of_N c - 48)) (S digits) true r
      else if ((c =? 95)%N && prev_digit)%bool then parse_digits acc digits false r
      else None
  end.

(** [sys.get_int_max_str_digits()] *)
Definition int_max_str_digits : nat := 4300.

(** [PyLong_FromString] in base 10: white space, a sign, the digits,
    white space. *)
Definition PyLong_FromString (l : list N) : option Z :=
  let '(sign, l) := match strip l with
                    | 45%N :: r => (-1, r)
                    | 43%N :: r => (1, r)
                    | l => (1, l)
                    end in
  '(n, digits) ← parse_digits 0 0 false l;
  if (int_max_str_digits <? digits)%nat then None else Some (sign * n).

Definition int_of_str (s : string) : option Z :=
  u ← code_points (N_of_ascii <$> chars s);
  TransformDecimalAndSpaceToASCII u ≫= PyLong_FromString.

(** [int(v)]: [None] stands for the exception ([ValueError] or
    [TypeError]) Python raises. *)
Definition int (v : value) : option Z :=
  match v with
  | VInt n => Some n
  | VStr s => int_of_str s
  | VNone => None
  end.

(** *** Sequences *)

(** [l[i]] with Python's negative indices. *)
Definition getitem {A} (l : list A) (i : Z) : result A :=
  let n := Z.of_nat (length l) in
  let j := if i <? 0 then i + n else i in
  if (0 <=? j) && (j <? n) then
    match l !! Z.to_nat j with
    | Some x => Ok x
    | None => Raise IndexError
    end
  else Raise IndexError.

(** [l[a:b]] with Python's clamping of slice bounds. *)
Definition slice_bound (n i : Z) : Z :=
  if i <? 0 then Z.max 0 (i + n) else Z.min i n.

Definition slice {A} (l : list A) (a b : Z) : list A :=
  let n := Z.of_nat (length l) in
  let a' := slice_bound n a in
  let b' := slice_bound n b in
  take (Z.to_nat (b' - a')) (drop (Z.to_nat a') l).

(** [[f(x) for x in l]]: the first exception ends the comprehension. *)
Fixpoint comprehension {A B} (f : A -> result B) (l : list A) : result (list B) :=
  match l with
  | [] => Ok []
  | x :: r =>
      match f x with
      | Raise e => Raise e
      | Ok y =>
          match comprehension f r with
          | Raise e => Raise e
          | Ok ys => Ok (y :: ys)
          end
      end
  end.

(** [bool(l)] for a list: a list is true exactly when it is not empty. *)
Definition truthy {A} (l : list A) : bool :=
  match l with
  | [] => false
  | _ :: _ => true
  end.

(** *** [defaultdict(list)]

    The keys in insertion order, each with its list. *)

Definition defaultdict (A : Type) : Type := list (string * list A).

(** [d[key].append(x)]: a missing key is first inserted, at the end. *)
Fixpoint dict_append {A} (key : string) (x : A) (d : defaultdict A) : defaultdict A :=
  match d with
  | [] => [(key, [x])]
  | (k, v) :: r =>
      if String.eqb k key then (k, (v ++ [x])%list) :: r
      else (k, v) :: dict_append key x r
  end.

(** The list under [key], empty when the key is missing. *)
Fixpoint dict_get {A} (key : string) (d : defaultdict A) : list A :=
  match d with
  | [] => []
  | (k, v) :: r => if String.eqb k key then v else dict_get key r
  end.

End Py.

Export Py.

(** ** Labeling *)

Module MaskLabels.
Inductive t : Type := MASK | INCORRECT | NORMAL.

Definition value (m : t) : Z :=
  match m with
  | MASK => 0
  | INCORRECT => 1
  | NORMAL => 2
  end.
End MaskLabels.

Module GenderLabels.
Inductive t : Type := MALE | FEMALE.

Definition value (g : t) : Z :=
  match g with
  | MALE => 0
  | FEMALE => 1
  end.

Definition from_str (value : string) : result t :=
  let value := lower value in
  if String.eqb value "male" then Ok MALE
  else if String.eqb value "female" then Ok FEMALE
  else Raise (ValueError_gender value).
End GenderLabels.

Module AgeLabels.
Inductive t : Type := YOUNG | MIDDLE | OLD.

Definition value (a : t) : Z :=
  match a with
  | YOUNG => 0
  | MIDDLE => 1
  | OLD => 2
  end.

Definition from_number (value : Py.value) : result t :=
  match Py.int value with
  | None => Raise (ValueError_age value)
  | Some value =>
      if value <? 30 then Ok YOUNG
      else if value <? 60 then Ok MIDDLE
      else Ok OLD
  end.
End AgeLabels.

(** ** Valid label values *)

Definition valid_mask (m : Z) : Prop := 0 <= m < 3.
Definition valid_gender (g : Z) : Prop := 0 <= g < 2.
Definition valid_age (a : Z) : Prop := 0 <= a < 3.


(** ** Statements: state passing with exceptions

    A method body that mutates lists and may raise is a function from the
    state before to the state after and either a value or the exception.
    What was appended before an exception stays appended. *)

Definition M (S A : Type) : Type := S -> S * result A.

Definition ret {S A} (a : A) : M S A := fun s => (s, Ok a).

Definition bind {S A B} (m : M S A) (k : A -> M S B) : M S B :=
  fun s =>
    match m s with
    | (s', Ok a) => k a s'
    | (s', Raise e) => (s', Raise e)
    end.

Definition raise {S A} (e : PyError) : M S A := fun s => (s, Raise e).

(** A call that only reads its arguments. *)
Definition call {S A} (r : result A) : M S A := fun s => (s, r).

Definition gets {S A} (f : S -> A) : M S A := fun s => (s, Ok (f s)).

Definition modify {S} (f : S -> S) : M S unit := fun s => (f s, Ok tt).

#[global] Instance M_ret {S} : MRet (M S) := @ret S.
#[global] Instance M_bind {S} : MBind (M S) := fun A B k m => bind m k.

(** [for x in l: body(x)]; [continue] is a body that returns at once. *)
Fixpoint for_each {S A} (l : list A) (body : A -> M S unit) : M S unit :=
  match l with
  | [] => ret tt
  | x :: r => body x;; for_each r body
  end.

(** ** The file system and the sample lists *)

Definition Path : Type := list string.

(** [os.listdir]: the names in a directory, or the exception. *)
Definition FileSystem : Type := Path -> result (list string).

(** The four class-level lists [image_paths], [mask_labels],
    [gender_labels], [age_labels]: one object each per class, reached
    through [self] by every instance. *)
Record ClassLists : Type := {
  image_paths : list Path;
  mask_labels : list MaskLabels.t;
  gender_labels : list GenderLabels.t;
  age_labels : list AgeLabels.t
}.

(** The lists as the class statement leaves them. *)
Definition empty_lists : ClassLists :=
  {| image_paths := []; mask_labels := []; gender_labels := []; age_labels := [] |}.

Definition image_paths_append (x : Path) (c : ClassLists) : ClassLists :=
  {| image_paths := image_paths c ++ [x]; mask_labels := mask_labels c;
     gender_labels := gender_labels c; age_labels := age_labels c |}.

Definition mask_labels_append (x : MaskLabels.t) (c : ClassLists) : ClassLists :=
  {| image_paths := image_paths c; mask_labels := mask_labels c ++ [x];
     gender_labels := gender_labels c; age_labels := age_labels c |}.

Definition gender_labels_append (x : GenderLabels.t) (c : ClassLists) : ClassLists :=
  {| image_paths := image_paths c; mask_labels := mask_labels c;
     gender_labels := gender_labels c ++ [x]; age_labels := age_labels c |}.

Definition age_labels_append (x : AgeLabels.t) (c : ClassLists) : ClassLists :=
  {| image_paths := image_paths c; mask_labels := mask_labels c;
     gender_labels := gender_labels c; age_labels := age_labels c ++ [x] |}.

(** The lists [c] after the entries of [d] have been appended. *)
Definition lists_app (c d : ClassLists) : ClassLists :=
  {| image_paths := image_paths c ++ image_paths d;
     mask_labels := mask_labels c ++ mask_labels d;
     gender_labels := gender_labels c ++ gender_labels d;
     age_labels := age_labels c ++ age_labels d |}.

(** [id, gender, race, age = profile.split("_")] *)
Definition unpack4 (fields : list string) : result (string * string * string * string) :=
  match fields with
  | [id; gender; race; age] => Ok (id, gender, race, age)
  | _ => Raise (ValueError_unpack (length fields))
  end.

(** ** Library calls that draw random numbers

    The draws are arguments of the model: [rand_index i n] is the value of
    [floor(random() * n)] at the [i]-th draw of a call, and [randperm n]
    is the permutation [torch.randperm(n)] returns. *)

Module random.

(** [random.choices(population, k=k)] without weights:
    [[population[floor(random() * n)] for i in repeat(None, k)]];
    a negative [k] repeats nothing. *)
Definition choices {A} (rand_index : nat -> nat -> nat) (population : list A) (k : Z)
    : result (list A) :=
  let n := length population in
  Py.comprehension
    (fun i => Py.getitem population (Z.of_nat (rand_index i n)))
    (seq 0 (Z.to_nat k)).

(** [random.choices(population, weights=weights)]: [k] defaults to 1, so
    the result is the list holding the one element drawn,
    [population[bisect(cum_weights, random() * total, 0, n - 1)]];
    [bisected] is the value of that [bisect]. *)
Definition choices_weighted {A} (bisected : nat) (population : list A) (weights : list Q)
    : result (list A) :=
  let n := length population in
  let total := foldr Qplus 0%Q weights in
  if Qle_bool total 0 then Raise ValueError_weights
  else
    match Py.getitem population (Z.of_nat (Nat.min bisected (n - 1))) with
    | Ok x => Ok [x]
    | Raise e => Raise e
    end.

End random.

Module torch.

(** [torch.utils.data.Subset(dataset, indices)] over the one dataset at
    hand: the indices it keeps. *)
Record Subset : Type := { indices : list nat }.

Definition Subset_len (s : Subset) : Z := Z.of_nat (length (indices s)).

(** [itertools.accumulate(lengths)]: the running sums. *)
Fixpoint accumulate_from (acc : Z) (lengths : list Z) : list Z :=
  match lengths with
  | [] => []
  | x :: r => (acc + x) :: accumulate_from (acc + x) r
  end.

Definition sum (lengths : list Z) : Z := foldr Z.add 0 lengths.

(** [torch.utils.data.random_split(dataset, lengths)]:
    [indices = randperm(sum(lengths)).tolist()], then one [Subset] per
    length over [indices[offset - length : offset]]. *)
Definition random_split (randperm : nat -> list nat) (dataset_len : Z) (lengths : list Z)
    : result (list Subset) :=
  if negb (sum lengths =? dataset_len) then Raise ValueError_lengths
  else
    let indices := randperm (Z.to_nat (sum lengths)) in
    Ok (map (fun '(offset, length) =>
               {| indices := Py.slice indices (offset - length) offset |})
            (zip (accumulate_from 0 lengths) lengths)).

End torch.

(** ** Dataset *)

Module MaskBaseDataset.

Definition _file_names : gmap string MaskLabels.t :=
  list_to_map [
    ("mask1", MaskLabels.MASK);
    ("mask2", MaskLabels.MASK);
    ("mask3", MaskLabels.MASK);
    ("mask4", MaskLabels.MASK);
    ("mask5", MaskLabels.MASK);
    ("incorrect_mask", MaskLabels.INCORRECT);
    ("normal", MaskLabels.NORMAL)
  ].

Definition encode_multi_class (mask_label gender_label age_label : Z) : Z :=
  mask_label * 6 + gender_label * 3 + age_label.

Definition decode_multi_class (multi_class_label : Z) : Z * Z * Z :=
  let mask_label := (multi_class_label `div` 6) `mod` 3 in
  let gender_label := (multi_class_label `div` 3) `mod` 2 in
  let age_label := multi_class_label `mod` 3 in
  (mask_label, gender_label, age_label).

Section Collaborators.
Context {Image Tensor Stats : Type}.
(** [PIL.Image.open] *)
Variable Image_open : Path -> Image.
(** The numpy mean and standard deviation of [calc_statistics]. *)
Variable image_statistics : list Path -> Stats * Stats.

Record t : Type := {
  data_dir : string;
  mean : option Stats;
  std : option Stats;
  val_ratio : float;
  transform : option (Image -> Tensor)
}.

(** The body of the inner loop of [setup]. *)
Definition setup_file (self : t) (profile file_name : string) : M ClassLists unit :=
  let '(_file_name, ext) := splitext file_name in
  match _file_names !! _file_name with
  | None => ret tt
  | Some mask_label =>
      let img_path := [data_dir self; profile; file_name] in
      '(id, gender, race, age) ← call (unpack4 (split "_" profile));
      gender_label ← call (GenderLabels.from_str gender);
      age_label ← call (AgeLabels.from_number (VStr age));
      modify (image_paths_append img_path);;
      modify (mask_labels_append mask_label);;
      modify (gender_labels_append gender_label);;
      modify (age_labels_append age_label)
  end.

(** The body of the outer loop of [setup]. *)
Definition setup_profile (fs : FileSystem) (self : t) (profile : string)
    : M ClassLists unit :=
  if startswith profile "." then ret tt
  else
    let img_folder := [data_dir self; profile] in
    files ← call (fs img_folder);
    for_each files (setup_file self profile).

Definition setup (fs : FileSystem) (self : t) : M ClassLists unit :=
  profiles ← call (fs [data_dir self]);
  for_each profiles (setup_profile fs self).

Definition calc_statistics (self : t) : M ClassLists t :=
  let has_statistics := (bool_decide (is_Some (mean self)) && bool_decide (is_Some (std self)))%bool in
  if has_statistics then ret self
  else
    paths ← gets image_paths;
    let '(m, s) := image_statistics (take 3000 paths) in
    ret {| data_dir := data_dir self; mean := Some m; std := Some s;
           val_ratio := val_ratio self; transform := transform self |}.

Definition __init__ (fs : FileSystem) (data_dir : string) (mean std : option Stats)
    (val_ratio : float) : M ClassLists t :=
  let self := {| data_dir := data_dir; mean := mean; std := std;
                 val_ratio := val_ratio; transform := None |} in
  setup fs self;;
  calc_statistics self.

Definition set_transform (self : t) (transform : option (Image -> Tensor)) : t :=
  {| data_dir := data_dir self; mean := mean self; std := std self;
     val_ratio := val_ratio self; transform := transform |}.

Definition get_mask_label (cls : ClassLists) (index : Z) : result MaskLabels.t :=
  Py.getitem (mask_labels cls) index.

Definition get_gender_label (cls : ClassLists) (index : Z) : result GenderLabels.t :=
  Py.getitem (gender_labels cls) index.

Definition get_age_label (cls : ClassLists) (index : Z) : result AgeLabels.t :=
  Py.getitem (age_labels cls) index.

Definition read_image (cls : ClassLists) (index : Z) : result Image :=
  match Py.getitem (image_paths cls) index with
  | Ok image_path => Ok (Image_open image_path)
  | Raise e => Raise e
  end.

Definition __getitem__ (self : t) (cls : ClassLists) (index : Z) : result (Tensor * Z) :=
  match transform self with
  | None => Raise AssertionError_transform
  | Some transform =>
      match read_image cls index with
      | Raise e => Raise e
      | Ok image =>
      match get_mask_label cls index with
      | Raise e => Raise e
      | Ok mask_label =>
      match get_gender_label cls index with
      | Raise e => Raise e
      | Ok gender_label =>
      match get_age_label cls index with
      | Raise e => Raise e
      | Ok age_label =>
          let multi_class_label :=
            encode_multi_class (MaskLabels.value mask_label)
              (GenderLabels.value gender_label) (AgeLabels.value age_label) in
          let image_transform := transform image in
          Ok (image_transform, multi_class_label)
      end end end end
  end.

Definition __len__ (self : t) (cls : ClassLists) : Z :=
  Z.of_nat (length (image_paths cls)).

Definition split_dataset (randperm : nat -> list nat) (self : t) (cls : ClassLists)
    : result (torch.Subset * torch.Subset) :=
  n_val ← Py.int_of_product (__len__ self cls) (val_ratio self);
  let n_train := __len__ self cls - n_val in
  match torch.random_split randperm (__len__ self cls) [n_train; n_val] with
  | Ok [train_set; val_set] => Ok (train_set, val_set)
  | Ok l => Raise (ValueError_unpack (length l))
  | Raise e => Raise e
  end.

End Collaborators.
End MaskBaseDataset.

(** The test [_file_name in self._file_names] on the stem of a file. *)
Definition recognised (file_name : string) : bool :=
  bool_decide (is_Some (MaskBaseDataset._file_names !! (splitext file_name).1)).

(** The subject directory a sample path lies in. *)
Definition subject_of (img_path : Path) : option string := img_path !! 1%nat.

Module MaskSplitByProfileDataset.
Section Collaborators.
Context {Image Tensor Stats : Type}.
Variable image_statistics : list Path -> Stats * Stats.
(** The draws of [random.choices]. *)
Variable rand_index : nat -> nat -> nat.
(** The order in which [for _idx in indices] visits a set. *)
Variable set_iter : gset nat -> list nat.

(** An instance: the attributes of the base class and [indices], the
    [defaultdict(list)] made by [__init__]. *)
Record t : Type := {
  base : @MaskBaseDataset.t Image Tensor Stats;
  indices : defaultdict nat
}.

(** What [setup] mutates: the class-level lists, [self.indices] and the
    local [cnt]. *)
Record state : Type := {
  lists : ClassLists;
  self_indices : defaultdict nat;
  cnt : nat
}.

Definition on_lists (f : ClassLists -> ClassLists) (s : state) : state :=
  {| lists := f (lists s); self_indices := self_indices s; cnt := cnt s |}.

(** [self.indices[phase].append(cnt)] *)
Definition indices_append (phase : string) (s : state) : state :=
  {| lists := lists s;
     self_indices := dict_append phase (cnt s) (self_indices s);
     cnt := cnt s |}.

(** [cnt += 1] *)
Definition cnt_incr (s : state) : state :=
  {| lists := lists s; self_indices := self_indices s; cnt := S (cnt s) |}.

Definition _split_profile (profiles : list string) (val_ratio : float)
    : result (list (string * gset nat)) :=
  let length := length profiles in
  n_val ← Py.int_of_product (Z.of_nat length) val_ratio;
  match random.choices rand_index (seq 0 length) n_val with
  | Raise e => Raise e
  | Ok drawn =>
      let val_indices : gset nat := list_to_set drawn in
      let train_indices : gset nat := list_to_set (seq 0 length) ∖ val_indices in
      Ok [("train", train_indices); ("val", val_indices)]
  end.

(** The body of the innermost loop of [setup]. *)
Definition setup_file (data_dir : string) (phase profile file_name : string) : M state unit :=
  let '(_file_name, ext) := splitext file_name in
  match MaskBaseDataset._file_names !! _file_name with
  | None => ret tt
  | Some mask_label =>
      let img_path := [data_dir; profile; file_name] in
      '(id, gender, race, age) ← call (unpack4 (split "_" profile));
      gender_label ← call (GenderLabels.from_str gender);
      age_label ← call (AgeLabels.from_number (VStr age));
      modify (on_lists (image_paths_append img_path));;
      modify (on_lists (mask_labels_append mask_label));;
      modify (on_lists (gender_labels_append gender_label));;
      modify (on_lists (age_labels_append age_label));;
      modify (indices_append phase);;
      modify cnt_incr
  end.

(** [cnt = 0] *)
Definition cnt_reset (s : state) : state :=
  {| lists := lists s; self_indices := self_indices s; cnt := 0 |}.

Definition setup (fs : FileSystem) (self : @MaskBaseDataset.t Image Tensor Stats)
    : M state unit :=
  let data_dir := MaskBaseDataset.data_dir self in
  profiles ← call (fs [data_dir]);
  let profiles := List.filter (fun profile => negb (startswith profile ".")) profiles in
  split_profiles ← call (_split_profile profiles (MaskBaseDataset.val_ratio self));
  modify cnt_reset;;
  for_each split_profiles (fun '(phase, indices) =>
    for_each (set_iter indices) (fun _idx =>
      profile ← call (Py.getitem profiles (Z.of_nat _idx));
      let img_folder := [data_dir; profile] in
      files ← call (fs img_folder);
      for_each files (setup_file data_dir phase profile))).

(** [__init__]: a fresh [indices], then the base class's [__init__] with
    this class's [setup]. The result is the class-level lists after it and
    the instance, or the exception. *)
Definition __init__ (fs : FileSystem) (data_dir : string) (mean std : option Stats)
    (val_ratio : float) (cls : ClassLists) : ClassLists * result t :=
  let self := {| MaskBaseDataset.data_dir := data_dir; MaskBaseDataset.mean := mean;
                 MaskBaseDataset.std := std; MaskBaseDataset.val_ratio := val_ratio;
                 MaskBaseDataset.transform := None |} in
  match setup fs self {| lists := cls; self_indices := []; cnt := 0 |} with
  | (s, Raise e) => (lists s, Raise e)
  | (s, Ok _) =>
      match MaskBaseDataset.calc_statistics image_statistics self (lists s) with
      | (cls', Ok self') => (cls', Ok {| base := self'; indices := self_indices s |})
      | (cls', Raise e) => (cls', Raise e)
      end
  end.

(** [split_dataset]: one [Subset] per phase that received an index. *)
Definition split_dataset (self : t) : list torch.Subset :=
  map (fun '(phase, indices) => {| torch.indices := indices |}) (indices self).

End Collaborators.
End MaskSplitByProfileDataset.

(** ** Custom datasets: the label projections *)

Module MaskLabelDataset.

Definition num_classes : Z := 2 * 3.

Definition _mask_labels : gmap string MaskLabels.t :=
  list_to_map [
    ("mask", MaskLabels.MASK);
    ("incorrect_mask", MaskLabels.INCORRECT);
    ("normal", MaskLabels.NORMAL)
  ].

(** [gender_label * 3 + age_label], the label of [__getitem__] (and of
    [ModelEvalDataset.__getitem__]). *)
Definition multi_class_label (gender_label age_label : Z) : Z :=
  gender_label * 3 + age_label.

Section Collaborators.
Context {Image Tensor Stats : Type}.
Variable Image_open : Path -> Image.

Record t : Type := {
  base : @MaskBaseDataset.t Image Tensor Stats;
  indices : defaultdict nat;
  mask_label : string
}.

Definition __getitem__ (self : t) (cls : ClassLists) (index : Z) : result (Tensor * Z) :=
  match MaskBaseDataset.transform (base self) with
  | None => Raise AssertionError_transform
  | Some transform =>
      match MaskBaseDataset.read_image Image_open cls index with
      | Raise e => Raise e
      | Ok image =>
      match _mask_labels !! mask_label self with
      | None => Raise (KeyError (mask_label self))
      | Some mask_label =>
      match MaskBaseDataset.get_gender_label cls index with
      | Raise e => Raise e
      | Ok gender_label =>
      match MaskBaseDataset.get_age_label cls index with
      | Raise e => Raise e
      | Ok age_label =>
          let multi_class_label :=
            multi_class_label (GenderLabels.value gender_label)
              (AgeLabels.value age_label) in
          let image_transform := transform image in
          Ok (image_transform, multi_class_label)
      end end end end
  end.

(** The body of the innermost loop of [setup]. *)
Definition setup_file (mask_label_key data_dir : string) (phase profile file_name : string)
    : M MaskSplitByProfileDataset.state unit :=
  let '(_file_name, ext) := splitext file_name in
  if negb (startswith _file_name mask_label_key) then ret tt
  else
    let img_path := [data_dir; profile; file_name] in
    mask_label ← call (match _mask_labels !! mask_label_key with
                       | Some mask_label => Ok mask_label
                       | None => Raise (KeyError mask_label_key)
                       end);
    '(id, gender, race, age) ← call (unpack4 (split "_" profile));
    gender_label ← call (GenderLabels.from_str gender);
    age_label ← call (AgeLabels.from_number (VStr age));
    modify (MaskSplitByProfileDataset.on_lists (image_paths_append img_path));;
    modify (MaskSplitByProfileDataset.on_lists (mask_labels_append mask_label));;
    modify (MaskSplitByProfileDataset.on_lists (gender_labels_append gender_label));;
    modify (MaskSplitByProfileDataset.on_lists (age_labels_append age_label));;
    modify (MaskSplitByProfileDataset.indices_append phase);;
    modify MaskSplitByProfileDataset.cnt_incr.

End Collaborators.
End MaskLabelDataset.

Module MaskDataset.

Definition num_classes : Z := 3.

Section Collaborators.
Context {Image Tensor Stats : Type}.
Variable Image_open : Path -> Image.

Definition __getitem__ (self : @MaskBaseDataset.t Image Tensor Stats) (cls : ClassLists)
    (index : Z) : result (Tensor * MaskLabels.t) :=
  match MaskBaseDataset.transform self with
  | None => Raise AssertionError_transform
  | Some transform =>
      match MaskBaseDataset.read_image Image_open cls index with
      | Raise e => Raise e
      | Ok image =>
      match MaskBaseDataset.get_mask_label cls index with
      | Raise e => Raise e
      | Ok mask_label =>
          let image_transform := transform image in
          Ok (image_transform, mask_label)
      end end
  end.

(** The body of the innermost loop of [setup]: the directory name is not
    parsed, and only two of the four lists grow. *)
Definition setup_file (data_dir : string) (phase profile file_name : string)
    : M MaskSplitByProfileDataset.state unit :=
  let '(_file_name, ext) := splitext file_name in
  match MaskBaseDataset._file_names !! _file_name with
  | None => ret tt
  | Some mask_label =>
      let img_path := [data_dir; profile; file_name] in
      modify (MaskSplitByProfileDataset.on_lists (image_paths_append img_path));;
      modify (MaskSplitByProfileDataset.on_lists (mask_labels_append mask_label));;
      modify (MaskSplitByProfileDataset.indices_append phase);;
      modify MaskSplitByProfileDataset.cnt_incr
  end.

Variable rand_index : nat -> nat -> nat.
Variable set_iter : gset nat -> list nat.

Definition setup (fs : FileSystem) (self : @MaskBaseDataset.t Image Tensor Stats)
    : M MaskSplitByProfileDataset.state unit :=
  let data_dir := MaskBaseDataset.data_dir self in
  profiles ← call (fs [data_dir]);
  let profiles := List.filter (fun profile => negb (startswith profile ".")) profiles in
  split_profiles ← call (MaskSplitByProfileDataset._split_profile rand_index profiles
                           (MaskBaseDataset.val_ratio self));
  modify MaskSplitByProfileDataset.cnt_reset;;
  for_each split_profiles (fun '(phase, indices) =>
    for_each (set_iter indices) (fun _idx =>
      profile ← call (Py.getitem profiles (Z.of_nat _idx));
      let img_folder := [data_dir; profile] in
      files ← call (fs img_folder);
      for_each files (setup_file data_dir phase profile))).

End Collaborators.
End MaskDataset.

(** *** Which subject belongs to which phase

    [belongs phase profile]: the split of the listed subject directories
    puts directory [profile] in [phase]. [phase_invariant] relates the
    indices recorded so far to the class-level lists: every index recorded
    under a phase is the position of a path of a subject of that phase. *)

Section PhaseOfSubject.
Variable rand_index : nat -> nat -> nat.
Variable fs : FileSystem.
Variable data_dir : string.
Variable val_ratio : float.

Definition belongs (phase profile : string) : Prop :=
  exists names split_profiles indices _idx,
    fs [data_dir] = Ok names /\
    MaskSplitByProfileDataset._split_profile rand_index
      (List.filter (fun profile => negb (startswith profile ".")) names) val_ratio
    = Ok split_profiles /\
    (phase, indices) ∈ split_profiles /\
    _idx ∈ (indices : gset nat) /\
    List.filter (fun profile => negb (startswith profile ".")) names !! _idx
    = Some profile.

Definition phase_invariant (s : MaskSplitByProfileDataset.state) : Prop :=
  length (image_paths (MaskSplitByProfileDataset.lists s))
  = MaskSplitByProfileDataset.cnt s /\
  forall phase i,
    i ∈ dict_get phase (MaskSplitByProfileDataset.self_indices s) ->
    exists profile file_name,
      image_paths (MaskSplitByProfileDataset.lists s) !! i
      = Some [data_dir; profile; file_name] /\
      belongs phase profile.

End PhaseOfSubject.

(** ** Test datasets *)

Module EvalDataset.

Definition _file_names : gmap string MaskLabels.t :=
  list_to_map [
    ("mask1", MaskLabels.MASK);
    ("mask2", MaskLabels.MASK);
    ("mask3", MaskLabels.MASK);
    ("mask4", MaskLabels.MASK);
    ("mask5", MaskLabels.MASK);
    ("incorrect_mask", MaskLabels.INCORRECT);
    ("normal", MaskLabels.NORMAL)
  ].

Section Collaborators.
Context {Image Tensor Stats : Type}.
(** The draw of [random.choices] made while [file_name] of [profile] is
    visited. *)
Variable bisected : string -> string -> nat.

Record t : Type := {
  data_dir : string;
  mean : option Stats;
  std : option Stats;
  transform : option (Image -> Tensor);
  data_ratio : Q
}.

(** The body of the inner loop of [setup]. *)
Definition setup_file (self : t) (profile file_name : string) : M ClassLists unit :=
  let '(_file_name, ext) := splitext file_name in
  match _file_names !! _file_name with
  | None => ret tt
  | Some mask_label =>
      is_in ← call (random.choices_weighted (bisected profile file_name) [true; false]
                      [data_ratio self; (1 - data_ratio self)%Q]);
      if negb (truthy is_in) then ret tt
      else
        let img_path := [data_dir self; profile; file_name] in
        '(id, gender, race, age) ← call (unpack4 (split "_" profile));
        gender_label ← call (GenderLabels.from_str gender);
        age_label ← call (AgeLabels.from_number (VStr age));
        modify (image_paths_append img_path);;
        modify (mask_labels_append mask_label);;
        modify (gender_labels_append gender_label);;
        modify (age_labels_append age_label)
  end.

(** The body of the outer loop of [setup]. *)
Definition setup_profile (fs : FileSystem) (self : t) (profile : string)
    : M ClassLists unit :=
  if startswith profile "." then ret tt
  else
    let img_folder := [data_dir self; profile] in
    files ← call (fs img_folder);
    for_each files (setup_file self profile).

Definition setup (fs : FileSystem) (self : t) : M ClassLists unit :=
  profiles ← call (fs [data_dir self]);
  for_each profiles (setup_profile fs self).

Definition __init__ (fs : FileSystem) (data_dir : string) (ratio : Q)
    (mean std : option Stats) : M ClassLists t :=
  let self := {| data_dir := data_dir; mean := mean; std := std;
                 transform := None; data_ratio := ratio |} in
  setup fs self;;
  ret self.

Definition __len__ (self : t) (cls : ClassLists) : Z :=
  Z.of_nat (length (image_paths cls)).

(** [__getitem__]: no assertion here; without a transform the image is
    returned as opened. *)
Definition __getitem__ (Image_open : Path -> Image) (self : t) (cls : ClassLists)
    (index : Z) : result ((Image + Tensor) * Z) :=
  match Py.getitem (image_paths cls) index with
  | Raise e => Raise e
  | Ok image_path =>
  let image := Image_open image_path in
  match Py.getitem (mask_labels cls) index with
  | Raise e => Raise e
  | Ok mask_label =>
  match Py.getitem (gender_labels cls) index with
  | Raise e => Raise e
  | Ok gender_label =>
  match Py.getitem (age_labels cls) index with
  | Raise e => Raise e
  | Ok age_label =>
      let multi_class_label :=
        MaskLabels.value mask_label * 6 + GenderLabels.value gender_label * 3
        + AgeLabels.value age_label in
      match transform self with
      | Some transform => Ok (inr (transform image), multi_class_label)
      | None => Ok (inl image, multi_class_label)
      end
  end end end end.

Definition set_transform (self : t) (transform : option (Image -> Tensor)) : t :=
  {| data_dir := data_dir self; mean := mean self; std := std self;
     transform := transform; data_ratio := data_ratio self |}.

End Collaborators.
End EvalDataset.

Module ModelEvalDataset.
Section Collaborators.
Context {Image Tensor Stats : Type}.
Variable bisected : string -> string -> nat.

Record t : Type := {
  data_dir : string;
  mean : option Stats;
  std : option Stats;
  transform : option (Image -> Tensor);
  label : string;
  data_ratio : Q
}.

(** The body of the inner loop of [setup]. *)
Definition setup_file (self : t) (profile file_name : string) : M ClassLists unit :=
  let '(_file_name, ext) := splitext file_name in
  if negb (startswith _file_name (label self)) then ret tt
  else
    is_in ← call (random.choices_weighted (bisected profile file_name) [true; false]
                    [data_ratio self; (1 - data_ratio self)%Q]);
    if negb (truthy is_in) then ret tt
    else
      let img_path := [data_dir self; profile; file_name] in
      '(id, gender, race, age) ← call (unpack4 (split "_" profile));
      gender_label ← call (GenderLabels.from_str gender);
      age_label ← call (AgeLabels.from_number (VStr age));
      modify (image_paths_append img_path);;
      modify (gender_labels_append gender_label);;
      modify (age_labels_append age_label).

(** The body of the outer loop of [setup]. *)
Definition setup_profile (fs : FileSystem) (self : t) (profile : string)
    : M ClassLists unit :=
  if startswith profile "." then ret tt
  else
    let img_folder := [data_dir self; profile] in
    files ← call (fs img_folder);
    for_each files (setup_file self profile).

Definition setup (fs : FileSystem) (self : t) : M ClassLists unit :=
  profiles ← call (fs [data_dir self]);
  for_each profiles (setup_profile fs self).

Definition __init__ (fs : FileSystem) (data_dir label : string) (ratio : Q)
    (mean std : option Stats) : M ClassLists t :=
  let self := {| data_dir := data_dir; mean := mean; std := std;
                 transform := None; label := label; data_ratio := ratio |} in
  setup fs self;;
  ret self.

Definition __len__ (self : t) (cls : ClassLists) : Z :=
  Z.of_nat (length (image_paths cls)).

End Collaborators.
End ModelEvalDataset.

(** ** Image files *)

Definition IMG_EXTENSIONS : list string :=
  [".jpg"; ".JPG"; ".jpeg"; ".JPEG"; ".png";
   ".PNG"; ".ppm"; ".PPM"; ".bmp"; ".BMP"].

(** [s.endswith(suffix)] *)
Definition endswith (s suffix : string) : bool :=
  String.prefix (str (rev (chars suffix))) (str (rev (chars s))).

Definition is_image_file (filename : string) : bool :=
  existsb (fun extension => endswith filename extension) IMG_EXTENSIONS.

(** ** What the scan leaves in the lists

    [aligned]: the four lists have one length. [labels_of_path]: the
    labels the naming convention gives a path, the mask from the stem of
    the file, gender and age from the second and fourth field of the
    directory name. [derived]: every index holds the labels of its path. *)

Definition aligned (cls : ClassLists) : Prop :=
  length (mask_labels cls) = length (image_paths cls) /\
  length (gender_labels cls) = length (image_paths cls) /\
  length (age_labels cls) = length (image_paths cls).

Definition labels_of_path (img_path : Path)
    : option (MaskLabels.t * GenderLabels.t * AgeLabels.t) :=
  match img_path with
  | [_; profile; file_name] =>
      match MaskBaseDataset._file_names !! (splitext file_name).1,
            unpack4 (split "_" profile) with
      | Some mask_label, Ok (_, gender, _, age) =>
          match GenderLabels.from_str gender, AgeLabels.from_number (VStr age) with
          | Ok gender_label, Ok age_label => Some (mask_label, gender_label, age_label)
          | _, _ => None
          end
      | _, _ => None
      end
  | _ => None
  end.

Definition derived (cls : ClassLists) : Prop :=
  forall (i : nat) (p : Path),
    image_paths cls !! i = Some p ->
    exists m g a,
      labels_of_path p = Some (m, g, a) /\
      mask_labels cls !! i = Some m /\
      gender_labels cls !! i = Some g /\
      age_labels cls !! i = Some a.

(** A directory name the scan can parse: four fields, a gender and a
    numeric age. *)
Definition well_named (profile : string) : Prop :=
  exists id gender race age gender_label age_label,
    split "_" profile = [id; gender; race; age] /\
    GenderLabels.from_str gender = Ok gender_label /\
    AgeLabels.from_number (VStr age) = Ok age_label.

(** The number of files of a listing the scan keeps. *)
Definition count_recognised (files : list string) : nat :=
  length (List.filter recognised files).

(** ** Corpora and draws used in the examples *)

Module Fixtures.

(** A directory tree: each directory of [tree] with its listing; any other
    path makes [os.listdir] raise. *)
Definition listdir (tree : list (Path * list string)) : FileSystem :=
  fun path =>
    match list_find (fun entry => entry.1 = path) tree with
    | Some (_, (_, names)) => Ok names
    | None => Raise (OSError path)
    end.

(** Section 8, property 6 of the specification. *)
Definition corpus_one : FileSystem :=
  listdir [
    (["data"], ["000001_female_Asian_45"; ".DS_Store"]);
    (["data"; "000001_female_Asian_45"],
      ["mask1.jpg"; "incorrect_mask.png"; "normal.bmp"; "readme.txt"; ".hidden.jpg"])
  ].

(** Three subjects, the first with two photographs. *)
Definition corpus_three : FileSystem :=
  listdir [
    (["data"], ["000001_female_Asian_45"; "000002_male_Asian_61"; "000004_MALE_Asian_19"]);
    (["data"; "000001_female_Asian_45"], ["mask1.jpg"; "normal.jpg"]);
    (["data"; "000002_male_Asian_61"], ["mask1.jpg"]);
    (["data"; "000004_MALE_Asian_19"], ["mask1.jpg"])
  ].

(** A subject directory with an unknown gender and no recognised file. *)
Definition corpus_unknown_gender_no_image : FileSystem :=
  listdir [
    (["data"], ["001_nonbinary_asian_25"]);
    (["data"; "001_nonbinary_asian_25"], ["readme.txt"])
  ].

(** The same directory holding a photograph. *)
Definition corpus_unknown_gender : FileSystem :=
  listdir [
    (["data"], ["000001_female_Asian_45"; "001_nonbinary_asian_25"]);
    (["data"; "000001_female_Asian_45"], ["mask1.jpg"]);
    (["data"; "001_nonbinary_asian_25"], ["notes.txt"; "mask1.jpg"; "normal.jpg"])
  ].

(** A str given by its UTF-8 bytes. *)
Definition bytes (l : list Z) : string :=
  string_of_list_ascii (map (fun b => ascii_of_N (Z.to_N b)) l).

(** A subject directory whose age field starts with the separator 28. *)
Definition corpus_separator_in_age : FileSystem :=
  listdir [
    (["data"], ["000001_female_Asian_" ++ bytes [28; 50; 53]]);
    (["data"; "000001_female_Asian_" ++ bytes [28; 50; 53]], ["mask1.jpg"])
  ].

(** Sets of small integers are visited in increasing order. *)
Definition increasing (s : gset nat) : list nat := merge_sort Nat.le (elements s).

(** Every draw gives the same index (when the population has it). *)
Definition always (i : nat) : nat -> nat -> nat :=
  fun _ n => Nat.min i (n - 1).

(** The float a decimal literal denotes, [literal 29 2] for [0.29]: the
    float nearest to the quotient of the digits and the power of ten. *)
Definition literal (digits places : Z) : float :=
  SFdiv prec emax (binary_normalize prec emax digits 0 false)
                  (binary_normalize prec emax (10 ^ places) 0 false).

(** The ratios of the examples: [0.2] is 0x1.999999999999ap-3, [0.29]
    0x1.28f5c28f5c28fp-2, [0.4] 0x1.999999999999ap-2, [0.6]
    0x1.3333333333333p-1, [0.7] 0x1.6666666666666p-1 and [0.9]
    0x1.ccccccccccccdp-1. *)
Definition ratio_0_2 : float := S754_finite false 7205759403792794 (-55).
Definition ratio_0_29 : float := S754_finite false 5224175567749775 (-54).
Definition ratio_0_4 : float := S754_finite false 7205759403792794 (-54).
Definition ratio_0_6 : float := S754_finite false 5404319552844595 (-53).
Definition ratio_0_7 : float := S754_finite false 6305039478318694 (-53).
Definition ratio_0_9 : float := S754_finite false 8106479329266893 (-53).

(** A dataset with the default statistics and no images or tensors to
    speak of. *)
Definition default_stats : option unit := Some tt.
Definition no_statistics : list Path -> unit * unit := fun _ => (tt, tt).

(** The instance built with the default arguments and ratio 0.2. *)
Definition default_dataset : @MaskBaseDataset.t unit unit unit :=
  {| MaskBaseDataset.data_dir := "data"; MaskBaseDataset.mean := default_stats;
     MaskBaseDataset.std := default_stats; MaskBaseDataset.val_ratio := ratio_0_2;
     MaskBaseDataset.transform := None |}.

(** The same instance for a model in which an image is its path and a
    tensor a list of paths. *)
Definition path_dataset : @MaskBaseDataset.t Path (list Path) unit :=
  {| MaskBaseDataset.data_dir := "data"; MaskBaseDataset.mean := default_stats;
     MaskBaseDataset.std := default_stats; MaskBaseDataset.val_ratio := ratio_0_2;
     MaskBaseDataset.transform := None |}.

(** Lists holding one sample, and eleven. *)
Definition one_sample : ClassLists :=
  {| image_paths := [["data"; "000001_female_Asian_45"; "normal.jpg"]];
     mask_labels := [MaskLabels.NORMAL];
     gender_labels := [GenderLabels.FEMALE];
     age_labels := [AgeLabels.MIDDLE] |}.

Definition eleven_samples : ClassLists :=
  {| image_paths := replicate 11 ["data"; "000001_female_Asian_45"; "normal.jpg"];
     mask_labels := replicate 11 MaskLabels.NORMAL;
     gender_labels := replicate 11 GenderLabels.FEMALE;
     age_labels := replicate 11 AgeLabels.MIDDLE |}.

(** Lists holding [n] samples, and the instance built with a given
    ratio. *)
Definition samples (n : nat) : ClassLists :=
  {| image_paths := replicate n ["data"; "000001_female_Asian_45"; "normal.jpg"];
     mask_labels := replicate n MaskLabels.NORMAL;
     gender_labels := replicate n GenderLabels.FEMALE;
     age_labels := replicate n AgeLabels.MIDDLE |}.

Definition dataset_at (val_ratio : float) : @MaskBaseDataset.t unit unit unit :=
  {| MaskBaseDataset.data_dir := "data"; MaskBaseDataset.mean := default_stats;
     MaskBaseDataset.std := default_stats; MaskBaseDataset.val_ratio := val_ratio;
     MaskBaseDataset.transform := None |}.

(** The samples of one scan of [corpus_one]. *)
Definition corpus_one_lists : ClassLists :=
  {| image_paths :=
       [["data"; "000001_female_Asian_45"; "mask1.jpg"];
        ["data"; "000001_female_Asian_45"; "incorrect_mask.png"];
        ["data"; "000001_female_Asian_45"; "normal.bmp"]];
     mask_labels := [MaskLabels.MASK; MaskLabels.INCORRECT; MaskLabels.NORMAL];
     gender_labels := [GenderLabels.FEMALE; GenderLabels.FEMALE; GenderLabels.FEMALE];
     age_labels := [AgeLabels.MIDDLE; AgeLabels.MIDDLE; AgeLabels.MIDDLE] |}.

(** The samples of one scan of [corpus_three], subject by subject. *)
Definition corpus_three_lists : ClassLists :=
  {| image_paths :=
       [["data"; "000001_female_Asian_45"; "mask1.jpg"];
        ["data"; "000001_female_Asian_45"; "normal.jpg"];
        ["data"; "000002_male_Asian_61"; "mask1.jpg"];
        ["data"; "000004_MALE_Asian_19"; "mask1.jpg"]];
     mask_labels := [MaskLabels.MASK; MaskLabels.NORMAL; MaskLabels.MASK; MaskLabels.MASK];
     gender_labels := [GenderLabels.FEMALE; GenderLabels.FEMALE; GenderLabels.MALE;
                       GenderLabels.MALE];
     age_labels := [AgeLabels.MIDDLE; AgeLabels.MIDDLE; AgeLabels.OLD; AgeLabels.YOUNG] |}.

(** The listing of the one subject directory of [corpus_one]. *)
Definition corpus_one_files : list string :=
  ["mask1.jpg"; "incorrect_mask.png"; "normal.bmp"; "readme.txt"; ".hidden.jpg"].

(** The state [__init__] hands to [setup]. *)
Definition fresh_state : MaskSplitByProfileDataset.state :=
  {| MaskSplitByProfileDataset.lists := empty_lists;
     MaskSplitByProfileDataset.self_indices := [];
     MaskSplitByProfileDataset.cnt := 0 |}.

(** The evaluation dataset before a transform is set. *)
Definition eval_dataset : @EvalDataset.t Path (list Path) unit :=
  {| EvalDataset.data_dir := "data"; EvalDataset.mean := default_stats;
     EvalDataset.std := default_stats; EvalDataset.transform := None;
     EvalDataset.data_ratio := 1 |}.

(** A gender-and-age dataset over the masked photographs. *)
Definition gender_age_dataset : @MaskLabelDataset.t Path (list Path) unit :=
  {| MaskLabelDataset.base :=
       MaskBaseDataset.set_transform path_dataset (Some (fun image => [image]));
     MaskLabelDataset.indices := [];
     MaskLabelDataset.mask_label := "mask" |}.

End Fixtures.


(** * Properties *)

(** ** Label encoder *)

Section LabelEncoder.

Lemma valid_mask_cases m : valid_mask m -> m = 0 \/ m = 1 \/ m = 2.
Proof. unfold valid_mask. lia. Qed.

Lemma valid_gender_cases g : valid_gender g -> g = 0 \/ g = 1.
Proof. unfold valid_gender. lia. Qed.

Lemma valid_age_cases a : valid_age a -> a = 0 \/ a = 1 \/ a = 2.
Proof. unfold valid_age. lia. Qed.

(** The enumerations take their values in the valid ranges. *)
Lemma MaskLabels_value_valid m : valid_mask (MaskLabels.value m).
Proof. destruct m; unfold valid_mask; simpl; lia. Qed.

Lemma GenderLabels_value_valid g : valid_gender (GenderLabels.value g).
Proof. destruct g; unfold valid_gender; simpl; lia. Qed.

Lemma AgeLabels_value_valid a : valid_age (AgeLabels.value a).
Proof. destruct a; unfold valid_age; simpl; lia. Qed.

(** C1. Decoding the encoded full-taxonomy label of a valid triple gives
    the triple back. *)
Theorem decode_encode_multi_class (mask gender age : Z) :
  valid_mask mask -> valid_gender gender -> valid_age age ->
  MaskBaseDataset.decode_multi_class (MaskBaseDataset.encode_multi_class mask gender age) = (mask, gender, age).
Proof.
  intros Hm Hg Ha.
  destruct (valid_mask_cases _ Hm) as [-> | [-> | ->]];
    destruct (valid_gender_cases _ Hg) as [-> | ->];
    destruct (valid_age_cases _ Ha) as [-> | [-> | ->]];
    reflexivity.
Qed.

Lemma decode_encode_multi_class_witness :
  MaskBaseDataset.decode_multi_class (MaskBaseDataset.encode_multi_class 2 1 2) = (2, 1, 2).
Proof.
  apply decode_encode_multi_class; unfold valid_mask, valid_gender, valid_age; lia.
Defined.

(** The labels decoded from a class id below 18 encode back to it. *)
Lemma encode_decode_multi_class (c : Z) :
  0 <= c < 18 ->
  let '(m, g, a) := MaskBaseDataset.decode_multi_class c in
  valid_mask m /\ valid_gender g /\ valid_age a /\ MaskBaseDataset.encode_multi_class m g a = c.
Proof.
  intros Hc.
  assert (Hin : In c (map Z.of_nat (seq 0 18))).
  { apply in_map_iff. exists (Z.to_nat c). split; [lia |].
    apply in_seq. lia. }
  simpl in Hin.
  unfold valid_mask, valid_gender, valid_age.
  repeat (destruct Hin as [<- | Hin]; [vm_compute; intuition congruence |]).
  destruct Hin.
Qed.

End LabelEncoder.

(** ** Label parsers *)

Section LabelParsers.

(** C9. [from_number] gives YOUNG below 30, MIDDLE from 30 and below 60,
    OLD from 60, for every input [int] reads as that integer, and raises
    the age error for every string [int] does not read. *)
Theorem from_number_brackets :
  (forall v n, Py.int v = Some n -> n < 30 ->
     AgeLabels.from_number v = Ok AgeLabels.YOUNG) /\
  (forall v n, Py.int v = Some n -> 30 <= n < 60 ->
     AgeLabels.from_number v = Ok AgeLabels.MIDDLE) /\
  (forall v n, Py.int v = Some n -> 60 <= n ->
     AgeLabels.from_number v = Ok AgeLabels.OLD) /\
  (forall s, Py.int (VStr s) = None ->
     AgeLabels.from_number (VStr s) = Raise (ValueError_age (VStr s))).
Proof.
  unfold AgeLabels.from_number.
  split; [| split; [| split]].
  - intros v n -> Hn. destruct (Z.ltb_spec n 30); [reflexivity | lia].
  - intros v n -> Hn.
    destruct (Z.ltb_spec n 30); [lia |].
    destruct (Z.ltb_spec n 60); [reflexivity | lia].
  - intros v n -> Hn.
    destruct (Z.ltb_spec n 30); [lia |].
    destruct (Z.ltb_spec n 60); [lia | reflexivity].
  - intros s ->. reflexivity.
Qed.

Lemma from_number_brackets_witness :
  AgeLabels.from_number (VStr "29") = Ok AgeLabels.YOUNG /\
  AgeLabels.from_number (VStr "30") = Ok AgeLabels.MIDDLE /\
  AgeLabels.from_number (VInt 59) = Ok AgeLabels.MIDDLE /\
  AgeLabels.from_number (VStr " 60 ") = Ok AgeLabels.OLD /\
  AgeLabels.from_number (VStr "-3") = Ok AgeLabels.YOUNG /\
  AgeLabels.from_number (VStr "sixty") = Raise (ValueError_age (VStr "sixty")) /\
  AgeLabels.from_number (VStr "") = Raise (ValueError_age (VStr "")).
Proof.
  destruct from_number_brackets as (Hy & Hm & Ho & He).
  split_and!.
  - apply (Hy (VStr "29") 29); [reflexivity | lia].
  - apply (Hm (VStr "30") 30); [reflexivity | lia].
  - apply (Hm (VInt 59) 59); [reflexivity | lia].
  - apply (Ho (VStr " 60 ") 60); [reflexivity | lia].
  - apply (Hy (VStr "-3") (-3)); [reflexivity | lia].
  - apply (He "sixty"); reflexivity.
  - apply (He ""); reflexivity.
Defined.

End LabelParsers.

(** ** Dataset view *)

Section DatasetView.
Context {Image Tensor Stats : Type}.
Variable Image_open : Path -> Image.

(** C7. Whatever the index, [__getitem__] raises the assertion error while
    no transform is bound; once [set_transform] has bound one, it returns
    the transform of the image opened at the index's path with the encoded
    full-taxonomy label of the index's labels. *)
Theorem getitem_needs_transform :
  (forall (self : @MaskBaseDataset.t Image Tensor Stats) cls index,
     MaskBaseDataset.transform self = None ->
     MaskBaseDataset.__getitem__ Image_open self cls index
     = Raise AssertionError_transform) /\
  (forall (self : @MaskBaseDataset.t Image Tensor Stats) cls (transform : Image -> Tensor) index p m g a,
     Py.getitem (image_paths cls) index = Ok p ->
     Py.getitem (mask_labels cls) index = Ok m ->
     Py.getitem (gender_labels cls) index = Ok g ->
     Py.getitem (age_labels cls) index = Ok a ->
     MaskBaseDataset.__getitem__ Image_open
       (MaskBaseDataset.set_transform self (Some transform)) cls index
     = Ok (transform (Image_open p),
           MaskBaseDataset.encode_multi_class (MaskLabels.value m) (GenderLabels.value g)
             (AgeLabels.value a))).
Proof.
  split.
  - intros self cls index Hnone.
    unfold MaskBaseDataset.__getitem__. rewrite Hnone. reflexivity.
  - intros self cls transform index p m g a Hp Hm Hg Ha.
    unfold MaskBaseDataset.__getitem__, MaskBaseDataset.read_image,
      MaskBaseDataset.get_mask_label, MaskBaseDataset.get_gender_label,
      MaskBaseDataset.get_age_label.
    simpl. rewrite Hp, Hm, Hg, Ha. reflexivity.
Qed.

(** The labels [__getitem__] returns are class ids of the variant. *)
Lemma getitem_label_range (self : @MaskBaseDataset.t Image Tensor Stats)
    (cls : ClassLists) (index : Z) (x : Tensor) (label : Z) :
  MaskBaseDataset.__getitem__ Image_open self cls index = Ok (x, label) ->
  0 <= label < 18.
Proof.
  unfold MaskBaseDataset.__getitem__.
  destruct (MaskBaseDataset.transform self); [| discriminate].
  destruct (MaskBaseDataset.read_image _ _ _); [| discriminate].
  destruct (MaskBaseDataset.get_mask_label _ _) as [m |]; [| discriminate].
  destruct (MaskBaseDataset.get_gender_label _ _) as [g |]; [| discriminate].
  destruct (MaskBaseDataset.get_age_label _ _) as [age |]; [| discriminate].
  intros [= _ <-].
  pose proof (MaskLabels_value_valid m). pose proof (GenderLabels_value_valid g).
  pose proof (AgeLabels_value_valid age).
  unfold valid_mask, valid_gender, valid_age, MaskBaseDataset.encode_multi_class in *.
  lia.
Qed.

(** The labels of [MaskLabelDataset.__getitem__] start at 0 and stay
    below its [num_classes], as the loss function requires. *)
Lemma gender_age_getitem_label_range (self : @MaskLabelDataset.t Image Tensor Stats)
    (cls : ClassLists) (index : Z) (x : Tensor) (label : Z) :
  MaskLabelDataset.__getitem__ Image_open self cls index = Ok (x, label) ->
  0 <= label < MaskLabelDataset.num_classes.
Proof.
  unfold MaskLabelDataset.__getitem__.
  destruct (MaskBaseDataset.transform _); [| discriminate].
  destruct (MaskBaseDataset.read_image _ _ _); [| discriminate].
  destruct (MaskLabelDataset._mask_labels !! _); [| discriminate].
  destruct (MaskBaseDataset.get_gender_label _ _) as [g |]; [| discriminate].
  destruct (MaskBaseDataset.get_age_label _ _) as [age |]; [| discriminate].
  intros [= _ <-].
  pose proof (GenderLabels_value_valid g). pose proof (AgeLabels_value_valid age).
  unfold valid_gender, valid_age, MaskLabelDataset.multi_class_label,
    MaskLabelDataset.num_classes in *.
  lia.
Qed.

(** C6. Each variant's label lies in [0, num_classes), and every class
    id of the range is the label of some labels: 18 classes for the full
    taxonomy of [encode_multi_class]; 6 for the label
    [gender_label * 3 + age_label] that [MaskLabelDataset.__getitem__]
    returns for the gender and age stored at the index; 3 for the mask
    label that [MaskDataset.__getitem__] returns. *)
Theorem encode_range_and_onto :
  (forall m g a, valid_mask m -> valid_gender g -> valid_age a ->
     0 <= MaskBaseDataset.encode_multi_class m g a < 18) /\
  (forall c, 0 <= c < 18 ->
     exists m g a, valid_mask m /\ valid_gender g /\ valid_age a /\
                   MaskBaseDataset.encode_multi_class m g a = c) /\
  (forall (self : @MaskLabelDataset.t Image Tensor Stats) cls index x label,
     MaskLabelDataset.__getitem__ Image_open self cls index = Ok (x, label) ->
     (exists g a,
        MaskBaseDataset.get_gender_label cls index = Ok g /\
        MaskBaseDataset.get_age_label cls index = Ok a /\
        label = GenderLabels.value g * 3 + AgeLabels.value a) /\
     0 <= label < MaskLabelDataset.num_classes) /\
  (forall c, 0 <= c < MaskLabelDataset.num_classes ->
     exists g a,
       forall (self : @MaskLabelDataset.t Image Tensor Stats) transform mask cls index p,
         MaskBaseDataset.transform (MaskLabelDataset.base self) = Some transform ->
         MaskLabelDataset._mask_labels !! MaskLabelDataset.mask_label self = Some mask ->
         Py.getitem (image_paths cls) index = Ok p ->
         Py.getitem (gender_labels cls) index = Ok g ->
         Py.getitem (age_labels cls) index = Ok a ->
         MaskLabelDataset.__getitem__ Image_open self cls index
         = Ok (transform (Image_open p), c)) /\
  (forall (self : @MaskBaseDataset.t Image Tensor Stats) cls index x m,
     MaskDataset.__getitem__ Image_open self cls index = Ok (x, m) ->
     0 <= MaskLabels.value m < MaskDataset.num_classes) /\
  (forall c, 0 <= c < MaskDataset.num_classes ->
     exists m,
       MaskLabels.value m = c /\
       forall (self : @MaskBaseDataset.t Image Tensor Stats) transform cls index p,
         MaskBaseDataset.transform self = Some transform ->
         Py.getitem (image_paths cls) index = Ok p ->
         Py.getitem (mask_labels cls) index = Ok m ->
         MaskDataset.__getitem__ Image_open self cls index
         = Ok (transform (Image_open p), m)).
Proof.
  split; [| split; [| split; [| split; [| split]]]].
  - unfold valid_mask, valid_gender, valid_age, MaskBaseDataset.encode_multi_class. lia.
  - intros c Hc. pose proof (encode_decode_multi_class c Hc) as H.
    destruct (MaskBaseDataset.decode_multi_class c) as [[m g] a].
    exists m, g, a. exact H.
  - intros self cls index x label. unfold MaskLabelDataset.__getitem__.
    destruct (MaskBaseDataset.transform _); [| discriminate].
    destruct (MaskBaseDataset.read_image _ _ _); [| discriminate].
    destruct (MaskLabelDataset._mask_labels !! _); [| discriminate].
    destruct (MaskBaseDataset.get_gender_label _ _) as [g |]; [| discriminate].
    destruct (MaskBaseDataset.get_age_label _ _) as [age |]; [| discriminate].
    intros [= _ <-]. split.
    + exists g, age. split_and!; reflexivity.
    + unfold MaskLabelDataset.multi_class_label, MaskLabelDataset.num_classes.
      destruct g, age; simpl; lia.
  - unfold MaskLabelDataset.num_classes. intros c Hc.
    assert (Hcases : c = 0 \/ c = 1 \/ c = 2 \/ c = 3 \/ c = 4 \/ c = 5) by lia.
    destruct Hcases as [-> | [-> | [-> | [-> | [-> | ->]]]]];
      [exists GenderLabels.MALE, AgeLabels.YOUNG
      | exists GenderLabels.MALE, AgeLabels.MIDDLE
      | exists GenderLabels.MALE, AgeLabels.OLD
      | exists GenderLabels.FEMALE, AgeLabels.YOUNG
      | exists GenderLabels.FEMALE, AgeLabels.MIDDLE
      | exists GenderLabels.FEMALE, AgeLabels.OLD];
      intros self transform mask cls index p Ht Hmask Hp Hg Ha;
      unfold MaskLabelDataset.__getitem__, MaskBaseDataset.read_image,
        MaskBaseDataset.get_gender_label, MaskBaseDataset.get_age_label;
      rewrite Ht, Hp, Hmask, Hg, Ha; reflexivity.
  - intros self cls index x m _. unfold MaskDataset.num_classes.
    destruct m; simpl; lia.
  - unfold MaskDataset.num_classes. intros c Hc.
    assert (Hcases : c = 0 \/ c = 1 \/ c = 2) by lia.
    destruct Hcases as [-> | [-> | ->]];
      [exists MaskLabels.MASK | exists MaskLabels.INCORRECT | exists MaskLabels.NORMAL];
      (split; [reflexivity |]);
      intros self transform cls index p Ht Hp Hm;
      unfold MaskDataset.__getitem__, MaskBaseDataset.read_image,
        MaskBaseDataset.get_mask_label;
      rewrite Ht, Hp, Hm; reflexivity.
Qed.

End DatasetView.

(** ** Binary64: the product of a length and a ratio

    [length * val_ratio] is rounded to the nearest float before [int]
    truncates it. Below 2^53 every integer is a float, so a product that
    lies between two integers is rounded to a float between them. *)

Section Binary64.

(** The exponent of the format: 53 bits, subnormal below 2^-1022. *)
Lemma fexp_binary64 (x : Z) : fexp prec emax x = Z.max (x - 53) (-1074).
Proof. reflexivity. Qed.

(** The number of binary digits of a mantissa. *)
Lemma digits2_pos_bounds (p : positive) :
  2 ^ (Zpos (digits2_pos p) - 1) <= Zpos p < 2 ^ Zpos (digits2_pos p).
Proof.
  induction p as [p IH | p IH |]; cbn [digits2_pos].
  - rewrite Pos2Z.inj_succ.
    replace (Z.succ (Zpos (digits2_pos p)) - 1) with (Z.succ (Zpos (digits2_pos p) - 1)) by lia.
    rewrite !Z.pow_succ_r by lia. lia.
  - rewrite Pos2Z.inj_succ.
    replace (Z.succ (Zpos (digits2_pos p)) - 1) with (Z.succ (Zpos (digits2_pos p) - 1)) by lia.
    rewrite !Z.pow_succ_r by lia. lia.
  - simpl. lia.
Qed.

(** Shifting a mantissa right, one bit at a time: the quotient stays, and
    the two bits that remember what was shifted out are set only if
    something was. *)
Lemma iter_pos_nat {A} (f : A -> A) (p : positive) (x : A) :
  SpecFloat.iter_pos f p x = Nat.iter (Pos.to_nat p) f x.
Proof.
  revert x. induction p as [p IH | p IH |]; intros x; cbn [SpecFloat.iter_pos].
  - rewrite !IH, Pos2Nat.inj_xI.
    replace (S (2 * Pos.to_nat p)) with (Pos.to_nat p + S (Pos.to_nat p))%nat by lia.
    rewrite Nat.iter_add. f_equal. rewrite Nat.iter_succ_r. reflexivity.
  - rewrite !IH, Pos2Nat.inj_xO.
    replace (2 * Pos.to_nat p)%nat with (Pos.to_nat p + Pos.to_nat p)%nat by lia.
    rewrite Nat.iter_add. reflexivity.
  - reflexivity.
Qed.

Lemma shr_1_spec (mrs : shr_record) :
  0 <= shr_m mrs ->
  shr_m (shr_1 mrs) = shr_m mrs / 2 /\
  shr_r (shr_1 mrs) = Z.odd (shr_m mrs) /\
  shr_s (shr_1 mrs) = orb (shr_r mrs) (shr_s mrs).
Proof.
  destruct mrs as [m r s]. cbn [shr_m shr_r shr_s]. intros Hm.
  destruct m as [| [p | p |] | p]; cbn [shr_1 shr_m shr_r shr_s]; try lia.
  - split; [reflexivity | split; reflexivity].
  - split; [| split; reflexivity].
    rewrite Pos2Z.inj_xI. apply Z.div_unique with 1; lia.
  - split; [| split; reflexivity].
    rewrite Pos2Z.inj_xO. apply Z.div_unique with 0; lia.
  - split; [reflexivity | split; reflexivity].
Qed.

Lemma shr_iter (k : nat) (M : Z) :
  0 <= M ->
  let mrs := Nat.iter k shr_1 (Build_shr_record M false false) in
  shr_m mrs = M / 2 ^ Z.of_nat k /\
  (orb (shr_r mrs) (shr_s mrs) = true -> M mod 2 ^ Z.of_nat k <> 0).
Proof.
  intros HM. induction k as [| k IH].
  - simpl. split; [symmetry; apply Z.div_1_r | discriminate].
  - cbn zeta in IH |- *. rewrite Nat.iter_succ.
    destruct IH as [IHm IHrs].
    set (mrs := Nat.iter k shr_1 _) in *.
    assert (Hpos : 0 < 2 ^ Z.of_nat k) by (apply Z.pow_pos_nonneg; lia).
    assert (Hm0 : 0 <= shr_m mrs)
      by (rewrite IHm; apply Z.div_pos; lia).
    destruct (shr_1_spec mrs Hm0) as (Hm & Hr & Hs).
    rewrite Nat2Z.inj_succ, Z.pow_succ_r by lia.
    rewrite (Z.mul_comm 2).
    split.
    + rewrite Hm, IHm, Z.div_div by lia. reflexivity.
    + rewrite Hr, Hs. intros Hrs.
      rewrite Z.rem_mul_r by lia.
      pose proof (Z.mod_pos_bound M (2 ^ Z.of_nat k) Hpos) as Hb.
      pose proof (Z.mod_pos_bound (M / 2 ^ Z.of_nat k) 2 ltac:(lia)) as Hb2.
      apply orb_true_iff in Hrs. destruct Hrs as [Hodd | Hold].
      * rewrite IHm in Hodd. rewrite Zodd_mod in Hodd.
        apply Z.eqb_eq in Hodd. nia.
      * specialize (IHrs Hold). nia.
Qed.

(** One alignment step of the rounding: the mantissa stays between the
    two integers, and an inexact step leaves room above. *)
Lemma shr_fexp_between (m e A B : Z) :
  0 <= m -> e <= 0 -> 0 <= A -> B < 2 ^ 53 ->
  A * 2 ^ (- e) <= m <= B * 2 ^ (- e) ->
  exists m' r s e',
    shr_fexp prec emax m e loc_Exact = (Build_shr_record m' r s, e') /\
    0 <= m' /\ e' <= 0 /\
    A * 2 ^ (- e') <= m' <= B * 2 ^ (- e') /\
    (r = true -> m' + 1 <= B * 2 ^ (- e')).
Proof.
  intros Hm He HA HB Hb.
  unfold shr_fexp, shr. cbn [shr_record_of_loc].
  rewrite fexp_binary64.
  destruct (Z.max (Zdigits2 m + e - 53) (-1074) - e) as [| p | p] eqn:Hsh.
  - exists m, false, false, e. repeat split; try lia; discriminate.
  - assert (Hpow : 0 < 2 ^ (- e)) by (apply Z.pow_pos_nonneg; lia).
    assert (Hd : Zdigits2 m + e - 53 <= 0).
    { destruct m as [| q | q]; [simpl; lia | | lia].
      cbn [Zdigits2]. pose proof (digits2_pos_bounds q) as [Hlo _].
      assert (Hlt : 2 ^ (Zpos (digits2_pos q) - 1) < 2 ^ (53 - e)).
      { replace (53 - e) with (53 + - e) by lia.
        rewrite Z.pow_add_r by lia. nia. }
      apply Z.pow_lt_mono_r_iff in Hlt; lia. }
    set (e' := e + Zpos p).
    assert (He' : e' <= 0) by lia.
    rewrite iter_pos_nat.
    destruct (shr_iter (Pos.to_nat p) m Hm) as [Hm' Hrs].
    rewrite positive_nat_Z in Hm', Hrs.
    destruct (Nat.iter (Pos.to_nat p) shr_1 _) as [m' r s].
    cbn [shr_m shr_r shr_s] in Hm', Hrs.
    exists m', r, s, e'. split; [reflexivity |].
    assert (HP : 0 < 2 ^ Zpos p) by (apply Z.pow_pos_nonneg; lia).
    assert (HS' : 0 < 2 ^ (- e')) by (apply Z.pow_pos_nonneg; lia).
    assert (HS : 2 ^ (- e) = 2 ^ (- e') * 2 ^ Zpos p).
    { rewrite <- Z.pow_add_r by lia. f_equal. lia. }
    rewrite HS in Hb.
    pose proof (Z.div_mod m (2 ^ Zpos p) ltac:(lia)) as Hdm.
    pose proof (Z.mod_pos_bound m (2 ^ Zpos p) HP) as Hmod.
    rewrite <- Hm' in Hdm.
    split; [nia |]. split; [exact He' |]. split; [split; nia |].
    intros ->. specialize (Hrs eq_refl). nia.
  - exists m, false, false, e. repeat split; try lia; discriminate.
Qed.

(** Rounding to nearest, ties to even, keeps the mantissa or adds one,
    and adds one only after an inexact shift. *)
Lemma round_nearest_even_cases (m : Z) (r s : bool) :
  let q := round_nearest_even m (loc_of_shr_record (Build_shr_record m r s)) in
  q = m \/ (q = m + 1 /\ r = true).
Proof.
  destruct r, s; cbn [loc_of_shr_record round_nearest_even]; auto.
  destruct (Z.even m); auto.
Qed.

(** Rounding a mantissa whose value lies between two integers below
    2^53 gives a float between them. *)
Lemma binary_round_aux_between (M E A B : Z) :
  0 <= M -> E <= 0 -> 0 <= A -> B < 2 ^ 53 ->
  A * 2 ^ (- E) <= M <= B * 2 ^ (- E) ->
  (binary_round_aux prec emax false M E loc_Exact = S754_zero false /\ A = 0) \/
  (exists m e,
     binary_round_aux prec emax false M E loc_Exact = S754_finite false m e /\
     e <= 0 /\ A * 2 ^ (- e) <= Zpos m <= B * 2 ^ (- e)).
Proof.
  intros HM HE HA HB Hb.
  unfold binary_round_aux.
  destruct (shr_fexp_between M E A B HM HE HA HB Hb)
    as (m1 & r1 & s1 & e1 & -> & Hm1 & He1 & Hb1 & Hr1).
  cbn [shr_m].
  pose proof (round_nearest_even_cases m1 r1 s1) as Hq. cbn zeta in Hq.
  set (q := round_nearest_even m1 _) in *.
  assert (Hq0 : 0 <= q) by lia.
  assert (Hqb : A * 2 ^ (- e1) <= q <= B * 2 ^ (- e1)).
  { destruct Hq as [-> | [-> Hr]]; [lia |]. specialize (Hr1 Hr). lia. }
  destruct (shr_fexp_between q e1 A B Hq0 He1 HA HB Hqb)
    as (m2 & r2 & s2 & e2 & -> & Hm2 & He2 & Hb2 & _).
  cbn [shr_m].
  assert (HS : 0 < 2 ^ (- e2)) by (apply Z.pow_pos_nonneg; lia).
  destruct m2 as [| m2 | m2]; [| | lia].
  - left. split; [reflexivity | nia].
  - right. exists m2, e2.
    replace (e2 <=? emax - prec) with true
      by (symmetry; apply Z.leb_le; unfold emax, prec; lia).
    auto.
Qed.

(** Shifting a mantissa left. *)
Lemma iter_xO (d mx : positive) : Zpos (Pos.iter xO mx d) = Zpos mx * 2 ^ Zpos d.
Proof.
  induction d as [| d IH] using Pos.peano_ind.
  - simpl. lia.
  - rewrite Pos.iter_succ, Pos2Z.inj_xO, IH, Pos2Z.inj_succ, Z.pow_succ_r by lia. lia.
Qed.

(** An integer below 2^53 converts exactly. *)
Lemma float_of_int_exact (n : Z) :
  0 < n < 2 ^ 53 ->
  exists m e, float_of_int n = Ok (S754_finite false m e) /\
              e <= 0 /\ Zpos m = n * 2 ^ (- e).
Proof.
  intros Hn. unfold float_of_int.
  destruct n as [| p | p]; [lia | | lia].
  cbn [binary_normalize]. unfold binary_round, shl_align.
  rewrite fexp_binary64.
  assert (Hround : forall mz ez, ez <= 0 -> Zpos mz = Zpos p * 2 ^ (- ez) ->
            exists m e,
              match binary_round_aux prec emax false (Zpos mz) ez loc_Exact with
              | S754_infinity _ => Raise OverflowError
              | x => Ok x
              end = Ok (S754_finite false m e) /\
              e <= 0 /\ Zpos m = Zpos p * 2 ^ (- e)).
  { intros mz ez Hez Hmz.
    destruct (binary_round_aux_between (Zpos mz) ez (Zpos p) (Zpos p))
      as [[_ H0] | (m & e & -> & He & Hb)]; try lia.
    exists m, e. split; [reflexivity | split; [exact He | lia]]. }
  destruct (Z.max (Zpos (digits2_pos p) + 0 - 53) (-1074) - 0) as [| d | d] eqn:Hsh.
  - apply Hround; [lia | simpl; lia].
  - apply Hround; [lia | simpl; lia].
  - apply Hround; [lia |]. rewrite iter_xO. f_equal. f_equal. lia.
Qed.

(** [int] of a float between two integers lies between them. *)
Lemma int_of_float_between (m : positive) (e A B : Z) :
  e <= 0 -> A * 2 ^ (- e) <= Zpos m <= B * 2 ^ (- e) ->
  exists k, int_of_float (S754_finite false m e) = Ok k /\ A <= k <= B.
Proof.
  intros He Hb. cbn [int_of_float cond_Zopp].
  assert (HS : 0 < 2 ^ (- e)) by (apply Z.pow_pos_nonneg; lia).
  destruct (Z.leb_spec 0 e) as [H0 | H0].
  - assert (e = 0) as -> by lia. simpl in *. eexists; split; [reflexivity | lia].
  - eexists; split; [reflexivity |]. split.
    + apply Z.div_le_lower_bound; lia.
    + apply Z.div_le_upper_bound; lia.
Qed.

(** The product [n * x] of an int below 2^53 and a float of value [q] in
    [0, 1), as [int] truncates it: the floor of the exact product or, when
    the rounding of the product reaches the next integer, one more. *)
Lemma int_of_product_between (n : Z) (x : float) (q : Q) :
  0 <= n < 2 ^ 53 ->
  float_value x = Some q -> (0 <= q)%Q -> (q < 1)%Q ->
  exists k, int_of_product n x = Ok k /\
            Qfloor (inject_Z n * q) <= k <= Qceiling (inject_Z n * q) /\
            0 <= k <= n.
Proof.
  intros Hn Hx Hq0 Hq1.
  destruct x as [s | s | | s mr er]; try discriminate.
  - injection Hx as <-.
    assert (HQ : Qfloor (inject_Z n * 0) = 0 /\ Qceiling (inject_Z n * 0) = 0).
    { unfold Qceiling, Qfloor, Qopp, Qmult, inject_Z. cbn [Qnum Qden].
      rewrite Z.mul_0_r. split; reflexivity. }
    destruct HQ as [-> ->].
    exists 0. split; [| lia].
    destruct (Z.eq_dec n 0) as [-> | Hn0]; [reflexivity |].
    destruct (float_of_int_exact n ltac:(lia)) as (m & e & Hf & _).
    unfold int_of_product, int_mul_float. rewrite Hf. reflexivity.
  - cbn [float_value] in Hx. injection Hx as <-.
    destruct (Z.leb_spec 0 er) as [Her | Her].
    { exfalso. unfold Qlt, inject_Z in Hq1. cbn [Qnum Qden] in Hq1.
      assert (0 < 2 ^ er) by (apply Z.pow_pos_nonneg; lia).
      unfold Qle, inject_Z in Hq0. cbn [Qnum Qden] in Hq0.
      destruct s; cbn [cond_Zopp] in *; nia. }
    assert (HD : 0 < 2 ^ (- er)) by (apply Z.pow_pos_nonneg; lia).
    destruct s; [exfalso; unfold Qle in Hq0; cbn [Qnum Qden cond_Zopp] in Hq0; lia |].
    cbn [cond_Zopp] in *.
    assert (Hmr : Zpos mr < 2 ^ (- er)).
    { unfold Qlt in Hq1. cbn [Qnum Qden] in Hq1.
      rewrite Z2Pos.id in Hq1 by lia. lia. }
    set (D := 2 ^ (- er)) in *.
    set (A := (n * Zpos mr) / D).
    set (B := - ((- (n * Zpos mr)) / D)).
    assert (HQ : Qfloor (inject_Z n * (Zpos mr # Z.to_pos D)) = A /\
                 Qceiling (inject_Z n * (Zpos mr # Z.to_pos D)) = B).
    { unfold Qceiling, Qfloor, Qopp, Qmult, inject_Z. cbn [Qnum Qden].
      rewrite Pos.mul_1_l, Z2Pos.id by lia. split; reflexivity. }
    destruct HQ as [-> ->].
    pose proof (Z.div_mod (n * Zpos mr) D ltac:(lia)) as HdA.
    pose proof (Z.mod_pos_bound (n * Zpos mr) D HD) as HmA.
    pose proof (Z.div_mod (- (n * Zpos mr)) D ltac:(lia)) as HdB.
    pose proof (Z.mod_pos_bound (- (n * Zpos mr)) D HD) as HmB.
    fold A in HdA.
    assert (HA : A * D <= n * Zpos mr) by lia.
    assert (HB : n * Zpos mr <= B * D) by (unfold B; lia).
    assert (HA0 : 0 <= A) by (apply Z.div_pos; lia).
    assert (HBn : B <= n) by (unfold B; nia).
    destruct (Z.eq_dec n 0) as [-> | Hn0].
    { exists 0. split; [reflexivity |]. unfold A, B.
      rewrite Z.mul_0_l. change (- 0) with 0. rewrite Z.div_0_l by lia. lia. }
    destruct (float_of_int_exact n ltac:(lia)) as (m & e & Hf & He & Hm).
    unfold int_of_product, int_mul_float. rewrite Hf.
    cbn [mbind result_bind SFmul xorb].
    assert (HS : 2 ^ (- (e + er)) = 2 ^ (- e) * D).
    { unfold D. rewrite <- Z.pow_add_r by lia. f_equal. lia. }
    assert (HSe : 0 < 2 ^ (- e)) by (apply Z.pow_pos_nonneg; lia).
    destruct (binary_round_aux_between (Zpos (m * mr)) (e + er) A B)
      as [[-> HA'] | (m' & e' & -> & He' & Hb')]; try lia.
    { rewrite HS, Pos2Z.inj_mul, Hm. nia. }
    + exists 0. split; [reflexivity | lia].
    + destruct (int_of_float_between m' e' A B He' Hb') as (k & Hk & Hkb).
      exists k. split; [exact Hk | lia].
Qed.

(** Zero times a finite float is zero; zero times an infinite one is
    undefined, and [int] raises. *)
Lemma int_of_product_of_zero (x : float) (k : Z) :
  int_of_product 0 x = Ok k -> k = 0.
Proof.
  destruct x as [s | s | | s m e]; cbn; intros H; congruence.
Qed.

End Binary64.

(** ** Random-sample split *)

Section RandomSplit.
Context {Image Tensor Stats : Type}.

Lemma slice_prefix {A} (l : list A) (n : Z) :
  0 <= n <= Z.of_nat (length l) -> Py.slice l 0 n = take (Z.to_nat n) l.
Proof.
  intros Hn. unfold Py.slice, Py.slice_bound.
  destruct (Z.ltb_spec 0 0); [lia |].
  destruct (Z.ltb_spec n 0); [lia |].
  rewrite Z.min_l by lia. rewrite Z.min_l by lia.
  simpl. rewrite Z.sub_0_r. reflexivity.
Qed.

Lemma slice_suffix {A} (l : list A) (n m : Z) :
  m = Z.of_nat (length l) -> 0 <= n <= m ->
  Py.slice l n m = drop (Z.to_nat n) l.
Proof.
  intros -> Hn. unfold Py.slice, Py.slice_bound.
  destruct (Z.ltb_spec n 0); [lia |].
  destruct (Z.ltb_spec (Z.of_nat (length l)) 0); [lia |].
  rewrite Z.min_l by lia. rewrite Z.min_l by lia.
  apply take_ge. rewrite length_drop. lia.
Qed.

(** C3. For a ratio strictly between 0 and 1 and fewer than 2^53
    samples, [split_dataset] returns a validation subset of exactly
    [int(N * val_ratio)] indices, the product being the binary64 one, and
    a training subset of the other N minus that many, and the two together
    hold every index below N exactly once. The size of the validation
    subset is the floor of the exact product N * val_ratio or, when the
    rounding of the product reaches the next integer, one more. *)
Theorem split_dataset_partition (randperm : nat -> list nat) (self : @MaskBaseDataset.t Image Tensor Stats)
    (cls : ClassLists) (q : Q) :
  (forall n, randperm n ≡ₚ seq 0 n) ->
  Py.float_value (MaskBaseDataset.val_ratio self) = Some q ->
  (0 < q)%Q -> (q < 1)%Q ->
  let N := length (image_paths cls) in
  Z.of_nat N < 2 ^ 53 ->
  exists n_val train_set val_set,
    Py.int_of_product (Z.of_nat N) (MaskBaseDataset.val_ratio self) = Ok n_val /\
    Qfloor (inject_Z (Z.of_nat N) * q) <= n_val <= Qceiling (inject_Z (Z.of_nat N) * q) /\
    MaskBaseDataset.split_dataset randperm self cls = Ok (train_set, val_set) /\
    torch.Subset_len val_set = n_val /\
    torch.Subset_len train_set = Z.of_nat N - n_val /\
    (torch.indices train_set ++ torch.indices val_set)%list ≡ₚ seq 0 N /\
    (forall i, i ∈ torch.indices train_set -> i ∉ torch.indices val_set).
Proof.
  intros Hperm Hq Hlo Hhi N HN.
  destruct (int_of_product_between (Z.of_nat N) (MaskBaseDataset.val_ratio self) q)
    as (n_val & Hval & Hfloor & Hb); [lia | exact Hq | by apply Qlt_le_weak | exact Hhi |].
  exists n_val.
  pose proof (Permutation_length (Hperm N)) as Hlen. rewrite length_seq in Hlen.
  unfold MaskBaseDataset.split_dataset, MaskBaseDataset.__len__, torch.random_split.
  fold N. rewrite Hval. cbn [mbind result_bind].
  assert (Hsum : torch.sum [Z.of_nat N - n_val; n_val] = Z.of_nat N)
    by (unfold torch.sum; simpl; lia).
  rewrite Hsum, Z.eqb_refl, Nat2Z.id. simpl.
  replace (0 + (Z.of_nat N - n_val) - (Z.of_nat N - n_val)) with 0 by lia.
  replace (0 + (Z.of_nat N - n_val) + n_val - n_val) with (Z.of_nat N - n_val) by lia.
  replace (0 + (Z.of_nat N - n_val) + n_val) with (Z.of_nat N) by lia.
  replace (0 + (Z.of_nat N - n_val)) with (Z.of_nat N - n_val) by lia.
  rewrite slice_prefix by lia.
  rewrite slice_suffix by lia.
  eexists _, _. split; [reflexivity |]. split; [exact Hfloor |].
  split; [reflexivity |].
  unfold torch.Subset_len. simpl.
  rewrite length_take, length_drop, Hlen.
  split; [lia |]. split; [lia |].
  rewrite take_drop. split; [apply Hperm |].
  intros i Hi1 Hi2.
  assert (Hnd : NoDup (take (Z.to_nat (Z.of_nat N - n_val)) (randperm N)
                       ++ drop (Z.to_nat (Z.of_nat N - n_val)) (randperm N))).
  { rewrite take_drop, (Hperm N). apply NoDup_seq. }
  apply NoDup_app in Hnd as (_ & Hdisj & _). exact (Hdisj i Hi1 Hi2).
Qed.

End RandomSplit.

(** ** Subject-disjoint split: the choice of subjects *)

Section SplitProfile.
Variable rand_index : nat -> nat -> nat.
Hypothesis rand_index_lt : forall i n, (0 < n)%nat -> (rand_index i n < n)%nat.

Lemma getitem_lookup {A} (l : list A) (j : nat) (x : A) :
  l !! j = Some x -> Py.getitem l (Z.of_nat j) = Ok x.
Proof.
  intros Hj. pose proof (lookup_lt_Some _ _ _ Hj) as Hlt.
  unfold Py.getitem.
  destruct (Z.ltb_spec (Z.of_nat j) 0); [lia |].
  destruct (Z.leb_spec 0 (Z.of_nat j)); [| lia].
  destruct (Z.ltb_spec (Z.of_nat j) (Z.of_nat (length l))); [| lia].
  simpl. rewrite Nat2Z.id, Hj. reflexivity.
Qed.

Lemma comprehension_draws (n : nat) (js : list nat) :
  (0 < n)%nat ->
  exists drawn,
    Py.comprehension (fun i => Py.getitem (seq 0 n) (Z.of_nat (rand_index i n))) js
    = Ok drawn /\
    length drawn = length js /\
    Forall (fun d => (d < n)%nat) drawn.
Proof.
  intros Hn. induction js as [| i js IH]; simpl.
  - exists []. auto.
  - destruct IH as (drawn & -> & Hlen & Hall).
    pose proof (rand_index_lt i n Hn) as Hlt.
    rewrite (getitem_lookup _ _ (rand_index i n))
      by (rewrite lookup_seq; lia).
    eexists. split; [reflexivity |]. simpl. split; [lia |].
    constructor; assumption.
Qed.

Lemma choices_range (n : nat) (k : Z) :
  (0 < n)%nat \/ Z.to_nat k = 0%nat ->
  exists drawn,
    random.choices rand_index (seq 0 n) k = Ok drawn /\
    length drawn = Z.to_nat k /\
    Forall (fun d => (d < n)%nat) drawn.
Proof.
  intros Hn. unfold random.choices. rewrite length_seq.
  destruct Hn as [Hn | ->]; [| exists []; simpl; auto].
  destruct (comprehension_draws n (seq 0 (Z.to_nat k)) Hn) as (drawn & Hd & Hlen & Hall).
  exists drawn. rewrite length_seq in Hlen. auto.
Qed.



(** What a split that returns is made of. *)
Lemma split_profile_inv (profiles : list string) (val_ratio : float)
    (split_profiles : list (string * gset nat)) :
  MaskSplitByProfileDataset._split_profile rand_index profiles val_ratio
  = Ok split_profiles ->
  exists n_val drawn,
    Py.int_of_product (Z.of_nat (length profiles)) val_ratio = Ok n_val /\
    random.choices rand_index (seq 0 (length profiles)) n_val = Ok drawn /\
    split_profiles
    = [("train", list_to_set (seq 0 (length profiles)) ∖ list_to_set drawn);
       ("val", list_to_set drawn)].
Proof.
  unfold MaskSplitByProfileDataset._split_profile.
  destruct (Py.int_of_product _ _) as [n_val | e] eqn:Hval; [| discriminate].
  cbn [mbind result_bind].
  destruct (random.choices _ _ _) as [drawn | e] eqn:Hdrawn; [| discriminate].
  intros [= <-]. exists n_val, drawn. split_and!; reflexivity || assumption.
Qed.


End SplitProfile.

(** ** Statements *)

Section Statements.
Context {S : Type}.

Lemma bind_unfold {A B} (m : M S A) (k : A -> M S B) (s : S) :
  (m ≫= k) s
  = match m s with
    | (s', Ok a) => k a s'
    | (s', Raise e) => (s', Raise e)
    end.
Proof. reflexivity. Qed.

Lemma for_each_cons {A} (x : A) (l : list A) (body : A -> M S unit) (s : S) :
  for_each (x :: l) body s
  = match body x s with
    | (s', Ok _) => for_each l body s'
    | (s', Raise e) => (s', Raise e)
    end.
Proof. reflexivity. Qed.

(** A loop over [l1 ++ l2] is the loop over [l1], then, unless it raised,
    the loop over [l2]. *)
Lemma for_each_app {A} (l1 l2 : list A) (body : A -> M S unit) (s : S) :
  for_each (l1 ++ l2) body s
  = match for_each l1 body s with
    | (s', Ok _) => for_each l2 body s'
    | (s', Raise e) => (s', Raise e)
    end.
Proof.
  revert s. induction l1 as [| x l1 IH]; intros s.
  - reflexivity.
  - change ((x :: l1) ++ l2)%list with (x :: (l1 ++ l2))%list.
    rewrite !for_each_cons.
    destruct (body x s) as [s' [[] | e]]; [apply IH | reflexivity].
Qed.

Lemma for_each_ext {A} (l : list A) (f g : A -> M S unit) (s : S) :
  (forall x s, x ∈ l -> f x s = g x s) -> for_each l f s = for_each l g s.
Proof.
  revert s. induction l as [| x l IH]; intros s Hfg; [reflexivity |].
  rewrite !for_each_cons, Hfg by left.
  destruct (g x s) as [s' [[] | e]]; [| reflexivity].
  apply IH. intros y t Hy. apply Hfg. right. exact Hy.
Qed.

(** An invariant of the state that every body keeps holds after the loop,
    whether it ends or raises. *)
Lemma for_each_invariant {A} (I : S -> Prop) (l : list A) (body : A -> M S unit) (s : S) :
  (forall x t, x ∈ l -> I t -> I (body x t).1) -> I s -> I (for_each l body s).1.
Proof.
  revert s. induction l as [| x l IH]; intros s Hbody Hs; [exact Hs |].
  rewrite for_each_cons.
  pose proof (Hbody x s ltac:(left) Hs) as Hx.
  destruct (body x s) as [s' [[] | e]]; simpl in *; [| exact Hx].
  apply IH; [| exact Hx].
  intros y t Hy. apply Hbody. right. exact Hy.
Qed.

End Statements.

(** ** The scan appends to the class-level lists *)

Section AppendOnly.

Lemma lists_app_empty_r (c : ClassLists) : lists_app c empty_lists = c.
Proof. destruct c. unfold lists_app. simpl. rewrite !app_nil_r. reflexivity. Qed.

Lemma lists_app_assoc (c d e : ClassLists) :
  lists_app (lists_app c d) e = lists_app c (lists_app d e).
Proof. unfold lists_app. simpl. rewrite <- !app_assoc. reflexivity. Qed.

(** A statement only appends when, from any lists, it leaves them extended
    by what it would append to empty lists, with the same outcome. *)
Lemma append_only_bind {A B} (m : M ClassLists A) (k : A -> M ClassLists B) :
  (forall cls, m cls = (lists_app cls (m empty_lists).1, (m empty_lists).2)) ->
  (forall a cls, k a cls = (lists_app cls (k a empty_lists).1, (k a empty_lists).2)) ->
  forall cls,
    (m ≫= k) cls
    = (lists_app cls ((m ≫= k) empty_lists).1, ((m ≫= k) empty_lists).2).
Proof.
  intros Hm Hk cls. rewrite !bind_unfold, (Hm cls).
  destruct (m empty_lists) as [d [a | e]]; simpl.
  - rewrite (Hk a (lists_app cls d)), (Hk a d). simpl.
    rewrite lists_app_assoc. reflexivity.
  - reflexivity.
Qed.

Lemma append_only_for_each {A} (l : list A) (body : A -> M ClassLists unit) :
  (forall x cls, body x cls
                 = (lists_app cls (body x empty_lists).1, (body x empty_lists).2)) ->
  forall cls,
    for_each l body cls
    = (lists_app cls (for_each l body empty_lists).1, (for_each l body empty_lists).2).
Proof.
  intros Hbody. induction l as [| x l IH]; intros cls.
  - simpl. unfold ret. rewrite lists_app_empty_r. reflexivity.
  - change (for_each (x :: l) body) with (body x ≫= fun _ => for_each l body).
    apply append_only_bind; [apply Hbody | intros _; apply IH].
Qed.

Lemma append_only_call {A} (r : result A) (cls : ClassLists) :
  call r cls = (lists_app cls (call r empty_lists).1, (call r empty_lists).2).
Proof. unfold call. simpl. rewrite lists_app_empty_r. reflexivity. Qed.

Lemma append_only_ret {A} (a : A) (cls : ClassLists) :
  ret a cls = (lists_app cls (ret a empty_lists).1, (ret a empty_lists).2).
Proof. unfold ret. simpl. rewrite lists_app_empty_r. reflexivity. Qed.

Lemma append_only_image_paths (x : Path) (cls : ClassLists) :
  modify (image_paths_append x) cls
  = (lists_app cls (modify (image_paths_append x) empty_lists).1,
     (modify (image_paths_append x) empty_lists).2).
Proof.
  unfold modify, image_paths_append, lists_app. simpl.
  rewrite !app_nil_r. reflexivity.
Qed.

Lemma append_only_mask_labels (x : MaskLabels.t) (cls : ClassLists) :
  modify (mask_labels_append x) cls
  = (lists_app cls (modify (mask_labels_append x) empty_lists).1,
     (modify (mask_labels_append x) empty_lists).2).
Proof.
  unfold modify, mask_labels_append, lists_app. simpl.
  rewrite !app_nil_r. reflexivity.
Qed.

Lemma append_only_gender_labels (x : GenderLabels.t) (cls : ClassLists) :
  modify (gender_labels_append x) cls
  = (lists_app cls (modify (gender_labels_append x) empty_lists).1,
     (modify (gender_labels_append x) empty_lists).2).
Proof.
  unfold modify, gender_labels_append, lists_app. simpl.
  rewrite !app_nil_r. reflexivity.
Qed.

Lemma append_only_age_labels (x : AgeLabels.t) (cls : ClassLists) :
  modify (age_labels_append x) cls
  = (lists_app cls (modify (age_labels_append x) empty_lists).1,
     (modify (age_labels_append x) empty_lists).2).
Proof.
  unfold modify, age_labels_append, lists_app. simpl.
  rewrite !app_nil_r. reflexivity.
Qed.

End AppendOnly.

(** ** Class-level lists shared by all instances *)

Section SharedLists.
Context {Image Tensor Stats : Type}.
Variable image_statistics : list Path -> Stats * Stats.

Lemma setup_file_append_only (self : @MaskBaseDataset.t Image Tensor Stats)
    (profile file_name : string) (cls : ClassLists) :
  MaskBaseDataset.setup_file self profile file_name cls
  = (lists_app cls (MaskBaseDataset.setup_file self profile file_name empty_lists).1,
     (MaskBaseDataset.setup_file self profile file_name empty_lists).2).
Proof.
  revert cls. unfold MaskBaseDataset.setup_file.
  destruct (splitext file_name) as [stem ext].
  destruct (MaskBaseDataset._file_names !! stem) as [mask_label |]; [| apply append_only_ret].
  apply append_only_bind; [apply append_only_call |].
  intros [[[id gender] race] age].
  apply append_only_bind; [apply append_only_call |]. intros gender_label.
  apply append_only_bind; [apply append_only_call |]. intros age_label.
  apply append_only_bind; [apply append_only_image_paths |]. intros _.
  apply append_only_bind; [apply append_only_mask_labels |]. intros _.
  apply append_only_bind; [apply append_only_gender_labels |]. intros _.
  apply append_only_age_labels.
Qed.

Lemma setup_append_only (fs : FileSystem) (self : @MaskBaseDataset.t Image Tensor Stats)
    (cls : ClassLists) :
  MaskBaseDataset.setup fs self cls
  = (lists_app cls (MaskBaseDataset.setup fs self empty_lists).1,
     (MaskBaseDataset.setup fs self empty_lists).2).
Proof.
  revert cls. unfold MaskBaseDataset.setup.
  apply append_only_bind; [apply append_only_call |]. intros profiles.
  apply append_only_for_each. intros profile.
  unfold MaskBaseDataset.setup_profile.
  destruct (startswith profile "."); [apply append_only_ret |].
  apply append_only_bind; [apply append_only_call |]. intros files.
  apply append_only_for_each. intros file_name.
  apply setup_file_append_only.
Qed.

(** The scan reads nothing of [self] but [data_dir]. *)
Lemma setup_reads_data_dir (fs : FileSystem)
    (self self' : @MaskBaseDataset.t Image Tensor Stats) (cls : ClassLists) :
  MaskBaseDataset.data_dir self = MaskBaseDataset.data_dir self' ->
  MaskBaseDataset.setup fs self cls = MaskBaseDataset.setup fs self' cls.
Proof.
  intros Hdir.
  unfold MaskBaseDataset.setup, MaskBaseDataset.setup_profile,
    MaskBaseDataset.setup_file.
  rewrite Hdir. reflexivity.
Qed.

(** [calc_statistics] leaves the lists as they are. *)
Lemma calc_statistics_lists (self : @MaskBaseDataset.t Image Tensor Stats)
    (cls : ClassLists) :
  exists self',
    MaskBaseDataset.calc_statistics image_statistics self cls = (cls, Ok self').
Proof.
  unfold MaskBaseDataset.calc_statistics.
  destruct (bool_decide (is_Some (MaskBaseDataset.mean self))
            && bool_decide (is_Some (MaskBaseDataset.std self)))%bool.
  - eexists. reflexivity.
  - rewrite bind_unfold. unfold gets.
    destruct (image_statistics (take 3000 (image_paths cls))) as [m s].
    eexists. reflexivity.
Qed.

(** What a construction that succeeds leaves in the lists. *)
Lemma init_lists (fs : FileSystem) (data_dir : string) (mean std : option Stats)
    (val_ratio : float) (cls cls' : ClassLists) (ds : @MaskBaseDataset.t Image Tensor Stats) :
  MaskBaseDataset.__init__ image_statistics fs data_dir mean std val_ratio cls
  = (cls', Ok ds) ->
  cls' = lists_app cls
           (MaskBaseDataset.setup fs
              ({| MaskBaseDataset.data_dir := data_dir; MaskBaseDataset.mean := None;
                  MaskBaseDataset.std := None; MaskBaseDataset.val_ratio := S754_zero false;
                  MaskBaseDataset.transform := None |}
               : @MaskBaseDataset.t Image Tensor Stats) empty_lists).1.
Proof.
  unfold MaskBaseDataset.__init__. rewrite bind_unfold.
  match goal with
  | |- context [MaskBaseDataset.setup fs ?self cls] =>
      rewrite (setup_append_only fs self cls);
      rewrite (setup_reads_data_dir fs self
                 {| MaskBaseDataset.data_dir := data_dir; MaskBaseDataset.mean := None;
                    MaskBaseDataset.std := None; MaskBaseDataset.val_ratio := S754_zero false;
                    MaskBaseDataset.transform := None |} empty_lists eq_refl)
  end.
  match goal with
  | |- context [(MaskBaseDataset.setup fs ?self empty_lists)] =>
      destruct (MaskBaseDataset.setup fs self empty_lists) as [added [[] | e]]
  end; simpl; [| discriminate].
  match goal with
  | |- context [MaskBaseDataset.calc_statistics image_statistics ?self ?c] =>
      destruct (calc_statistics_lists self c) as [self' ->]
  end.
  intros [= <- _]. reflexivity.
Qed.

(** C10. The four sample lists belong to the class: a second instance
    built over the same corpus appends its samples to the lists the first
    one reads, and then [__len__] of either instance is the count of both
    scans together, not the count of one scan of the corpus. *)
Theorem class_lists_shared_between_instances (fs : FileSystem) (data_dir : string)
    (mean1 std1 mean2 std2 : option Stats) (ratio1 ratio2 : float)
    (cls0 cls1 cls2 : ClassLists) (ds1 ds2 : @MaskBaseDataset.t Image Tensor Stats) :
  MaskBaseDataset.__init__ image_statistics fs data_dir mean1 std1 ratio1 cls0
  = (cls1, Ok ds1) ->
  MaskBaseDataset.__init__ image_statistics fs data_dir mean2 std2 ratio2 cls1
  = (cls2, Ok ds2) ->
  exists scanned : ClassLists,
    let own := Z.of_nat (length (image_paths scanned)) in
    let before := Z.of_nat (length (image_paths cls0)) in
    cls1 = lists_app cls0 scanned /\
    cls2 = lists_app cls1 scanned /\
    MaskBaseDataset.__len__ ds1 cls1 = before + own /\
    MaskBaseDataset.__len__ ds1 cls2 = before + 2 * own /\
    MaskBaseDataset.__len__ ds2 cls2 = before + 2 * own /\
    (0 < own -> MaskBaseDataset.__len__ ds1 cls2 <> own /\
                MaskBaseDataset.__len__ ds2 cls2 <> own).
Proof.
  intros H1 H2.
  apply init_lists in H1. apply init_lists in H2.
  eexists. cbv zeta.
  split; [exact H1 |]. split; [exact H2 |].
  unfold MaskBaseDataset.__len__. rewrite H2, H1. simpl.
  rewrite !length_app. lia.
Qed.

End SharedLists.

(** ** Unknown gender *)

Section UnknownGender.
Context {Image Tensor Stats : Type}.
Variable image_statistics : list Path -> Stats * Stats.

Lemma from_str_rejects (gender : string) :
  lower gender <> "male" -> lower gender <> "female" ->
  GenderLabels.from_str gender = Raise (ValueError_gender (lower gender)).
Proof.
  intros Hm Hf. unfold GenderLabels.from_str.
  apply String.eqb_neq in Hm, Hf. rewrite Hm, Hf. reflexivity.
Qed.

(** In a directory with an unknown gender a file is skipped when its stem
    is not recognised, and raises otherwise. *)
Lemma setup_file_unknown_gender (self : @MaskBaseDataset.t Image Tensor Stats)
    (profile id gender race age file_name : string) (cls : ClassLists) :
  split "_" profile = [id; gender; race; age] ->
  lower gender <> "male" -> lower gender <> "female" ->
  MaskBaseDataset.setup_file self profile file_name cls
  = if recognised file_name then (cls, Raise (ValueError_gender (lower gender)))
    else (cls, Ok tt).
Proof.
  intros Hsplit Hm Hf. unfold MaskBaseDataset.setup_file, recognised.
  destruct (splitext file_name) as [stem ext]. simpl.
  destruct (MaskBaseDataset._file_names !! stem) as [mask_label |].
  - rewrite bool_decide_eq_true_2 by eauto.
    rewrite Hsplit. simpl. rewrite bind_unfold. unfold call.
    rewrite bind_unfold, (from_str_rejects gender Hm Hf). reflexivity.
  - rewrite bool_decide_eq_false_2 by (intros [? ?]; discriminate).
    reflexivity.
Qed.

Lemma setup_files_unknown_gender (self : @MaskBaseDataset.t Image Tensor Stats)
    (profile id gender race age : string) (files : list string) (cls : ClassLists) :
  split "_" profile = [id; gender; race; age] ->
  lower gender <> "male" -> lower gender <> "female" ->
  (exists file_name, file_name ∈ files /\ recognised file_name = true) ->
  for_each files (MaskBaseDataset.setup_file self profile) cls
  = (cls, Raise (ValueError_gender (lower gender))).
Proof.
  intros Hsplit Hm Hf. induction files as [| f files IH]; intros (x & Hx & Hrec).
  - inversion Hx.
  - rewrite for_each_cons,
      (setup_file_unknown_gender self profile id gender race age f cls Hsplit Hm Hf).
    destruct (recognised f) eqn:Hf'; [reflexivity |].
    apply IH. exists x. split; [| exact Hrec].
    apply elem_of_cons in Hx as [-> | Hx]; [congruence | exact Hx].
Qed.

(** C8, as the code has it. Construction raises the gender error when the
    scan reaches, without an earlier exception, a subject directory that
    is not hidden, has four fields with a gender that is neither male nor
    female once lowercased, and holds at least one file with a recognised
    stem. The lists keep what the earlier subjects appended. *)
Theorem unknown_gender_raises (fs : FileSystem) (data_dir : string)
    (mean std : option Stats) (val_ratio : float)
    (before after files : list string) (profile id gender race age : string)
    (cls cls' : ClassLists) :
  let self : @MaskBaseDataset.t Image Tensor Stats :=
    {| MaskBaseDataset.data_dir := data_dir; MaskBaseDataset.mean := mean;
       MaskBaseDataset.std := std; MaskBaseDataset.val_ratio := val_ratio;
       MaskBaseDataset.transform := None |} in
  fs [data_dir] = Ok (before ++ profile :: after)%list ->
  for_each before (MaskBaseDataset.setup_profile fs self) cls = (cls', Ok tt) ->
  startswith profile "." = false ->
  split "_" profile = [id; gender; race; age] ->
  lower gender <> "male" -> lower gender <> "female" ->
  fs [data_dir; profile] = Ok files ->
  (exists file_name, file_name ∈ files /\ recognised file_name = true) ->
  @MaskBaseDataset.__init__ Image Tensor Stats image_statistics fs data_dir mean std
    val_ratio cls
  = (cls', Raise (ValueError_gender (lower gender))).
Proof.
  intros self Hlist Hbefore Hhidden Hsplit Hm Hf Hfiles Hrec.
  unfold MaskBaseDataset.__init__. fold self.
  rewrite bind_unfold. unfold MaskBaseDataset.setup.
  rewrite bind_unfold. unfold call at 1. simpl MaskBaseDataset.data_dir.
  rewrite Hlist, for_each_app, Hbefore, for_each_cons.
  unfold MaskBaseDataset.setup_profile at 1. rewrite Hhidden.
  rewrite bind_unfold. unfold call at 1. simpl MaskBaseDataset.data_dir.
  rewrite Hfiles.
  rewrite (setup_files_unknown_gender self profile id gender race age files cls'
             Hsplit Hm Hf Hrec).
  reflexivity.
Qed.

End UnknownGender.

(** ** The sampling scan of the evaluation datasets *)

Section SamplingScan.
Context {Image Tensor Stats : Type}.

Lemma weights_total_positive (r : Q) :
  Qle_bool (foldr Qplus 0%Q [r; (1 - r)%Q]) 0 = false.
Proof.
  destruct (Qle_bool _ _) eqn:E; [| reflexivity].
  apply Qle_bool_iff in E. simpl in E.
  assert (Hone : (r + (1 - r + 0) == 1)%Q) by ring.
  rewrite Hone in E. unfold Qle in E. simpl in E. lia.
Qed.

(** [is_in] is a list of one element, whatever is drawn. *)
Lemma is_in_truthy (bisected : nat) (r : Q) :
  exists is_in,
    random.choices_weighted bisected [true; false] [r; (1 - r)%Q] = Ok is_in /\
    truthy is_in = true.
Proof.
  unfold random.choices_weighted. rewrite weights_total_positive.
  destruct bisected as [| [| n]]; eexists; split; reflexivity.
Qed.

Lemma EvalDataset_setup_file_draws (bisected : string -> string -> nat)
    (self : @EvalDataset.t Image Tensor Stats) (profile file_name : string)
    (cls : ClassLists) :
  EvalDataset.setup_file bisected self profile file_name cls
  = EvalDataset.setup_file (fun _ _ => 0%nat) self profile file_name cls.
Proof.
  unfold EvalDataset.setup_file.
  destruct (splitext file_name) as [stem ext].
  destruct (EvalDataset._file_names !! stem) as [mask_label |]; [| reflexivity].
  rewrite !bind_unfold. unfold call.
  destruct (is_in_truthy (bisected profile file_name) (EvalDataset.data_ratio self))
    as (is_in & -> & ->).
  destruct (is_in_truthy 0 (EvalDataset.data_ratio self)) as (is_in0 & -> & ->).
  reflexivity.
Qed.

Lemma ModelEvalDataset_setup_file_draws (bisected : string -> string -> nat)
    (self : @ModelEvalDataset.t Image Tensor Stats) (profile file_name : string)
    (cls : ClassLists) :
  ModelEvalDataset.setup_file bisected self profile file_name cls
  = ModelEvalDataset.setup_file (fun _ _ => 0%nat) self profile file_name cls.
Proof.
  unfold ModelEvalDataset.setup_file.
  destruct (splitext file_name) as [stem ext].
  destruct (negb (startswith stem (ModelEvalDataset.label self))); [reflexivity |].
  rewrite !bind_unfold. unfold call.
  destruct (is_in_truthy (bisected profile file_name) (ModelEvalDataset.data_ratio self))
    as (is_in & -> & ->).
  destruct (is_in_truthy 0 (ModelEvalDataset.data_ratio self)) as (is_in0 & -> & ->).
  reflexivity.
Qed.

(** C5, what the code does. The scan of [EvalDataset] and of
    [ModelEvalDataset] does not depend on the draws: whatever the ratio and
    whatever is drawn, the lists and the outcome are those of the scan in
    which every draw is [True], so no recognised file is left out. *)
Theorem sampling_scan_ignores_draws (bisected : string -> string -> nat)
    (fs : FileSystem) (cls : ClassLists) :
  (forall self : @EvalDataset.t Image Tensor Stats,
     EvalDataset.setup bisected fs self cls
     = EvalDataset.setup (fun _ _ => 0%nat) fs self cls) /\
  (forall self : @ModelEvalDataset.t Image Tensor Stats,
     ModelEvalDataset.setup bisected fs self cls
     = ModelEvalDataset.setup (fun _ _ => 0%nat) fs self cls).
Proof.
  split; intros self.
  - unfold EvalDataset.setup. rewrite !bind_unfold.
    destruct (call (fs [EvalDataset.data_dir self]) cls) as [cls' [profiles | e]];
      [| reflexivity].
    apply for_each_ext. intros profile c _.
    unfold EvalDataset.setup_profile.
    destruct (startswith profile "."); [reflexivity |].
    rewrite !bind_unfold.
    destruct (call (fs [EvalDataset.data_dir self; profile]) c) as [c' [files | e]];
      [| reflexivity].
    apply for_each_ext. intros file_name c'' _.
    apply EvalDataset_setup_file_draws.
  - unfold ModelEvalDataset.setup. rewrite !bind_unfold.
    destruct (call (fs [ModelEvalDataset.data_dir self]) cls) as [cls' [profiles | e]];
      [| reflexivity].
    apply for_each_ext. intros profile c _.
    unfold ModelEvalDataset.setup_profile.
    destruct (startswith profile "."); [reflexivity |].
    rewrite !bind_unfold.
    destruct (call (fs [ModelEvalDataset.data_dir self; profile]) c) as [c' [files | e]];
      [| reflexivity].
    apply for_each_ext. intros file_name c'' _.
    apply ModelEvalDataset_setup_file_draws.
Qed.

(** So the evaluation dataset lists exactly what the unsampled scan of
    [MaskBaseDataset] lists over the same directory. *)
Lemma EvalDataset_setup_full_scan (bisected : string -> string -> nat) (fs : FileSystem)
    (self : @EvalDataset.t Image Tensor Stats)
    (base : @MaskBaseDataset.t Image Tensor Stats) (cls : ClassLists) :
  EvalDataset.data_dir self = MaskBaseDataset.data_dir base ->
  EvalDataset.setup bisected fs self cls = MaskBaseDataset.setup fs base cls.
Proof.
  intros Hdir.
  unfold EvalDataset.setup, MaskBaseDataset.setup. rewrite Hdir, !bind_unfold.
  destruct (call (fs [MaskBaseDataset.data_dir base]) cls) as [cls' [profiles | e]];
    [| reflexivity].
  apply for_each_ext. intros profile c _.
  unfold EvalDataset.setup_profile, MaskBaseDataset.setup_profile. rewrite Hdir.
  destruct (startswith profile "."); [reflexivity |].
  rewrite !bind_unfold.
  destruct (call (fs [MaskBaseDataset.data_dir base; profile]) c) as [c' [files | e]];
    [| reflexivity].
  apply for_each_ext. intros file_name c'' _.
  unfold EvalDataset.setup_file, MaskBaseDataset.setup_file.
  destruct (splitext file_name) as [stem ext].
  change EvalDataset._file_names with MaskBaseDataset._file_names.
  destruct (MaskBaseDataset._file_names !! stem) as [mask_label |]; [| reflexivity].
  rewrite (bind_unfold (call (random.choices_weighted _ _ _))). unfold call at 1.
  destruct (is_in_truthy (bisected profile file_name) (EvalDataset.data_ratio self))
    as (is_in & -> & ->).
  rewrite Hdir. reflexivity.
Qed.

End SamplingScan.

(** ** Subject-disjoint split: the phases of a subject *)

Section SubjectDisjointSplit.
Context {Image Tensor Stats : Type}.
Variable image_statistics : list Path -> Stats * Stats.
Variable rand_index : nat -> nat -> nat.
Variable set_iter : gset nat -> list nat.
Variable fs : FileSystem.
Variable data_dir : string.
Variable val_ratio : float.

(** The loop visits members of the set, and a directory listing has no
    name twice. *)
Hypothesis set_iter_sound : forall (s : gset nat) i, i ∈ set_iter s -> i ∈ s.
Hypothesis listing_NoDup : forall path names, fs path = Ok names -> NoDup names.

Lemma dict_get_append {A} (key key' : string) (x : A) (d : defaultdict A) :
  dict_get key (dict_append key' x d)
  = if String.eqb key' key then (dict_get key d ++ [x])%list else dict_get key d.
Proof.
  induction d as [| [k v] d IH]; simpl.
  - destruct (String.eqb key' key); reflexivity.
  - destruct (String.eqb_spec k key') as [-> | Hk]; simpl.
    + destruct (String.eqb key' key); reflexivity.
    + rewrite IH. destruct (String.eqb_spec k key) as [-> | Hk']; [| reflexivity].
      apply String.eqb_neq in Hk. rewrite String.eqb_sym, Hk. reflexivity.
Qed.

Lemma getitem_nat_inv {A} (l : list A) (i : nat) (x : A) :
  Py.getitem l (Z.of_nat i) = Ok x -> l !! i = Some x.
Proof.
  unfold Py.getitem.
  destruct (Z.ltb_spec (Z.of_nat i) 0); [lia |].
  destruct ((0 <=? Z.of_nat i) && (Z.of_nat i <? Z.of_nat (length l)))%bool;
    [| discriminate].
  rewrite Nat2Z.id. destruct (l !! i); [| discriminate].
  intros [= ->]. reflexivity.
Qed.

(** No subject belongs to both phases. *)
Lemma belongs_exclusive (profile : string) :
  belongs rand_index fs data_dir val_ratio "train" profile ->
  belongs rand_index fs data_dir val_ratio "val" profile ->
  False.
Proof.
  intros (names & sp & T & i & Hnames & Hsp & HT & Hi & Hpi)
         (names' & sp' & V & j & Hnames' & Hsp' & HV & Hj & Hpj).
  rewrite Hnames in Hnames'. injection Hnames' as <-.
  rewrite Hsp in Hsp'. injection Hsp' as <-.
  pose proof (listing_NoDup _ _ Hnames) as Hnd.
  apply NoDup_ListNoDup in Hnd.
  apply (List.NoDup_filter (fun profile => negb (startswith profile "."))) in Hnd.
  apply NoDup_ListNoDup in Hnd.
  assert (i = j) as ->.
  { eapply NoDup_lookup; eauto. }
  apply split_profile_inv in Hsp as (n_val & drawn & _ & _ & ->).
  apply elem_of_cons in HT as [[= ->] | HT].
  - apply elem_of_cons in HV as [[= ?] | HV].
    apply elem_of_cons in HV as [[= ->] | HV]; [| inversion HV].
    apply elem_of_difference in Hi as [_ Hnot]. exact (Hnot Hj).
  - apply elem_of_cons in HT as [[= ?] | HT]. inversion HT.
Qed.

Lemma setup_file_invariant (phase profile file_name : string)
    (s : MaskSplitByProfileDataset.state) :
  belongs rand_index fs data_dir val_ratio phase profile ->
  phase_invariant rand_index fs data_dir val_ratio s ->
  phase_invariant rand_index fs data_dir val_ratio
    (MaskSplitByProfileDataset.setup_file data_dir phase profile file_name s).1.
Proof.
  intros Hbel Hinv. unfold MaskSplitByProfileDataset.setup_file.
  destruct (splitext file_name) as [stem ext].
  destruct (MaskBaseDataset._file_names !! stem) as [mask_label |]; [| exact Hinv].
  rewrite bind_unfold. unfold call.
  destruct (unpack4 (split "_" profile)) as [[[[id gender] race] age] | e];
    [| exact Hinv].
  rewrite bind_unfold.
  destruct (GenderLabels.from_str gender) as [gender_label | e]; [| exact Hinv].
  rewrite bind_unfold.
  destruct (AgeLabels.from_number (VStr age)) as [age_label | e]; [| exact Hinv].
  destruct Hinv as [Hcnt Hidx]. destruct s as [cls idx cnt]. simpl in *.
  split; simpl.
  - rewrite length_app. simpl. lia.
  - intros ph i. rewrite dict_get_append.
    intros Hi.
    assert (Hcase : i ∈ dict_get ph idx \/ (ph = phase /\ i = cnt)).
    { destruct (String.eqb_spec phase ph) as [<- | _]; [| left; exact Hi].
      apply elem_of_app in Hi as [Hi | Hi]; [left; exact Hi |].
      right. apply list_elem_of_singleton in Hi. auto. }
    destruct Hcase as [Hold | [-> ->]].
    + destruct (Hidx ph i Hold) as (p & f & Hlook & Hb).
      exists p, f. split; [| exact Hb].
      apply lookup_app_l_Some. exact Hlook.
    + exists profile, file_name. split; [| exact Hbel].
      rewrite <- Hcnt. apply list_lookup_middle. reflexivity.
Qed.

Lemma setup_invariant (self : @MaskBaseDataset.t Image Tensor Stats)
    (s : MaskSplitByProfileDataset.state) :
  MaskBaseDataset.data_dir self = data_dir ->
  MaskBaseDataset.val_ratio self = val_ratio ->
  image_paths (MaskSplitByProfileDataset.lists s) = [] ->
  MaskSplitByProfileDataset.self_indices s = [] ->
  MaskSplitByProfileDataset.cnt s = 0%nat ->
  phase_invariant rand_index fs data_dir val_ratio
    (MaskSplitByProfileDataset.setup rand_index set_iter fs self s).1.
Proof.
  intros Hdir Hratio Hpaths Hidx Hcnt.
  assert (Hs : phase_invariant rand_index fs data_dir val_ratio s).
  { split; [rewrite Hpaths, Hcnt; reflexivity |].
    intros phase i Hi. rewrite Hidx in Hi. inversion Hi. }
  unfold MaskSplitByProfileDataset.setup. rewrite Hdir, Hratio.
  rewrite bind_unfold. unfold call at 1.
  destruct (fs [data_dir]) as [names | e] eqn:Hnames; [| exact Hs].
  rewrite bind_unfold. unfold call at 1.
  destruct (MaskSplitByProfileDataset._split_profile _ _ _)
    as [split_profiles | e] eqn:Hsplit; [| exact Hs].
  rewrite bind_unfold. unfold modify at 1.
  apply for_each_invariant;
    [| split; [simpl; rewrite Hpaths; reflexivity | exact (proj2 Hs)]].
  intros [phase indices] t Hphase Ht.
  apply for_each_invariant; [| exact Ht].
  intros _idx u Hin Hu.
  rewrite bind_unfold. unfold call at 1.
  destruct (Py.getitem _ (Z.of_nat _idx)) as [profile | e] eqn:Hprofile; [| exact Hu].
  rewrite bind_unfold. unfold call at 1.
  destruct (fs [data_dir; profile]) as [files | e]; [| exact Hu].
  apply for_each_invariant; [| exact Hu].
  intros file_name v _ Hv.
  apply setup_file_invariant; [| exact Hv].
  exists names, split_profiles, indices, _idx.
  split_and!; try assumption.
  - apply set_iter_sound, Hin.
  - apply getitem_nat_inv, Hprofile.
Qed.

(** The first dataset built from empty class-level lists keeps every
    subject on one side: an index recorded under "train" and an index
    recorded under "val" never are paths of the same subject directory. *)
Lemma first_instance_subject_disjoint (mean std : option Stats) (cls cls' : ClassLists)
    (ds : @MaskSplitByProfileDataset.t Image Tensor Stats) :
  MaskSplitByProfileDataset.__init__ image_statistics rand_index set_iter fs
    data_dir mean std val_ratio cls = (cls', Ok ds) ->
  image_paths cls = [] ->
  forall i j pi pj,
    i ∈ dict_get "train" (MaskSplitByProfileDataset.indices ds) ->
    j ∈ dict_get "val" (MaskSplitByProfileDataset.indices ds) ->
    image_paths cls' !! i = Some pi ->
    image_paths cls' !! j = Some pj ->
    subject_of pi <> subject_of pj.
Proof.
  unfold MaskSplitByProfileDataset.__init__.
  intros Hinit Hempty i j pi pj Hi Hj Hpi Hpj.
  match type of Hinit with
  | context [MaskSplitByProfileDataset.setup _ _ _ ?self ?s0] =>
      pose proof (setup_invariant self s0 eq_refl eq_refl Hempty eq_refl eq_refl) as Hinv;
      destruct (MaskSplitByProfileDataset.setup rand_index set_iter fs self s0)
        as [s [[] | e]]; [| discriminate Hinit];
      destruct (calc_statistics_lists image_statistics self
                  (MaskSplitByProfileDataset.lists s)) as [self' Hstat];
      rewrite Hstat in Hinit
  end.
  injection Hinit as <- <-. simpl in *.
  destruct Hinv as [_ Hidx].
  destruct (Hidx _ _ Hi) as (p1 & f1 & Hl1 & Hb1).
  destruct (Hidx _ _ Hj) as (p2 & f2 & Hl2 & Hb2).
  pose proof (eq_trans (eq_sym Hpi) Hl1) as E1. injection E1 as ->.
  pose proof (eq_trans (eq_sym Hpj) Hl2) as E2. injection E2 as ->.
  unfold subject_of. simpl. intros [= ->].
  exact (belongs_exclusive p2 Hb1 Hb2).
Qed.

End SubjectDisjointSplit.

(** ** The properties at work on small corpora *)

Section Examples.
Import Fixtures.

Lemma encode_range_and_onto_witness :
  0 <= MaskBaseDataset.encode_multi_class 2 1 2 < 18 /\
  (exists m g a, valid_mask m /\ valid_gender g /\ valid_age a /\
                 MaskBaseDataset.encode_multi_class m g a = 17) /\
  ((exists g a,
      MaskBaseDataset.get_gender_label one_sample 0 = Ok g /\
      MaskBaseDataset.get_age_label one_sample 0 = Ok a /\
      4 = GenderLabels.value g * 3 + AgeLabels.value a) /\
   0 <= 4 < MaskLabelDataset.num_classes) /\
  (exists g a,
     forall (self : @MaskLabelDataset.t Path (list Path) unit) transform mask cls index p,
       MaskBaseDataset.transform (MaskLabelDataset.base self) = Some transform ->
       MaskLabelDataset._mask_labels !! MaskLabelDataset.mask_label self = Some mask ->
       Py.getitem (image_paths cls) index = Ok p ->
       Py.getitem (gender_labels cls) index = Ok g ->
       Py.getitem (age_labels cls) index = Ok a ->
       MaskLabelDataset.__getitem__ (fun p => p) self cls index = Ok (transform p, 5)) /\
  (exists m : MaskLabels.t, MaskLabels.value m = 2).
Proof.
  destruct (@encode_range_and_onto Path (list Path) unit (fun p => p))
    as (Hfull & Hfull_onto & Hga & Hga_onto & _ & Hmask_onto).
  unfold valid_mask, valid_gender, valid_age in *.
  split; [| split; [| split; [| split]]].
  - apply Hfull; lia.
  - apply Hfull_onto; lia.
  - apply (Hga gender_age_dataset one_sample 0
             [["data"; "000001_female_Asian_45"; "normal.jpg"]] 4).
    reflexivity.
  - apply Hga_onto. unfold MaskLabelDataset.num_classes. lia.
  - destruct (Hmask_onto 2) as (m & Hm & _); [unfold MaskDataset.num_classes; lia |].
    exists m. exact Hm.
Defined.

(** The six class ids of the gender-and-age dataset, each returned by
    [MaskLabelDataset.__getitem__] for one sample. *)
Example gender_age_getitem_labels :
  map (fun '(g, a) =>
         MaskLabelDataset.__getitem__ (fun p => p) gender_age_dataset
           {| image_paths := [["data"; "000001_female_Asian_45"; "mask1.jpg"]];
              mask_labels := [MaskLabels.MASK];
              gender_labels := [g]; age_labels := [a] |} 0)
    [(GenderLabels.MALE, AgeLabels.YOUNG); (GenderLabels.MALE, AgeLabels.MIDDLE);
     (GenderLabels.MALE, AgeLabels.OLD); (GenderLabels.FEMALE, AgeLabels.YOUNG);
     (GenderLabels.FEMALE, AgeLabels.MIDDLE); (GenderLabels.FEMALE, AgeLabels.OLD)]
  = map (fun c => Ok ([["data"; "000001_female_Asian_45"; "mask1.jpg"]], c))
      [0; 1; 2; 3; 4; 5].
Proof. reflexivity. Qed.

(** What [int] reads: not the separators 28 to 31, which [str.isspace]
    counts as white space, but the no-break space at either end and the
    decimal digits of every script, here the fullwidth digits. *)
Example from_number_code_points :
  AgeLabels.from_number (VStr (bytes [28; 50; 53]))
  = Raise (ValueError_age (VStr (bytes [28; 50; 53]))) /\
  AgeLabels.from_number (VStr (bytes [50; 53; 31]))
  = Raise (ValueError_age (VStr (bytes [50; 53; 31]))) /\
  AgeLabels.from_number (VStr (bytes [239; 188; 146; 239; 188; 149])) = Ok AgeLabels.YOUNG /\
  AgeLabels.from_number (VStr (bytes [194; 160; 54; 48])) = Ok AgeLabels.OLD /\
  AgeLabels.from_number (VStr (bytes [28; 239; 188; 146; 239; 188; 149]))
  = Raise (ValueError_age (VStr (bytes [28; 239; 188; 146; 239; 188; 149]))) /\
  AgeLabels.from_number (VStr "4_5") = Ok AgeLabels.MIDDLE /\
  AgeLabels.from_number (VStr "45_") = Raise (ValueError_age (VStr "45_")) /\
  AgeLabels.from_number (VStr (bytes [255; 50; 53]))
  = Raise (ValueError_age (VStr (bytes [255; 50; 53]))).
Proof. split_and!; vm_compute; reflexivity. Qed.

Lemma getitem_needs_transform_witness :
  MaskBaseDataset.__getitem__ (fun p => p) path_dataset one_sample 0
  = Raise AssertionError_transform /\
  MaskBaseDataset.__getitem__ (fun p => p)
    (MaskBaseDataset.set_transform path_dataset (Some (fun image => [image; image])))
    one_sample 0
  = Ok ([["data"; "000001_female_Asian_45"; "normal.jpg"];
         ["data"; "000001_female_Asian_45"; "normal.jpg"]], 16).
Proof.
  destruct (@getitem_needs_transform Path (list Path) unit (fun p => p)) as [Hnone Hsome].
  split.
  - apply Hnone. reflexivity.
  - apply (Hsome path_dataset one_sample (fun image => [image; image]) 0
             ["data"; "000001_female_Asian_45"; "normal.jpg"]
             MaskLabels.NORMAL GenderLabels.FEMALE AgeLabels.MIDDLE);
      reflexivity.
Defined.

Lemma split_dataset_partition_witness :
  exists n_val train_set val_set,
    Py.int_of_product 11 ratio_0_2 = Ok n_val /\
    2 <= n_val <= 3 /\
    MaskBaseDataset.split_dataset (fun n => rev (seq 0 n)) default_dataset eleven_samples
    = Ok (train_set, val_set) /\
    torch.Subset_len val_set = n_val /\
    torch.Subset_len train_set = 11 - n_val /\
    (torch.indices train_set ++ torch.indices val_set)%list ≡ₚ seq 0 11 /\
    (forall i, i ∈ torch.indices train_set -> i ∉ torch.indices val_set).
Proof.
  apply (split_dataset_partition (fun n => rev (seq 0 n)) default_dataset eleven_samples
           (7205759403792794 # 36028797018963968)).
  - intros n. symmetry. apply Permutation_rev.
  - reflexivity.
  - reflexivity.
  - reflexivity.
  - reflexivity.
Defined.

(** C3 as stated fails. Ten samples at ratio 0.7: the float 0.7 lies
    below 7/10, the floor of ten times its value is 6, and the validation
    subset has 7 indices, because the product is rounded to 7.0. A hundred
    samples at ratio 0.29: the floor of 100 * 29/100 is 29, and the
    validation subset has 28 indices, because the float 0.29 lies below
    29/100. *)
Lemma split_dataset_size_not_the_floor :
  (exists q train_set val_set,
     Py.float_value ratio_0_7 = Some q /\ (0 < q)%Q /\ (q < 1)%Q /\
     Qfloor (inject_Z 10 * q) = 6 /\
     MaskBaseDataset.split_dataset (fun n => seq 0 n) (dataset_at ratio_0_7) (samples 10)
     = Ok (train_set, val_set) /\
     torch.Subset_len val_set = 7 /\
     torch.Subset_len train_set = 3) /\
  (exists train_set val_set,
     literal 29 2 = ratio_0_29 /\
     Qfloor (inject_Z 100 * (29 # 100)) = 29 /\
     MaskBaseDataset.split_dataset (fun n => seq 0 n) (dataset_at ratio_0_29) (samples 100)
     = Ok (train_set, val_set) /\
     torch.Subset_len val_set = 28 /\
     torch.Subset_len train_set = 72).
Proof.
  split.
  - eexists _, _, _. split_and!; try reflexivity; vm_compute; reflexivity.
  - eexists _, _. split_and!; try reflexivity; vm_compute; reflexivity.
Qed.

(** The ratios of the examples are the floats their literals denote, and
    the products as binary64 gives them: [int(100 * 0.29)] is 28,
    [int(10 * 0.7)] is 7, [int(5 * 0.6)] is 3 and [int(11 * 0.2)] is 2;
    an infinite or undefined product makes [int] raise, as ten times the
    largest float does. *)
Example ratio_literals :
  literal 2 1 = ratio_0_2 /\ literal 29 2 = ratio_0_29 /\ literal 4 1 = ratio_0_4 /\
  literal 6 1 = ratio_0_6 /\ literal 7 1 = ratio_0_7 /\ literal 9 1 = ratio_0_9.
Proof. split_and!; vm_compute; reflexivity. Qed.

Example products_in_binary64 :
  Py.int_of_product 100 ratio_0_29 = Ok 28 /\
  Py.int_of_product 10 ratio_0_7 = Ok 7 /\
  Py.int_of_product 5 ratio_0_6 = Ok 3 /\
  Py.int_of_product 11 ratio_0_2 = Ok 2 /\
  Py.int_of_product 3 (S754_infinity false) = Raise OverflowError /\
  Py.int_of_product 0 (S754_infinity false) = Raise ValueError_nan /\
  Py.int_of_product 10 (S754_finite false 9007199254740991 971) = Raise OverflowError.
Proof. split_and!; vm_compute; reflexivity. Qed.

(** Eleven samples at ratio 0.2, the permutation being the reversal:
    indices 10 down to 2 train, 1 and 0 validate. *)
Example split_dataset_eleven :
  MaskBaseDataset.split_dataset (fun n => rev (seq 0 n)) default_dataset eleven_samples
  = Ok ({| torch.indices := [10; 9; 8; 7; 6; 5; 4; 3; 2]%nat |},
        {| torch.indices := [1; 0]%nat |}).
Proof. vm_compute. reflexivity. Qed.



(** With two equal draws a single validation subject is left, of the two
    asked for. *)
Example split_profile_collision :
  MaskSplitByProfileDataset._split_profile (always 1)
    ["000001_female_Asian_45"; "000002_male_Asian_61"; "000004_MALE_Asian_19";
     "000005_female_Asian_58"; "000006_female_Asian_59"] ratio_0_4
  = Ok [("train", {[0; 2; 3; 4]}%nat); ("val", {[1%nat]})].
Proof. vm_compute. reflexivity. Qed.

Lemma class_lists_shared_between_instances_witness :
  exists scanned : ClassLists,
    let own := Z.of_nat (length (image_paths scanned)) in
    let before := Z.of_nat (length (image_paths empty_lists)) in
    corpus_one_lists = lists_app empty_lists scanned /\
    lists_app corpus_one_lists corpus_one_lists = lists_app corpus_one_lists scanned /\
    MaskBaseDataset.__len__ default_dataset corpus_one_lists = before + own /\
    MaskBaseDataset.__len__ default_dataset (lists_app corpus_one_lists corpus_one_lists)
    = before + 2 * own /\
    MaskBaseDataset.__len__ default_dataset (lists_app corpus_one_lists corpus_one_lists)
    = before + 2 * own /\
    (0 < own ->
     MaskBaseDataset.__len__ default_dataset (lists_app corpus_one_lists corpus_one_lists)
     <> own /\
     MaskBaseDataset.__len__ default_dataset (lists_app corpus_one_lists corpus_one_lists)
     <> own).
Proof.
  apply (class_lists_shared_between_instances no_statistics corpus_one "data"
           default_stats default_stats default_stats default_stats ratio_0_2 ratio_0_2
           empty_lists corpus_one_lists (lists_app corpus_one_lists corpus_one_lists)
           default_dataset default_dataset).
  - vm_compute. reflexivity.
  - vm_compute. reflexivity.
Defined.

(** Two datasets over the corpus of three photographs: each reports six. *)
Example two_instances_report_six :
  MaskBaseDataset.__len__ default_dataset corpus_one_lists = 3 /\
  MaskBaseDataset.__len__ default_dataset (lists_app corpus_one_lists corpus_one_lists) = 6.
Proof. split; reflexivity. Qed.

Lemma unknown_gender_raises_witness :
  @MaskBaseDataset.__init__ unit unit unit no_statistics corpus_unknown_gender "data"
    default_stats default_stats ratio_0_2 empty_lists
  = ({| image_paths := [["data"; "000001_female_Asian_45"; "mask1.jpg"]];
        mask_labels := [MaskLabels.MASK];
        gender_labels := [GenderLabels.FEMALE];
        age_labels := [AgeLabels.MIDDLE] |},
     Raise (ValueError_gender "nonbinary")).
Proof.
  apply (unknown_gender_raises no_statistics corpus_unknown_gender "data"
           default_stats default_stats ratio_0_2
           ["000001_female_Asian_45"] [] ["notes.txt"; "mask1.jpg"; "normal.jpg"]
           "001_nonbinary_asian_25" "001" "nonbinary" "asian" "25" empty_lists).
  - reflexivity.
  - vm_compute. reflexivity.
  - reflexivity.
  - reflexivity.
  - vm_compute. discriminate.
  - vm_compute. discriminate.
  - reflexivity.
  - exists "mask1.jpg". split; [| vm_compute; reflexivity].
    apply list_elem_of_In. simpl. auto.
Defined.

(** C8 as stated fails: the corpus holds a subject directory whose gender
    field is neither male nor female, it holds no recognised file, and the
    dataset is built without any exception. *)
Lemma unknown_gender_without_image_accepted :
  corpus_unknown_gender_no_image ["data"] = Ok ["001_nonbinary_asian_25"] /\
  split "_" "001_nonbinary_asian_25" = ["001"; "nonbinary"; "asian"; "25"] /\
  GenderLabels.from_str "nonbinary" = Raise (ValueError_gender "nonbinary") /\
  (exists ds,
     @MaskBaseDataset.__init__ unit unit unit no_statistics corpus_unknown_gender_no_image
       "data" default_stats default_stats ratio_0_2 empty_lists
     = (empty_lists, Ok ds)) /\
  ~ (exists cls value,
       @MaskBaseDataset.__init__ unit unit unit no_statistics corpus_unknown_gender_no_image
         "data" default_stats default_stats ratio_0_2 empty_lists
       = (cls, Raise (ValueError_gender value))).
Proof.
  split_and!; try reflexivity.
  - eexists. vm_compute. reflexivity.
  - intros (cls & value & H). vm_compute in H. discriminate H.
Qed.

(** With ratio 0 and every draw falling on [False], the evaluation
    dataset still lists the three recognised files of [corpus_one]. *)
Example sampling_scan_ratio_zero :
  @EvalDataset.setup unit unit unit (fun _ _ => 1%nat) corpus_one
    {| EvalDataset.data_dir := "data"; EvalDataset.mean := default_stats;
       EvalDataset.std := default_stats; EvalDataset.transform := None;
       EvalDataset.data_ratio := 0 |} empty_lists
  = (corpus_one_lists, Ok tt).
Proof. vm_compute. reflexivity. Qed.

(** C2, where the code departs from it. A second
    [MaskSplitByProfileDataset] built in the same process appends to the
    class-level lists the first one filled, but counts its indices from 0
    again, so its indices point at the paths of the first scan: here index
    2 is recorded under "train" and index 3 under "val", and both are
    photographs of subject 000001_female_Asian_45. *)
Theorem second_instance_splits_a_subject :
  exists (cls1 cls2 : ClassLists) (ds1 ds2 : @MaskSplitByProfileDataset.t unit unit unit),
    MaskSplitByProfileDataset.__init__ no_statistics (always 0) increasing corpus_three
      "data" default_stats default_stats ratio_0_4 empty_lists = (cls1, Ok ds1) /\
    MaskSplitByProfileDataset.__init__ no_statistics (always 2) increasing corpus_three
      "data" default_stats default_stats ratio_0_4 cls1 = (cls2, Ok ds2) /\
    dict_get "train" (MaskSplitByProfileDataset.indices ds2) = [0; 1; 2]%nat /\
    dict_get "val" (MaskSplitByProfileDataset.indices ds2) = [3%nat] /\
    image_paths cls2 !! 2%nat = Some ["data"; "000001_female_Asian_45"; "mask1.jpg"] /\
    image_paths cls2 !! 3%nat = Some ["data"; "000001_female_Asian_45"; "normal.jpg"] /\
    (image_paths cls2 !! 2%nat ≫= subject_of) = (image_paths cls2 !! 3%nat ≫= subject_of).
Proof.
  eexists _, _, _, _.
  split; [vm_compute; reflexivity |].
  split; [vm_compute; reflexivity |].
  split_and!; reflexivity.
Qed.

(** The first of the two instances keeps the subjects apart. *)
Example first_instance_keeps_subjects_apart :
  exists (cls1 : ClassLists) (ds1 : @MaskSplitByProfileDataset.t unit unit unit),
    MaskSplitByProfileDataset.__init__ no_statistics (always 0) increasing corpus_three
      "data" default_stats default_stats ratio_0_4 empty_lists = (cls1, Ok ds1) /\
    MaskSplitByProfileDataset.indices ds1 = [("train", [0; 1]%nat); ("val", [2; 3]%nat)] /\
    subject_of <$> image_paths cls1
    = [Some "000002_male_Asian_61"; Some "000004_MALE_Asian_19";
       Some "000001_female_Asian_45"; Some "000001_female_Asian_45"].
Proof.
  eexists _, _. split; [vm_compute; reflexivity |]. split; reflexivity.
Qed.

End Examples.

(** * Further properties of the module *)

(** ** Label encoder beyond the valid triples *)

Section LabelEncoderTotal.

(** [decode_multi_class] answers with a valid triple for every integer,
    class id or not: Python's [%] never gives a negative remainder. *)
Theorem decode_always_valid (c : Z) :
  let '(m, g, a) := MaskBaseDataset.decode_multi_class c in
  valid_mask m /\ valid_gender g /\ valid_age a.
Proof.
  unfold MaskBaseDataset.decode_multi_class, valid_mask, valid_gender, valid_age.
  pose proof (Z.mod_pos_bound (c `div` 6) 3 ltac:(lia)).
  pose proof (Z.mod_pos_bound (c `div` 3) 2 ltac:(lia)).
  pose proof (Z.mod_pos_bound c 3 ltac:(lia)).
  lia.
Qed.

(** Encoding what [decode_multi_class] returns gives the class id modulo
    18: decoding forgets exactly the multiples of 18. *)
Theorem encode_decode_mod_18 (c : Z) :
  let '(m, g, a) := MaskBaseDataset.decode_multi_class c in
  MaskBaseDataset.encode_multi_class m g a = c `mod` 18.
Proof.
  unfold MaskBaseDataset.decode_multi_class, MaskBaseDataset.encode_multi_class.
  replace (c `div` 6) with ((c `div` 3) `div` 2)
    by (rewrite Z.div_div by lia; reflexivity).
  set (q := c `div` 3).
  pose proof (Z.div_mod c 3 ltac:(lia)) as Hc. fold q in Hc.
  pose proof (Z.div_mod q 2 ltac:(lia)) as Hq.
  pose proof (Z.div_mod (q `div` 2) 3 ltac:(lia)) as Hh.
  pose proof (Z.mod_pos_bound (q `div` 2) 3 ltac:(lia)).
  pose proof (Z.mod_pos_bound q 2 ltac:(lia)).
  pose proof (Z.mod_pos_bound c 3 ltac:(lia)).
  apply Z.mod_unique with (q := (q `div` 2) `div` 3); lia.
Qed.

(** Two valid triples with one class id are one triple. *)
Theorem encode_multi_class_injective (m g a m' g' a' : Z) :
  valid_mask m -> valid_gender g -> valid_age a ->
  valid_mask m' -> valid_gender g' -> valid_age a' ->
  MaskBaseDataset.encode_multi_class m g a = MaskBaseDataset.encode_multi_class m' g' a' ->
  m = m' /\ g = g' /\ a = a'.
Proof.
  unfold valid_mask, valid_gender, valid_age, MaskBaseDataset.encode_multi_class. lia.
Qed.

End LabelEncoderTotal.

(** ** Label parsers: letter case and order *)

Section LabelParsersMore.

Lemma lower_char_idempotent (c : ascii) : lower_char (lower_char c) = lower_char c.
Proof. destruct c as [[] [] [] [] [] [] [] []]; reflexivity. Qed.

Lemma lower_idempotent (s : string) : lower (lower s) = lower s.
Proof.
  induction s as [| c s IH]; simpl; [reflexivity |].
  rewrite lower_char_idempotent, IH. reflexivity.
Qed.

(** [from_str] does not see letter case: two spellings with one
    lowercase form get one answer, error value included, and lowercasing
    the argument first changes nothing. *)
Theorem from_str_ignores_case :
  (forall s s', lower s = lower s' -> GenderLabels.from_str s = GenderLabels.from_str s') /\
  (forall s, GenderLabels.from_str (lower s) = GenderLabels.from_str s).
Proof.
  split.
  - intros s s' H. unfold GenderLabels.from_str. rewrite H. reflexivity.
  - intros s. unfold GenderLabels.from_str. rewrite lower_idempotent. reflexivity.
Qed.

(** The age brackets are monotone: an older age never gets a lower
    bracket. *)
Theorem from_number_monotone (v w : Py.value) (n m : Z) (a b : AgeLabels.t) :
  Py.int v = Some n -> Py.int w = Some m -> n <= m ->
  AgeLabels.from_number v = Ok a -> AgeLabels.from_number w = Ok b ->
  AgeLabels.value a <= AgeLabels.value b.
Proof.
  unfold AgeLabels.from_number. intros -> -> Hnm.
  destruct (Z.ltb_spec n 30), (Z.ltb_spec n 60), (Z.ltb_spec m 30), (Z.ltb_spec m 60);
    intros [= <-] [= <-]; simpl; lia.
Qed.

End LabelParsersMore.

(** ** What the scan leaves in the lists *)

Section ScanInvariants.
Context {Image Tensor Stats : Type}.

Lemma lookup_snoc_inv {A} (l : list A) (x y : A) (i : nat) :
  (l ++ [x])%list !! i = Some y ->
  l !! i = Some y \/ (i = length l /\ y = x).
Proof.
  intros H. destruct (decide (i < length l)%nat) as [Hlt | Hge].
  - left. rewrite lookup_app_l in H by exact Hlt. exact H.
  - right. rewrite lookup_app_r in H by lia.
    destruct (i - length l)%nat as [| k] eqn:Hk; simpl in H; [| discriminate].
    injection H as <-. split; [lia | reflexivity].
Qed.

Lemma setup_file_consistent (self : @MaskBaseDataset.t Image Tensor Stats)
    (profile file_name : string) (cls : ClassLists) :
  aligned cls /\ derived cls ->
  aligned (MaskBaseDataset.setup_file self profile file_name cls).1 /\
  derived (MaskBaseDataset.setup_file self profile file_name cls).1.
Proof.
  intros Hinv. unfold MaskBaseDataset.setup_file.
  destruct (splitext file_name) as [stem ext] eqn:Hstem.
  destruct (MaskBaseDataset._file_names !! stem) as [mask_label |] eqn:Hmask;
    [| exact Hinv].
  rewrite bind_unfold. unfold call.
  destruct (unpack4 (split "_" profile)) as [[[[id gender] race] age] | e] eqn:Hfields;
    [| exact Hinv].
  rewrite bind_unfold.
  destruct (GenderLabels.from_str gender) as [gender_label | e] eqn:Hgender;
    [| exact Hinv].
  rewrite bind_unfold.
  destruct (AgeLabels.from_number (VStr age)) as [age_label | e] eqn:Hage;
    [| exact Hinv].
  destruct Hinv as [(Hm & Hg & Ha) Hder]. destruct cls as [paths masks genders ages].
  simpl in *. split.
  - unfold aligned. simpl. rewrite !length_app. simpl. lia.
  - intros i p Hp. simpl in *.
    apply lookup_snoc_inv in Hp as [Hold | [-> ->]].
    + destruct (Hder i p Hold) as (m & g & a & Hl & H1 & H2 & H3). simpl in *.
      exists m, g, a.
      split; [exact Hl |].
      split; [apply lookup_app_l_Some, H1 |].
      split; [apply lookup_app_l_Some, H2 | apply lookup_app_l_Some, H3].
    + exists mask_label, gender_label, age_label.
      split.
      { unfold labels_of_path. rewrite Hstem. simpl. rewrite Hmask, Hfields, Hgender, Hage.
        reflexivity. }
      split; [rewrite <- Hm; apply list_lookup_middle; reflexivity |].
      split; [rewrite <- Hg; apply list_lookup_middle; reflexivity |].
      rewrite <- Ha. apply list_lookup_middle. reflexivity.
Qed.

(** One subject directory keeps the lists consistent. *)
Lemma setup_profile_consistent (fs : FileSystem)
    (self : @MaskBaseDataset.t Image Tensor Stats) (profile : string) (c : ClassLists) :
  aligned c /\ derived c ->
  aligned (MaskBaseDataset.setup_profile fs self profile c).1 /\
  derived (MaskBaseDataset.setup_profile fs self profile c).1.
Proof.
  intros Hc. unfold MaskBaseDataset.setup_profile.
  destruct (startswith profile "."); [exact Hc |].
  rewrite bind_unfold. unfold call at 1.
  destruct (fs [MaskBaseDataset.data_dir self; profile]) as [files | e]; [| exact Hc].
  apply (for_each_invariant (fun c => aligned c /\ derived c)); [| exact Hc].
  intros file_name c' _ Hc'. apply setup_file_consistent, Hc'.
Qed.

(** The scan keeps the four lists equally long and keeps at every index
    the labels the naming convention derives from the path at that index,
    whether it ends or stops on an exception. *)
Theorem setup_keeps_lists_consistent (fs : FileSystem)
    (self : @MaskBaseDataset.t Image Tensor Stats) (cls : ClassLists) :
  aligned cls -> derived cls ->
  aligned (MaskBaseDataset.setup fs self cls).1 /\
  derived (MaskBaseDataset.setup fs self cls).1.
Proof.
  intros Hal Hder. unfold MaskBaseDataset.setup.
  rewrite bind_unfold. unfold call at 1.
  destruct (fs [MaskBaseDataset.data_dir self]) as [profiles | e]; [| split; assumption].
  apply (for_each_invariant (fun c => aligned c /\ derived c)); [| split; assumption].
  intros profile c _ Hc. apply setup_profile_consistent, Hc.
Qed.

(** The lists of a scan that started from the empty lists. *)
Lemma scan_of_empty_derived (fs : FileSystem)
    (self : @MaskBaseDataset.t Image Tensor Stats) :
  derived (MaskBaseDataset.setup fs self empty_lists).1.
Proof.
  assert (Hempty : aligned empty_lists /\ derived empty_lists).
  { split; [repeat split |]. intros k q Hq. inversion Hq. }
  unfold MaskBaseDataset.setup.
  rewrite bind_unfold. unfold call at 1.
  destruct (fs [MaskBaseDataset.data_dir self]) as [profiles | e]; [| apply Hempty].
  apply (for_each_invariant (fun c => aligned c /\ derived c)); [| exact Hempty].
  intros profile c _ Hc. apply setup_profile_consistent, Hc.
Qed.

Lemma labels_of_path_subject (p p' : Path) m g a m' g' a' :
  labels_of_path p = Some (m, g, a) ->
  labels_of_path p' = Some (m', g', a') ->
  subject_of p = subject_of p' ->
  g = g' /\ a = a'.
Proof.
  unfold labels_of_path, subject_of.
  destruct p as [| d [| profile [| file_name [| ? ?]]]]; try discriminate.
  destruct p' as [| d' [| profile' [| file_name' [| ? ?]]]]; try discriminate.
  simpl. intros H H' [= <-].
  destruct (MaskBaseDataset._file_names !! _); [| discriminate].
  destruct (MaskBaseDataset._file_names !! _); [| discriminate].
  destruct (unpack4 (split "_" profile)) as [[[[id gender] race] age] | e];
    [| discriminate].
  destruct (GenderLabels.from_str gender); [| discriminate].
  destruct (AgeLabels.from_number (VStr age)); [| discriminate].
  injection H as _ <- <-. injection H' as _ <- <-. auto.
Qed.

(** In lists the scan filled, two photographs of one subject directory
    carry the same gender label and the same age label. *)
Theorem same_subject_same_gender_and_age (fs : FileSystem)
    (self : @MaskBaseDataset.t Image Tensor Stats) (i j : nat) (p p' : Path) :
  let cls := (MaskBaseDataset.setup fs self empty_lists).1 in
  image_paths cls !! i = Some p ->
  image_paths cls !! j = Some p' ->
  subject_of p = subject_of p' ->
  gender_labels cls !! i = gender_labels cls !! j /\
  age_labels cls !! i = age_labels cls !! j.
Proof.
  intros cls Hi Hj Hsub.
  pose proof (scan_of_empty_derived fs self) as Hder. fold cls in Hder.
  destruct (Hder i p Hi) as (m & g & a & Hl & _ & Hg & Ha).
  destruct (Hder j p' Hj) as (m' & g' & a' & Hl' & _ & Hg' & Ha').
  destruct (labels_of_path_subject _ _ _ _ _ _ _ _ Hl Hl' Hsub) as [-> ->].
  rewrite Hg, Hg', Ha, Ha'. auto.
Qed.

End ScanInvariants.

(** ** Indexing a dataset *)

Section Indexing.
Context {Image Tensor Stats : Type}.
Variable Image_open : Path -> Image.

Lemma getitem_in_range {A} (l : list A) (i : Z) :
  - Z.of_nat (length l) <= i < Z.of_nat (length l) ->
  exists x, Py.getitem l i = Ok x.
Proof.
  intros Hi. unfold Py.getitem.
  set (j := if i <? 0 then i + Z.of_nat (length l) else i).
  assert (Hj : 0 <= j < Z.of_nat (length l)).
  { subst j. destruct (Z.ltb_spec i 0); lia. }
  destruct (Z.leb_spec 0 j); [| lia].
  destruct (Z.ltb_spec j (Z.of_nat (length l))); [| lia].
  simpl. destruct (l !! Z.to_nat j) as [x |] eqn:Hx; [eauto |].
  apply lookup_ge_None in Hx. lia.
Qed.

Lemma getitem_out_of_range {A} (l : list A) (i : Z) :
  i < - Z.of_nat (length l) \/ Z.of_nat (length l) <= i ->
  Py.getitem l i = Raise IndexError.
Proof.
  intros Hi. unfold Py.getitem.
  set (j := if i <? 0 then i + Z.of_nat (length l) else i).
  assert (Hj : j < 0 \/ Z.of_nat (length l) <= j).
  { subst j. destruct (Z.ltb_spec i 0); lia. }
  destruct (Z.leb_spec 0 j); destruct (Z.ltb_spec j (Z.of_nat (length l)));
    simpl; try reflexivity; lia.
Qed.

(** With a transform bound and the four lists equally long,
    [__getitem__] answers for every index from minus the length up to the
    length, and raises [IndexError] for every other index. *)
Theorem getitem_index_bounds (self : @MaskBaseDataset.t Image Tensor Stats)
    (cls : ClassLists) (transform : Image -> Tensor) (index : Z) :
  aligned cls ->
  MaskBaseDataset.transform self = Some transform ->
  let n := MaskBaseDataset.__len__ self cls in
  (- n <= index < n ->
   exists x label, MaskBaseDataset.__getitem__ Image_open self cls index = Ok (x, label)) /\
  (index < - n \/ n <= index ->
   MaskBaseDataset.__getitem__ Image_open self cls index = Raise IndexError).
Proof.
  intros (Hm & Hg & Ha) Ht n. subst n.
  unfold MaskBaseDataset.__len__, MaskBaseDataset.__getitem__,
    MaskBaseDataset.read_image, MaskBaseDataset.get_mask_label,
    MaskBaseDataset.get_gender_label, MaskBaseDataset.get_age_label.
  rewrite Ht. split; intros Hi.
  - destruct (getitem_in_range (image_paths cls) index Hi) as [p ->].
    destruct (getitem_in_range (mask_labels cls) index ltac:(lia)) as [m ->].
    destruct (getitem_in_range (gender_labels cls) index ltac:(lia)) as [g ->].
    destruct (getitem_in_range (age_labels cls) index ltac:(lia)) as [a ->].
    eauto.
  - rewrite (getitem_out_of_range (image_paths cls) index Hi). reflexivity.
Qed.

(** A negative index reads from the end: index [-k] is index [len - k]. *)
Theorem getitem_negative_index (self : @MaskBaseDataset.t Image Tensor Stats)
    (cls : ClassLists) (index : Z) :
  aligned cls ->
  - MaskBaseDataset.__len__ self cls <= index < 0 ->
  MaskBaseDataset.__getitem__ Image_open self cls index
  = MaskBaseDataset.__getitem__ Image_open self cls
      (index + MaskBaseDataset.__len__ self cls).
Proof.
  intros (Hm & Hg & Ha) Hi.
  unfold MaskBaseDataset.__len__ in *.
  assert (Hget : forall A (l : list A),
             length l = length (image_paths cls) ->
             Py.getitem l index = Py.getitem l (index + Z.of_nat (length (image_paths cls)))).
  { intros A l Hl. unfold Py.getitem. rewrite Hl.
    destruct (Z.ltb_spec index 0); [| lia].
    destruct (Z.ltb_spec (index + Z.of_nat (length (image_paths cls))) 0); [lia |].
    reflexivity. }
  unfold MaskBaseDataset.__getitem__, MaskBaseDataset.read_image,
    MaskBaseDataset.get_mask_label, MaskBaseDataset.get_gender_label,
    MaskBaseDataset.get_age_label.
  rewrite <- (Hget _ (image_paths cls) eq_refl), <- (Hget _ (mask_labels cls) Hm),
    <- (Hget _ (gender_labels cls) Hg), <- (Hget _ (age_labels cls) Ha).
  reflexivity.
Qed.

(** The label [__getitem__] returns decodes to the values of the three
    labels stored at the index. *)
Theorem getitem_label_decodes (self : @MaskBaseDataset.t Image Tensor Stats)
    (cls : ClassLists) (index : Z) (x : Tensor) (label : Z) :
  MaskBaseDataset.__getitem__ Image_open self cls index = Ok (x, label) ->
  exists m g a,
    MaskBaseDataset.get_mask_label cls index = Ok m /\
    MaskBaseDataset.get_gender_label cls index = Ok g /\
    MaskBaseDataset.get_age_label cls index = Ok a /\
    MaskBaseDataset.decode_multi_class label
    = (MaskLabels.value m, GenderLabels.value g, AgeLabels.value a).
Proof.
  unfold MaskBaseDataset.__getitem__.
  destruct (MaskBaseDataset.transform self); [| discriminate].
  destruct (MaskBaseDataset.read_image _ _ _); [| discriminate].
  destruct (MaskBaseDataset.get_mask_label _ _) as [m |]; [| discriminate].
  destruct (MaskBaseDataset.get_gender_label _ _) as [g |]; [| discriminate].
  destruct (MaskBaseDataset.get_age_label _ _) as [age |]; [| discriminate].
  intros [= _ <-]. exists m, g, age.
  split; [reflexivity |]. split; [reflexivity |]. split; [reflexivity |].
  destruct m, g, age; reflexivity.
Qed.

(** [EvalDataset.__getitem__] has no assertion: without a transform it
    returns the opened image itself, with a transform the transformed
    one, and in both cases the label [decode_multi_class] takes apart
    into the values of the three labels at the index. *)
Theorem eval_getitem_without_transform (self : @EvalDataset.t Image Tensor Stats)
    (cls : ClassLists) (index : Z) (p : Path) (m : MaskLabels.t) (g : GenderLabels.t)
    (a : AgeLabels.t) :
  Py.getitem (image_paths cls) index = Ok p ->
  Py.getitem (mask_labels cls) index = Ok m ->
  Py.getitem (gender_labels cls) index = Ok g ->
  Py.getitem (age_labels cls) index = Ok a ->
  exists image label,
    EvalDataset.__getitem__ Image_open self cls index = Ok (image, label) /\
    image = match EvalDataset.transform self with
            | Some transform => inr (transform (Image_open p))
            | None => inl (Image_open p)
            end /\
    label = MaskBaseDataset.encode_multi_class (MaskLabels.value m)
              (GenderLabels.value g) (AgeLabels.value a) /\
    MaskBaseDataset.decode_multi_class label
    = (MaskLabels.value m, GenderLabels.value g, AgeLabels.value a).
Proof.
  intros Hp Hm Hg Ha. unfold EvalDataset.__getitem__.
  rewrite Hp, Hm, Hg, Ha.
  destruct (EvalDataset.transform self) as [transform |];
    eexists _, _; (split; [reflexivity |]); (split; [reflexivity |]);
    (split; [reflexivity |]); destruct m, g, a; reflexivity.
Qed.

End Indexing.

(** ** Subject-disjoint split: small ratios and the indices recorded *)

Section SubjectSplitMore.
Context {Image Tensor Stats : Type}.
Variable image_statistics : list Path -> Stats * Stats.
Variable rand_index : nat -> nat -> nat.
Variable set_iter : gset nat -> list nat.

(** [random.choices] with a [k] that is zero or negative draws nothing,
    also from an empty population. *)
Lemma choices_nothing {A} (population : list A) (k : Z) :
  k <= 0 -> random.choices rand_index population k = Ok [].
Proof.
  intros Hk. unfold random.choices.
  replace (Z.to_nat k) with 0%nat by lia. reflexivity.
Qed.

(** When [int(length * val_ratio)] is zero or negative, no subject is
    drawn: the validation set is empty and every subject trains, whatever
    the random source. *)
Theorem split_profile_small_ratio (profiles : list string) (val_ratio : float)
    (n_val : Z) :
  Py.int_of_product (Z.of_nat (length profiles)) val_ratio = Ok n_val ->
  n_val <= 0 ->
  MaskSplitByProfileDataset._split_profile rand_index profiles val_ratio
  = Ok [("train", list_to_set (seq 0 (length profiles))); ("val", ∅)].
Proof.
  intros Hval Hsmall.
  unfold MaskSplitByProfileDataset._split_profile.
  rewrite Hval. cbn [mbind result_bind].
  rewrite (choices_nothing _ _ Hsmall).
  rewrite list_to_set_nil, difference_empty_L. reflexivity.
Qed.


End SubjectSplitMore.

(** ** Subject-disjoint split: the indices an instance records *)

Section RecordedIndices.
Context {Image Tensor Stats : Type}.
Variable image_statistics : list Path -> Stats * Stats.
Variable rand_index : nat -> nat -> nat.
Variable set_iter : gset nat -> list nat.
Variable fs : FileSystem.

Lemma split_profile_phases (profiles : list string) (val_ratio : float)
    (split_profiles : list (string * gset nat)) :
  MaskSplitByProfileDataset._split_profile rand_index profiles val_ratio
  = Ok split_profiles ->
  exists train_indices val_indices,
    split_profiles = [("train", train_indices); ("val", val_indices)].
Proof.
  intros Hsplit.
  apply split_profile_inv in Hsplit as (n_val & drawn & _ & _ & ->). eauto.
Qed.

(** The invariant: with [base] paths before the scan, the lists hold
    [base + cnt] paths and the indices under "train" and "val" together
    are the numbers below [cnt], each once; no other key is used. *)
Lemma setup_file_records (base : nat) (data_dir phase profile file_name : string)
    (s : MaskSplitByProfileDataset.state) :
  phase = "train" \/ phase = "val" ->
  (length (image_paths (MaskSplitByProfileDataset.lists s))
   = (base + MaskSplitByProfileDataset.cnt s)%nat /\
   (dict_get "train" (MaskSplitByProfileDataset.self_indices s)
    ++ dict_get "val" (MaskSplitByProfileDataset.self_indices s))%list
   ≡ₚ seq 0 (MaskSplitByProfileDataset.cnt s)) ->
  let s' := (MaskSplitByProfileDataset.setup_file data_dir phase profile file_name s).1 in
  length (image_paths (MaskSplitByProfileDataset.lists s'))
  = (base + MaskSplitByProfileDataset.cnt s')%nat /\
  (dict_get "train" (MaskSplitByProfileDataset.self_indices s')
   ++ dict_get "val" (MaskSplitByProfileDataset.self_indices s'))%list
  ≡ₚ seq 0 (MaskSplitByProfileDataset.cnt s').
Proof.
  intros Hphase Hinv. unfold MaskSplitByProfileDataset.setup_file.
  destruct (splitext file_name) as [stem ext].
  destruct (MaskBaseDataset._file_names !! stem) as [mask_label |]; [| exact Hinv].
  rewrite bind_unfold. unfold call.
  destruct (unpack4 (split "_" profile)) as [[[[id gender] race] age] | e];
    [| exact Hinv].
  rewrite bind_unfold.
  destruct (GenderLabels.from_str gender) as [gender_label | e]; [| exact Hinv].
  rewrite bind_unfold.
  destruct (AgeLabels.from_number (VStr age)) as [age_label | e]; [| exact Hinv].
  destruct Hinv as [Hlen Hperm]. destruct s as [cls idx cnt]. simpl in *.
  split.
  - rewrite length_app. simpl. lia.
  - change (0%nat :: seq 1 cnt) with (seq 0 (S cnt)).
    rewrite !dict_get_append, seq_S. simpl.
    destruct Hphase as [-> | ->]; simpl.
    + rewrite <- Hperm. rewrite <- !app_assoc.
      apply Permutation_app_head. apply Permutation_app_comm.
    + rewrite <- Hperm. rewrite app_assoc. reflexivity.
Qed.

Lemma setup_records (self : @MaskBaseDataset.t Image Tensor Stats) (cls : ClassLists) :
  let s := (MaskSplitByProfileDataset.setup rand_index set_iter fs self
              {| MaskSplitByProfileDataset.lists := cls;
                 MaskSplitByProfileDataset.self_indices := [];
                 MaskSplitByProfileDataset.cnt := 0 |}).1 in
  length (image_paths (MaskSplitByProfileDataset.lists s))
  = (length (image_paths cls) + MaskSplitByProfileDataset.cnt s)%nat /\
  (dict_get "train" (MaskSplitByProfileDataset.self_indices s)
   ++ dict_get "val" (MaskSplitByProfileDataset.self_indices s))%list
  ≡ₚ seq 0 (MaskSplitByProfileDataset.cnt s).
Proof.
  set (base := length (image_paths cls)).
  set (inv := fun s : MaskSplitByProfileDataset.state =>
         length (image_paths (MaskSplitByProfileDataset.lists s))
         = (base + MaskSplitByProfileDataset.cnt s)%nat /\
         (dict_get "train" (MaskSplitByProfileDataset.self_indices s)
          ++ dict_get "val" (MaskSplitByProfileDataset.self_indices s))%list
         ≡ₚ seq 0 (MaskSplitByProfileDataset.cnt s)).
  assert (Hstart : inv {| MaskSplitByProfileDataset.lists := cls;
                          MaskSplitByProfileDataset.self_indices := [];
                          MaskSplitByProfileDataset.cnt := 0 |}).
  { split; simpl; [unfold base; lia | reflexivity]. }
  change (inv (MaskSplitByProfileDataset.setup rand_index set_iter fs self
                 {| MaskSplitByProfileDataset.lists := cls;
                    MaskSplitByProfileDataset.self_indices := [];
                    MaskSplitByProfileDataset.cnt := 0 |}).1).
  unfold MaskSplitByProfileDataset.setup.
  rewrite bind_unfold. unfold call at 1.
  destruct (fs [MaskBaseDataset.data_dir self]) as [names | e]; [| exact Hstart].
  rewrite bind_unfold. unfold call at 1.
  destruct (MaskSplitByProfileDataset._split_profile _ _ _)
    as [split_profiles | e] eqn:Hsplit; [| exact Hstart].
  destruct (split_profile_phases _ _ _ Hsplit) as (T & V & ->).
  rewrite bind_unfold. unfold modify at 1.
  apply (for_each_invariant inv); [| exact Hstart].
  intros [phase indices] t Hphase Ht.
  assert (Hp : phase = "train" \/ phase = "val").
  { apply elem_of_cons in Hphase as [[= -> _] | Hphase]; [auto |].
    apply elem_of_cons in Hphase as [[= -> _] | Hphase]; [auto | inversion Hphase]. }
  apply (for_each_invariant inv); [| exact Ht].
  intros _idx u _ Hu.
  rewrite bind_unfold. unfold call at 1.
  destruct (Py.getitem _ (Z.of_nat _idx)) as [profile | e]; [| exact Hu].
  rewrite bind_unfold. unfold call at 1.
  destruct (fs [MaskBaseDataset.data_dir self; profile]) as [files | e]; [| exact Hu].
  apply (for_each_invariant inv); [| exact Hu].
  intros file_name v _ Hv. apply setup_file_records; assumption.
Qed.

(** The indices an instance records under "train" and "val" are, taken
    together, exactly the numbers below the count of samples its own
    construction appended, each once, whatever the class-level lists
    held before. *)
Theorem recorded_indices_count_appended (data_dir : string) (mean std : option Stats)
    (val_ratio : float) (cls cls' : ClassLists)
    (ds : @MaskSplitByProfileDataset.t Image Tensor Stats) :
  MaskSplitByProfileDataset.__init__ image_statistics rand_index set_iter fs
    data_dir mean std val_ratio cls = (cls', Ok ds) ->
  exists appended : nat,
    length (image_paths cls') = (length (image_paths cls) + appended)%nat /\
    (dict_get "train" (MaskSplitByProfileDataset.indices ds)
     ++ dict_get "val" (MaskSplitByProfileDataset.indices ds))%list
    ≡ₚ seq 0 appended.
Proof.
  unfold MaskSplitByProfileDataset.__init__. intros Hinit.
  match type of Hinit with
  | context [MaskSplitByProfileDataset.setup _ _ _ ?self ?s0] =>
      pose proof (setup_records self cls) as Hinv;
      destruct (MaskSplitByProfileDataset.setup rand_index set_iter fs self s0)
        as [s [[] | e]]; [| discriminate Hinit];
      destruct (calc_statistics_lists image_statistics self
                  (MaskSplitByProfileDataset.lists s)) as [self' Hstat];
      rewrite Hstat in Hinit
  end.
  injection Hinit as <- <-. simpl in *.
  exists (MaskSplitByProfileDataset.cnt s). exact Hinv.
Qed.

End RecordedIndices.

(** ** Subject-disjoint split: a phase without samples has no subset *)

Section MissingPhase.
Context {Image Tensor Stats : Type}.
Variable image_statistics : list Path -> Stats * Stats.
Variable rand_index : nat -> nat -> nat.
Variable set_iter : gset nat -> list nat.
Variable fs : FileSystem.

Lemma setup_file_train_only (data_dir profile file_name : string)
    (s : MaskSplitByProfileDataset.state) :
  (MaskSplitByProfileDataset.self_indices s = [] \/
   exists v, MaskSplitByProfileDataset.self_indices s = [("train", v)]) ->
  let s' := (MaskSplitByProfileDataset.setup_file data_dir "train" profile file_name s).1 in
  MaskSplitByProfileDataset.self_indices s' = [] \/
  exists v, MaskSplitByProfileDataset.self_indices s' = [("train", v)].
Proof.
  intros Hinv. unfold MaskSplitByProfileDataset.setup_file.
  destruct (splitext file_name) as [stem ext].
  destruct (MaskBaseDataset._file_names !! stem) as [mask_label |]; [| exact Hinv].
  rewrite bind_unfold. unfold call.
  destruct (unpack4 (split "_" profile)) as [[[[id gender] race] age] | e];
    [| exact Hinv].
  rewrite bind_unfold.
  destruct (GenderLabels.from_str gender) as [gender_label | e]; [| exact Hinv].
  rewrite bind_unfold.
  destruct (AgeLabels.from_number (VStr age)) as [age_label | e]; [| exact Hinv].
  destruct s as [cls idx cnt]. simpl in *. right.
  destruct Hinv as [-> | [v ->]]; simpl; eauto.
Qed.

(** When [int(length * val_ratio)] is zero or negative for the listed
    subject directories, nothing is recorded under "val", and
    [split_dataset] returns at most one subset instead of a training and a
    validation subset. *)
Theorem split_dataset_without_validation (data_dir : string) (mean std : option Stats)
    (val_ratio : float) (names : list string) (n_val : Z) (cls cls' : ClassLists)
    (ds : @MaskSplitByProfileDataset.t Image Tensor Stats) :
  (forall (s : gset nat) i, i ∈ set_iter s -> i ∈ s) ->
  fs [data_dir] = Ok names ->
  Py.int_of_product
    (Z.of_nat (length (List.filter (fun profile => negb (startswith profile ".")) names)))
    val_ratio = Ok n_val ->
  n_val <= 0 ->
  MaskSplitByProfileDataset.__init__ image_statistics rand_index set_iter fs
    data_dir mean std val_ratio cls = (cls', Ok ds) ->
  dict_get "val" (MaskSplitByProfileDataset.indices ds) = [] /\
  (length (MaskSplitByProfileDataset.split_dataset ds) <= 1)%nat.
Proof.
  intros Hiter Hnames Hval Hsmall. unfold MaskSplitByProfileDataset.__init__.
  set (inv := fun s : MaskSplitByProfileDataset.state =>
         MaskSplitByProfileDataset.self_indices s = [] \/
         exists v, MaskSplitByProfileDataset.self_indices s = [("train", v)]).
  match goal with
  | |- context [MaskSplitByProfileDataset.setup _ _ _ ?self ?s0] =>
      assert (Hinv : inv (MaskSplitByProfileDataset.setup rand_index set_iter fs self s0).1)
  end.
  { unfold MaskSplitByProfileDataset.setup. simpl MaskBaseDataset.data_dir.
    simpl MaskBaseDataset.val_ratio.
    rewrite bind_unfold. unfold call at 1. rewrite Hnames.
    rewrite bind_unfold. unfold call at 1.
    destruct (MaskSplitByProfileDataset._split_profile _ _ _)
      as [split_profiles | e] eqn:Hsplit; [| left; reflexivity].
    apply split_profile_inv in Hsplit as (k & drawn & Hk & Hdrawn & ->).
    rewrite Hval in Hk. injection Hk as <-.
    rewrite (choices_nothing rand_index _ _ Hsmall) in Hdrawn. injection Hdrawn as <-.
    rewrite list_to_set_nil.
    rewrite bind_unfold. unfold modify at 1.
    apply (for_each_invariant inv); [| left; reflexivity].
    intros [phase indices] t Hphase Ht.
    apply elem_of_cons in Hphase as [[= -> ->] | Hphase].
    - apply (for_each_invariant inv); [| exact Ht].
      intros _idx u _ Hu.
      rewrite bind_unfold. unfold call at 1.
      destruct (Py.getitem _ (Z.of_nat _idx)) as [profile | e]; [| exact Hu].
      rewrite bind_unfold. unfold call at 1.
      destruct (fs [data_dir; profile]) as [files | e]; [| exact Hu].
      apply (for_each_invariant inv); [| exact Hu].
      intros file_name v _ Hv. apply setup_file_train_only, Hv.
    - apply elem_of_cons in Hphase as [[= -> ->] | Hphase]; [| inversion Hphase].
      destruct (set_iter ∅) as [| i l] eqn:Hempty; [exact Ht |].
      exfalso. apply (not_elem_of_empty (C:=gset nat) i), Hiter.
      rewrite Hempty. left. }
  match goal with
  | |- context [MaskSplitByProfileDataset.setup _ _ _ ?self ?s0] =>
      destruct (MaskSplitByProfileDataset.setup rand_index set_iter fs self s0)
        as [s [[] | e]]; [| discriminate];
      destruct (calc_statistics_lists image_statistics self
                  (MaskSplitByProfileDataset.lists s)) as [self' ->]
  end.
  intros [= <- <-]. unfold MaskSplitByProfileDataset.split_dataset. simpl in *.
  destruct Hinv as [-> | [v ->]]; simpl; split; (reflexivity || lia).
Qed.

End MissingPhase.

(** ** The mask-only dataset does not read directory names *)

Section MaskOnlyScan.
Context {Image Tensor Stats : Type}.
Variable rand_index : nat -> nat -> nat.
Variable set_iter : gset nat -> list nat.
Variable fs : FileSystem.

(** A loop whose every body ends normally and keeps an invariant ends
    normally and keeps it. *)
Lemma for_each_ends {S A} (I : S -> Prop) (l : list A) (body : A -> M S unit) (s : S) :
  (forall x t, x ∈ l -> I t -> exists t', body x t = (t', Ok tt) /\ I t') ->
  I s -> exists s', for_each l body s = (s', Ok tt) /\ I s'.
Proof.
  revert s. induction l as [| x l IH]; intros s Hbody Hs.
  - exists s. split; [reflexivity | exact Hs].
  - destruct (Hbody x s ltac:(left) Hs) as (t & Hx & Ht).
    rewrite for_each_cons, Hx. apply IH; [| exact Ht].
    intros y u Hy. apply Hbody. right. exact Hy.
Qed.

Lemma split_profile_in_range (profiles : list string) (val_ratio : float) (n_val : Z) :
  (forall i n, (0 < n)%nat -> (rand_index i n < n)%nat) ->
  Py.int_of_product (Z.of_nat (length profiles)) val_ratio = Ok n_val ->
  exists train_indices val_indices : gset nat,
    MaskSplitByProfileDataset._split_profile rand_index profiles val_ratio
    = Ok [("train", train_indices); ("val", val_indices)] /\
    (forall i, i ∈ train_indices -> (i < length profiles)%nat) /\
    (forall i, i ∈ val_indices -> (i < length profiles)%nat).
Proof.
  intros Hrand Hval. set (n := length profiles) in *.
  assert (Hk : (0 < n)%nat \/ Z.to_nat n_val = 0%nat).
  { destruct n as [| n'] eqn:En; [right | left; lia].
    rewrite (int_of_product_of_zero _ _ Hval). reflexivity. }
  destruct (choices_range rand_index Hrand n _ Hk) as (drawn & Hdrawn & _ & Hall).
  unfold MaskSplitByProfileDataset._split_profile. fold n.
  rewrite Hval. cbn [mbind result_bind]. rewrite Hdrawn.
  eexists _, _. split; [reflexivity |]. split; intros i Hi.
  - apply elem_of_difference in Hi as [Hi _].
    apply elem_of_list_to_set, elem_of_seq in Hi. lia.
  - apply elem_of_list_to_set in Hi. rewrite Forall_forall in Hall. apply Hall, Hi.
Qed.

Lemma mask_setup_file_ends (data_dir phase profile file_name : string)
    (genders : list GenderLabels.t) (ages : list AgeLabels.t)
    (s : MaskSplitByProfileDataset.state) :
  gender_labels (MaskSplitByProfileDataset.lists s) = genders /\
  age_labels (MaskSplitByProfileDataset.lists s) = ages ->
  exists s',
    MaskDataset.setup_file data_dir phase profile file_name s = (s', Ok tt) /\
    (gender_labels (MaskSplitByProfileDataset.lists s') = genders /\
     age_labels (MaskSplitByProfileDataset.lists s') = ages).
Proof.
  intros Hinv. unfold MaskDataset.setup_file.
  destruct (splitext file_name) as [stem ext].
  destruct (MaskBaseDataset._file_names !! stem) as [mask_label |].
  - eexists. split; [reflexivity |]. destruct s as [[? ? ? ?] ? ?]. exact Hinv.
  - exists s. split; [reflexivity | exact Hinv].
Qed.

(** [MaskDataset.setup] never parses a directory name: when the listings
    succeed and [int(length * val_ratio)] is a number, it ends normally
    whatever the directories are called, and it leaves the gender and age
    lists as they were. *)
Theorem mask_dataset_setup_ignores_names (self : @MaskBaseDataset.t Image Tensor Stats)
    (names : list string) (n_val : Z) (s : MaskSplitByProfileDataset.state) :
  (forall i n, (0 < n)%nat -> (rand_index i n < n)%nat) ->
  (forall (indices : gset nat) i, i ∈ set_iter indices -> i ∈ indices) ->
  fs [MaskBaseDataset.data_dir self] = Ok names ->
  Py.int_of_product
    (Z.of_nat (length (List.filter (fun profile => negb (startswith profile ".")) names)))
    (MaskBaseDataset.val_ratio self) = Ok n_val ->
  (forall profile, profile ∈ names ->
     exists files, fs [MaskBaseDataset.data_dir self; profile] = Ok files) ->
  exists s',
    MaskDataset.setup rand_index set_iter fs self s = (s', Ok tt) /\
    gender_labels (MaskSplitByProfileDataset.lists s')
    = gender_labels (MaskSplitByProfileDataset.lists s) /\
    age_labels (MaskSplitByProfileDataset.lists s')
    = age_labels (MaskSplitByProfileDataset.lists s).
Proof.
  intros Hrand Hiter Hnames Hval Hfolders.
  set (inv := fun t : MaskSplitByProfileDataset.state =>
         gender_labels (MaskSplitByProfileDataset.lists t)
         = gender_labels (MaskSplitByProfileDataset.lists s) /\
         age_labels (MaskSplitByProfileDataset.lists t)
         = age_labels (MaskSplitByProfileDataset.lists s)).
  unfold MaskDataset.setup.
  rewrite bind_unfold. unfold call at 1. rewrite Hnames.
  set (profiles := List.filter (fun profile => negb (startswith profile ".")) names).
  destruct (split_profile_in_range profiles (MaskBaseDataset.val_ratio self) n_val
              Hrand Hval)
    as (T & V & Hsplit & HT & HV).
  rewrite bind_unfold. unfold call at 1. rewrite Hsplit.
  rewrite bind_unfold. unfold modify at 1.
  apply (for_each_ends inv); [| split; reflexivity].
  intros [phase indices] t Hphase Ht.
  assert (Hrange : forall i, i ∈ indices -> (i < length profiles)%nat).
  { apply elem_of_cons in Hphase as [[= -> ->] | Hphase]; [exact HT |].
    apply elem_of_cons in Hphase as [[= -> ->] | Hphase]; [exact HV | inversion Hphase]. }
  apply (for_each_ends inv); [| exact Ht].
  intros _idx u Hin Hu.
  destruct (lookup_lt_is_Some_2 profiles _idx (Hrange _ (Hiter _ _ Hin))) as [profile Hp].
  rewrite bind_unfold. unfold call at 1.
  rewrite (getitem_lookup _ _ _ Hp).
  assert (Hlisted : profile ∈ names).
  { apply list_elem_of_lookup_2 in Hp. apply list_elem_of_In in Hp.
    apply List.filter_In in Hp as [Hp _]. apply list_elem_of_In, Hp. }
  destruct (Hfolders profile Hlisted) as [files Hfiles].
  rewrite bind_unfold. unfold call at 1. rewrite Hfiles.
  apply (for_each_ends inv); [| exact Hu].
  intros file_name v _ Hv. apply mask_setup_file_ends, Hv.
Qed.

End MaskOnlyScan.

(** ** Which files the scan keeps *)

Section KeptFiles.
Context {Image Tensor Stats : Type}.

Lemma file_names_keys (stem : string) (mask_label : MaskLabels.t) :
  MaskBaseDataset._file_names !! stem = Some mask_label ->
  stem ∈ ["mask1"; "mask2"; "mask3"; "mask4"; "mask5"; "incorrect_mask"; "normal"].
Proof.
  intros H. apply elem_of_list_to_map_2 in H.
  repeat (apply elem_of_cons in H as [[= -> _] | H];
          [apply list_elem_of_In; simpl; tauto |]).
  inversion H.
Qed.

Lemma chars_app (s t : string) : chars (s ++ t) = (chars s ++ chars t)%list.
Proof. induction s as [| c s IH]; simpl; [reflexivity | rewrite IH; reflexivity]. Qed.

Lemma str_chars (s : string) : str (chars s) = s.
Proof. apply string_of_list_ascii_of_string. Qed.

Lemma rfind_from_absent (c : ascii) (i : nat) (l : list ascii) :
  c ∉ l -> rfind_from c i l = None.
Proof.
  revert i. induction l as [| x l IH]; intros i Hc; simpl; [reflexivity |].
  rewrite IH by (intros H; apply Hc; right; exact H).
  destruct (Ascii.eqb_spec x c) as [-> | _]; [| reflexivity].
  exfalso. apply Hc. left.
Qed.

Lemma rfind_from_last (c : ascii) (i : nat) (l k : list ascii) :
  c ∉ k -> rfind_from c i (l ++ c :: k) = Some (i + length l)%nat.
Proof.
  intros Hk. revert i. induction l as [| x l IH]; intros i; simpl.
  - rewrite (rfind_from_absent c (S i) k Hk), Ascii.eqb_refl. f_equal. lia.
  - rewrite IH. f_equal. lia.
Qed.

(** The stem of a name made of a dot-free, slash-free, non-empty stem, a
    dot and a dot-free, slash-free extension. *)
Lemma splitext_simple (stem ext : string) :
  chars stem <> [] ->
  "."%char ∉ chars stem -> "/"%char ∉ chars stem ->
  "."%char ∉ chars ext -> "/"%char ∉ chars ext ->
  splitext (stem ++ "." ++ ext) = (stem, ("." ++ ext)%string).
Proof.
  intros Hne Hdot Hslash Hedot Heslash. unfold splitext.
  rewrite chars_app. change (chars ("." ++ ext)) with ("."%char :: chars ext).
  unfold rfind.
  rewrite (rfind_from_absent "/"%char).
  2: { intros H. apply elem_of_app in H as [H | H]; [exact (Hslash H) |].
       apply elem_of_cons in H as [H | H]; [discriminate | exact (Heslash H)]. }
  rewrite (rfind_from_last "."%char 0 (chars stem) (chars ext) Hedot). simpl.
  rewrite Nat.sub_0_r, take_app_length, drop_app_length.
  assert (Hex : existsb (fun c => negb (Ascii.eqb c ".")) (chars stem) = true).
  { destruct (chars stem) as [| c l]; [congruence |]. simpl.
    destruct (Ascii.eqb_spec c "."%char) as [-> | _]; [| reflexivity].
    exfalso. apply Hdot. left. }
  rewrite drop_0, take_app_length, Hex, str_chars. simpl. rewrite str_chars. reflexivity.
Qed.

(** A file with a recognised stem is a sample whatever its extension:
    the scan does not consult [IMG_EXTENSIONS]. In a directory with a
    well-formed name it appends exactly the one sample of the file. *)
Theorem recognised_stem_any_extension (self : @MaskBaseDataset.t Image Tensor Stats)
    (profile id gender race age stem ext : string) (mask_label : MaskLabels.t)
    (gender_label : GenderLabels.t) (age_label : AgeLabels.t) (cls : ClassLists) :
  MaskBaseDataset._file_names !! stem = Some mask_label ->
  "."%char ∉ chars ext -> "/"%char ∉ chars ext ->
  split "_" profile = [id; gender; race; age] ->
  GenderLabels.from_str gender = Ok gender_label ->
  AgeLabels.from_number (VStr age) = Ok age_label ->
  MaskBaseDataset.setup_file self profile (stem ++ "." ++ ext) cls
  = (lists_app cls
       {| image_paths := [[MaskBaseDataset.data_dir self; profile;
                           (stem ++ "." ++ ext)%string]];
          mask_labels := [mask_label];
          gender_labels := [gender_label];
          age_labels := [age_label] |},
     Ok tt).
Proof.
  intros Hstem Hedot Heslash Hsplit Hgender Hage.
  unfold MaskBaseDataset.setup_file.
  rewrite splitext_simple; try assumption.
  - rewrite Hstem, Hsplit. simpl.
    rewrite !bind_unfold. unfold call. rewrite Hgender, Hage. reflexivity.
  - pose proof (file_names_keys _ _ Hstem) as Hk.
    repeat (apply elem_of_cons in Hk as [-> | Hk]; [discriminate |]). inversion Hk.
  - pose proof (file_names_keys _ _ Hstem) as Hk.
    repeat (apply elem_of_cons in Hk as [-> | Hk];
            [vm_compute; intros H; repeat (apply elem_of_cons in H as [H | H];
                                           [discriminate |]); inversion H |]).
    inversion Hk.
  - pose proof (file_names_keys _ _ Hstem) as Hk.
    repeat (apply elem_of_cons in Hk as [-> | Hk];
            [vm_compute; intros H; repeat (apply elem_of_cons in H as [H | H];
                                           [discriminate |]); inversion H |]).
    inversion Hk.
Qed.

End KeptFiles.

Section HiddenFiles.
Context {Image Tensor Stats : Type}.

Lemma splitext_stem_prefix (p : string) :
  exists k, (splitext p).1 = str (take k (chars p)).
Proof.
  unfold splitext.
  assert (Hwhole : exists k, p = str (take k (chars p))).
  { exists (length (chars p)). rewrite take_ge by lia. symmetry. apply str_chars. }
  destruct (rfind "." (chars p)) as [dotIndex |]; [| exact Hwhole].
  destruct (_ <=? dotIndex)%nat; [| exact Hwhole].
  destruct (existsb _ _); [| exact Hwhole].
  exists dotIndex. reflexivity.
Qed.

(** A file whose name starts with a dot is never a sample: its stem
    starts with the dot too and is none of the seven stems. *)
Theorem hidden_file_skipped (self : @MaskBaseDataset.t Image Tensor Stats)
    (profile file_name : string) (cls : ClassLists) :
  startswith file_name "." = true ->
  recognised file_name = false /\
  MaskBaseDataset.setup_file self profile file_name cls = (cls, Ok tt).
Proof.
  intros Hdot.
  assert (Hnone : MaskBaseDataset._file_names !! (splitext file_name).1 = None).
  { destruct (MaskBaseDataset._file_names !! (splitext file_name).1) as [m |] eqn:Hm;
      [| reflexivity].
    exfalso. apply file_names_keys in Hm.
    destruct (splitext_stem_prefix file_name) as [k Hk]. rewrite Hk in Hm.
    destruct file_name as [| c r]; [discriminate Hdot |].
    unfold startswith in Hdot. cbn [String.prefix] in Hdot.
    destruct (ascii_dec "."%char c) as [<- | _]; [| discriminate Hdot].
    destruct k as [| k]; unfold str, chars in Hm; simpl in Hm;
      repeat (apply elem_of_cons in Hm as [Hm | Hm]; [discriminate Hm |]);
      inversion Hm. }
  split.
  - unfold recognised. rewrite Hnone.
    apply bool_decide_eq_false_2. intros [? ?]. discriminate.
  - unfold MaskBaseDataset.setup_file.
    destruct (splitext file_name) as [stem ext]. simpl in Hnone. rewrite Hnone.
    reflexivity.
Qed.

End HiddenFiles.

(** ** Statistics *)

Section Statistics.
Context {Image Tensor Stats : Type}.
Variable image_statistics : list Path -> Stats * Stats.

(** [calc_statistics] computes a mean and a deviation at most once: after
    it both are set, and running it again changes neither the instance
    nor the lists. When both were supplied they are kept; when either is
    missing, both are replaced by the statistics of the first 3000 paths,
    a mean or a deviation supplied alone included. *)
Theorem calc_statistics_once (self : @MaskBaseDataset.t Image Tensor Stats)
    (cls : ClassLists) :
  exists self',
    MaskBaseDataset.calc_statistics image_statistics self cls = (cls, Ok self') /\
    is_Some (MaskBaseDataset.mean self') /\ is_Some (MaskBaseDataset.std self') /\
    (forall cls'',
       MaskBaseDataset.calc_statistics image_statistics self' cls'' = (cls'', Ok self')) /\
    (is_Some (MaskBaseDataset.mean self) -> is_Some (MaskBaseDataset.std self) ->
     self' = self) /\
    (MaskBaseDataset.mean self = None \/ MaskBaseDataset.std self = None ->
     (MaskBaseDataset.mean self', MaskBaseDataset.std self')
     = (Some (image_statistics (take 3000 (image_paths cls))).1,
        Some (image_statistics (take 3000 (image_paths cls))).2)).
Proof.
  unfold MaskBaseDataset.calc_statistics.
  destruct (MaskBaseDataset.mean self) as [m |] eqn:Hm;
    destruct (MaskBaseDataset.std self) as [sd |] eqn:Hs; simpl.
  - exists self. rewrite Hm, Hs. simpl.
    split; [reflexivity |]. split; [eauto |]. split; [eauto |].
    split; [reflexivity |]. split; [reflexivity |].
    intros [? | ?]; discriminate.
  - rewrite bind_unfold. unfold gets.
    destruct (image_statistics (take 3000 (image_paths cls))) as [m' s'].
    eexists. split; [reflexivity |]. simpl.
    split; [eauto |]. split; [eauto |].
    split; [reflexivity |]. split; [intros _ [? ?]; discriminate | reflexivity].
  - rewrite bind_unfold. unfold gets.
    destruct (image_statistics (take 3000 (image_paths cls))) as [m' s'].
    eexists. split; [reflexivity |]. simpl.
    split; [eauto |]. split; [eauto |].
    split; [reflexivity |]. split; [intros [? ?]; discriminate | reflexivity].
  - rewrite bind_unfold. unfold gets.
    destruct (image_statistics (take 3000 (image_paths cls))) as [m' s'].
    eexists. split; [reflexivity |]. simpl.
    split; [eauto |]. split; [eauto |].
    split; [reflexivity |]. split; [intros [? ?]; discriminate | reflexivity].
Qed.

End Statistics.

(** ** How many samples a scan appends *)

Section ScanCount.
Context {Image Tensor Stats : Type}.

Lemma setup_files_count (self : @MaskBaseDataset.t Image Tensor Stats)
    (profile : string) (files : list string) (cls : ClassLists) :
  well_named profile ->
  exists cls',
    for_each files (MaskBaseDataset.setup_file self profile) cls = (cls', Ok tt) /\
    length (image_paths cls')
    = (length (image_paths cls) + count_recognised files)%nat.
Proof.
  intros (id & gender & race & age & gl & al & Hsplit & Hg & Ha).
  revert cls. induction files as [| f files IH]; intros cls.
  - exists cls. split; [reflexivity |]. unfold count_recognised. simpl. lia.
  - rewrite for_each_cons. unfold count_recognised. simpl.
    unfold MaskBaseDataset.setup_file at 1. unfold recognised at 1.
    destruct (splitext f) as [stem ext]. simpl.
    destruct (MaskBaseDataset._file_names !! stem) as [mask_label |].
    + rewrite bool_decide_eq_true_2 by eauto.
      rewrite Hsplit. simpl. rewrite !bind_unfold. unfold call. rewrite Hg, Ha.
      unfold modify. simpl.
      match goal with
      | |- context [for_each files _ ?c] => destruct (IH c) as (cls' & -> & Hlen)
      end.
      exists cls'. split; [reflexivity |].
      rewrite Hlen. simpl. rewrite length_app. simpl.
      unfold count_recognised. lia.
    + rewrite bool_decide_eq_false_2 by (intros [? ?]; discriminate).
      unfold ret. destruct (IH cls) as (cls' & -> & Hlen).
      exists cls'. split; [reflexivity | exact Hlen].
Qed.

(** Over a corpus whose directories that are not hidden all have
    well-formed names, the scan ends normally and appends one sample per
    file with a recognised stem in those directories, no more and no
    fewer. *)
Theorem scan_appends_recognised_files (fs : FileSystem)
    (self : @MaskBaseDataset.t Image Tensor Stats) (names : list string)
    (listing : string -> list string) (cls : ClassLists) :
  fs [MaskBaseDataset.data_dir self] = Ok names ->
  (forall profile, profile ∈ names -> startswith profile "." = false ->
     fs [MaskBaseDataset.data_dir self; profile] = Ok (listing profile) /\
     well_named profile) ->
  exists cls',
    MaskBaseDataset.setup fs self cls = (cls', Ok tt) /\
    length (image_paths cls')
    = (length (image_paths cls)
       + sum_list (map (fun profile => count_recognised (listing profile))
                     (List.filter (fun profile => negb (startswith profile ".")) names)))%nat.
Proof.
  intros Hnames Hdirs. unfold MaskBaseDataset.setup.
  rewrite bind_unfold. unfold call at 1. rewrite Hnames.
  clear Hnames. revert cls.
  induction names as [| profile names IH]; intros cls.
  - exists cls. split; [reflexivity |]. simpl. lia.
  - rewrite for_each_cons. unfold MaskBaseDataset.setup_profile at 1. simpl.
    destruct (startswith profile ".") eqn:Hhidden; simpl.
    + unfold ret. apply IH. intros p Hp. apply Hdirs. right. exact Hp.
    + destruct (Hdirs profile ltac:(left) Hhidden) as [Hfiles Hwell].
      rewrite bind_unfold. unfold call at 1. rewrite Hfiles.
      destruct (setup_files_count self profile (listing profile) cls Hwell)
        as (cls1 & -> & Hlen1).
      destruct (IH ltac:(intros p Hp; apply Hdirs; right; exact Hp) cls1)
        as (cls' & -> & Hlen).
      exists cls'. split; [reflexivity |]. rewrite Hlen, Hlen1. lia.
Qed.

End ScanCount.

(** ** The further properties on the small corpora *)

Section MoreExamples.
Import Fixtures.

Lemma encode_multi_class_injective_witness : 2 = 2 /\ 0 = 0 /\ 1 = 1.
Proof.
  apply (encode_multi_class_injective 2 0 1 2 0 1);
    unfold valid_mask, valid_gender, valid_age; (reflexivity || lia).
Defined.

Lemma from_str_ignores_case_witness :
  GenderLabels.from_str "FeMale" = GenderLabels.from_str "FEMALE" /\
  GenderLabels.from_str (lower "Male") = GenderLabels.from_str "Male".
Proof.
  destruct from_str_ignores_case as [Hsame Hlower].
  split; [apply Hsame; reflexivity | apply Hlower].
Defined.

Lemma from_number_monotone_witness :
  AgeLabels.value AgeLabels.YOUNG <= AgeLabels.value AgeLabels.OLD.
Proof.
  apply (from_number_monotone (VStr "29") (VStr "60") 29 60); (reflexivity || lia).
Defined.

Lemma setup_keeps_lists_consistent_witness :
  aligned (@MaskBaseDataset.setup unit unit unit corpus_unknown_gender default_dataset
             empty_lists).1 /\
  derived (@MaskBaseDataset.setup unit unit unit corpus_unknown_gender default_dataset
             empty_lists).1.
Proof.
  apply setup_keeps_lists_consistent.
  - repeat split.
  - intros i p H. inversion H.
Defined.

Lemma same_subject_same_gender_and_age_witness :
  gender_labels (MaskBaseDataset.setup corpus_three default_dataset empty_lists).1 !! 0%nat
  = gender_labels (MaskBaseDataset.setup corpus_three default_dataset empty_lists).1 !! 1%nat /\
  age_labels (MaskBaseDataset.setup corpus_three default_dataset empty_lists).1 !! 0%nat
  = age_labels (MaskBaseDataset.setup corpus_three default_dataset empty_lists).1 !! 1%nat.
Proof.
  apply (same_subject_same_gender_and_age corpus_three default_dataset 0 1
           ["data"; "000001_female_Asian_45"; "mask1.jpg"]
           ["data"; "000001_female_Asian_45"; "normal.jpg"]);
    vm_compute; reflexivity.
Defined.

Lemma getitem_index_bounds_witness :
  (exists x label,
     MaskBaseDataset.__getitem__ (fun p => p)
       (MaskBaseDataset.set_transform path_dataset (Some (fun image => [image])))
       corpus_one_lists (-3) = Ok (x, label)) /\
  MaskBaseDataset.__getitem__ (fun p => p)
    (MaskBaseDataset.set_transform path_dataset (Some (fun image => [image])))
    corpus_one_lists 3 = Raise IndexError.
Proof.
  split.
  - apply (getitem_index_bounds (fun p => p)
             (MaskBaseDataset.set_transform path_dataset (Some (fun image => [image])))
             corpus_one_lists (fun image => [image]) (-3)).
    + repeat split.
    + reflexivity.
    + vm_compute. split; discriminate || reflexivity.
  - apply (getitem_index_bounds (fun p => p)
             (MaskBaseDataset.set_transform path_dataset (Some (fun image => [image])))
             corpus_one_lists (fun image => [image]) 3).
    + repeat split.
    + reflexivity.
    + right. vm_compute. discriminate.
Defined.

(** Index 3 of three samples is out of range, index -3 is the first. *)
Example getitem_at_the_bounds :
  MaskBaseDataset.__getitem__ (fun p => p)
    (MaskBaseDataset.set_transform path_dataset (Some (fun image => [image])))
    corpus_one_lists 3 = Raise IndexError /\
  MaskBaseDataset.__getitem__ (fun p => p)
    (MaskBaseDataset.set_transform path_dataset (Some (fun image => [image])))
    corpus_one_lists (-3)
  = Ok ([["data"; "000001_female_Asian_45"; "mask1.jpg"]], 4).
Proof. split; reflexivity. Qed.

Lemma getitem_negative_index_witness :
  MaskBaseDataset.__getitem__ (fun p => p)
    (MaskBaseDataset.set_transform path_dataset (Some (fun image => [image])))
    corpus_one_lists (-1)
  = MaskBaseDataset.__getitem__ (fun p => p)
      (MaskBaseDataset.set_transform path_dataset (Some (fun image => [image])))
      corpus_one_lists (-1 + 3).
Proof.
  apply (getitem_negative_index (fun p => p)
           (MaskBaseDataset.set_transform path_dataset (Some (fun image => [image])))
           corpus_one_lists (-1)).
  - repeat split.
  - vm_compute. split; discriminate || reflexivity.
Defined.

Lemma getitem_label_decodes_witness :
  exists m g a,
    MaskBaseDataset.get_mask_label corpus_one_lists 1 = Ok m /\
    MaskBaseDataset.get_gender_label corpus_one_lists 1 = Ok g /\
    MaskBaseDataset.get_age_label corpus_one_lists 1 = Ok a /\
    MaskBaseDataset.decode_multi_class 10
    = (MaskLabels.value m, GenderLabels.value g, AgeLabels.value a).
Proof.
  apply (getitem_label_decodes (fun p => p)
           (MaskBaseDataset.set_transform path_dataset (Some (fun image => [image])))
           corpus_one_lists 1
           [["data"; "000001_female_Asian_45"; "incorrect_mask.png"]] 10).
  reflexivity.
Defined.

Lemma getitem_label_range_witness : 0 <= 10 < 18.
Proof.
  apply (getitem_label_range (fun p => p)
           (MaskBaseDataset.set_transform path_dataset (Some (fun image => [image])))
           corpus_one_lists 1
           [["data"; "000001_female_Asian_45"; "incorrect_mask.png"]] 10).
  reflexivity.
Defined.

Lemma gender_age_getitem_label_range_witness : 0 <= 4 < MaskLabelDataset.num_classes.
Proof.
  apply (gender_age_getitem_label_range (fun p => p) gender_age_dataset
           corpus_one_lists 0 [["data"; "000001_female_Asian_45"; "mask1.jpg"]] 4).
  reflexivity.
Defined.

Lemma eval_getitem_without_transform_witness :
  exists image label,
    EvalDataset.__getitem__ (fun p => p) eval_dataset corpus_one_lists 2
    = Ok (image, label) /\
    image = inl ["data"; "000001_female_Asian_45"; "normal.bmp"] /\
    label = MaskBaseDataset.encode_multi_class 2 1 1 /\
    MaskBaseDataset.decode_multi_class label = (2, 1, 1).
Proof.
  apply (eval_getitem_without_transform (fun p => p) eval_dataset corpus_one_lists 2
           ["data"; "000001_female_Asian_45"; "normal.bmp"]
           MaskLabels.NORMAL GenderLabels.FEMALE AgeLabels.MIDDLE);
    reflexivity.
Defined.

Lemma increasing_sound (s : gset nat) (i : nat) : i ∈ increasing s -> i ∈ s.
Proof.
  unfold increasing. rewrite merge_sort_Permutation. apply elem_of_elements.
Qed.

Lemma always_in_range (k i n : nat) : (0 < n)%nat -> (always k i n < n)%nat.
Proof. unfold always. lia. Qed.

Lemma listdir_NoDup (tree : list (Path * list string)) :
  Forall (fun entry => NoDup entry.2) tree ->
  forall path names, listdir tree path = Ok names -> NoDup names.
Proof.
  intros Htree path names. unfold listdir.
  destruct (list_find _ tree) as [[k [p l]] |] eqn:Hfind; [| discriminate].
  intros [= <-]. apply list_find_Some in Hfind as (Hk & _ & _).
  rewrite Forall_lookup in Htree. exact (Htree k _ Hk).
Qed.

Lemma corpus_three_NoDup (path : Path) (names : list string) :
  corpus_three path = Ok names -> NoDup names.
Proof.
  apply listdir_NoDup.
  repeat (apply List.Forall_cons;
          [apply (bool_decide_unpack _); vm_compute; exact I |]).
  apply List.Forall_nil.
Qed.

Lemma split_profile_small_ratio_witness :
  MaskSplitByProfileDataset._split_profile (always 3)
    ["000001_female_Asian_45"; "000002_male_Asian_61"; "000004_MALE_Asian_19"] ratio_0_2
  = Ok [("train", list_to_set (seq 0 3)); ("val", ∅)].
Proof.
  apply (split_profile_small_ratio (always 3)
           ["000001_female_Asian_45"; "000002_male_Asian_61"; "000004_MALE_Asian_19"]
           ratio_0_2 0).
  - reflexivity.
  - lia.
Defined.

(** Three subjects at the float nearest to 1/3: the exact product is
    below 1, the float product is 1.0, and one subject is drawn. *)
Example split_profile_one_third :
  Py.float_value (literal 3333333333333333 16)
  = Some (6004799503160661 # 18014398509481984) /\
  Qfloor (inject_Z 3 * (6004799503160661 # 18014398509481984)) = 0 /\
  Py.int_of_product 3 (literal 3333333333333333 16) = Ok 1 /\
  MaskSplitByProfileDataset._split_profile (always 1)
    ["000001_female_Asian_45"; "000002_male_Asian_61"; "000004_MALE_Asian_19"]
    (literal 3333333333333333 16)
  = Ok [("train", {[0; 2]}%nat); ("val", {[1%nat]})].
Proof. split_and!; vm_compute; reflexivity. Qed.


Lemma first_instance_subject_disjoint_witness :
  subject_of ["data"; "000004_MALE_Asian_19"; "mask1.jpg"]
  <> subject_of ["data"; "000001_female_Asian_45"; "mask1.jpg"].
Proof.
  evar (cls1 : ClassLists).
  evar (ds1 : @MaskSplitByProfileDataset.t unit unit unit).
  assert (Hinit :
    MaskSplitByProfileDataset.__init__ no_statistics (always 0) increasing corpus_three
      "data" default_stats default_stats ratio_0_4 empty_lists = (cls1, Ok ds1))
    by (subst cls1 ds1; vm_compute; reflexivity).
  apply (first_instance_subject_disjoint no_statistics (always 0) increasing corpus_three
           "data" ratio_0_4 increasing_sound corpus_three_NoDup
           default_stats default_stats empty_lists cls1 ds1 Hinit eq_refl 1 2).
  - subst ds1. simpl. right. left.
  - subst ds1. simpl. left.
  - reflexivity.
  - reflexivity.
Defined.

Lemma recorded_indices_count_appended_witness :
  exists appended : nat,
    length (image_paths (lists_app corpus_three_lists corpus_three_lists))
    = (length (image_paths corpus_three_lists) + appended)%nat /\
    (dict_get "train" [("train", [0; 1; 2]%nat); ("val", [3%nat])]
     ++ dict_get "val" [("train", [0; 1; 2]%nat); ("val", [3%nat])])%list
    ≡ₚ seq 0 appended.
Proof.
  apply (@recorded_indices_count_appended unit unit unit no_statistics (always 2)
           increasing corpus_three
           "data" default_stats default_stats ratio_0_4 corpus_three_lists
           (lists_app corpus_three_lists corpus_three_lists)
           {| MaskSplitByProfileDataset.base :=
                {| MaskBaseDataset.data_dir := "data";
                   MaskBaseDataset.mean := default_stats;
                   MaskBaseDataset.std := default_stats;
                   MaskBaseDataset.val_ratio := ratio_0_4;
                   MaskBaseDataset.transform := None |};
              MaskSplitByProfileDataset.indices :=
                [("train", [0; 1; 2]%nat); ("val", [3%nat])] |}).
  vm_compute. reflexivity.
Defined.

Lemma split_dataset_without_validation_witness :
  dict_get "val" [("train", [0; 1; 2; 3]%nat)] = [] /\
  (length (MaskSplitByProfileDataset.split_dataset
             {| MaskSplitByProfileDataset.base := default_dataset;
                MaskSplitByProfileDataset.indices := [("train", [0; 1; 2; 3]%nat)] |})
   <= 1)%nat.
Proof.
  apply (@split_dataset_without_validation unit unit unit no_statistics (always 0)
           increasing corpus_three "data" default_stats default_stats ratio_0_2
           ["000001_female_Asian_45"; "000002_male_Asian_61"; "000004_MALE_Asian_19"]
           0 empty_lists corpus_three_lists
           {| MaskSplitByProfileDataset.base := default_dataset;
              MaskSplitByProfileDataset.indices := [("train", [0; 1; 2; 3]%nat)] |}).
  - apply increasing_sound.
  - reflexivity.
  - reflexivity.
  - lia.
  - vm_compute. reflexivity.
Defined.

Lemma mask_dataset_setup_ignores_names_witness :
  exists s',
    MaskDataset.setup (always 0) increasing corpus_unknown_gender default_dataset
      fresh_state = (s', Ok tt) /\
    gender_labels (MaskSplitByProfileDataset.lists s') = [] /\
    age_labels (MaskSplitByProfileDataset.lists s') = [].
Proof.
  apply (mask_dataset_setup_ignores_names (always 0) increasing corpus_unknown_gender
           default_dataset ["000001_female_Asian_45"; "001_nonbinary_asian_25"]
           0 fresh_state).
  - intros i n. apply always_in_range.
  - apply increasing_sound.
  - reflexivity.
  - reflexivity.
  - intros profile Hp.
    apply elem_of_cons in Hp as [-> | Hp]; [eexists; reflexivity |].
    apply elem_of_cons in Hp as [-> | Hp]; [eexists; reflexivity | inversion Hp].
Defined.

(** The base dataset stops on the second directory of that corpus, the
    mask-only dataset lists its three recognised files. *)
Example mask_dataset_lists_unknown_gender :
  image_paths (MaskSplitByProfileDataset.lists
                 (MaskDataset.setup (always 0) increasing corpus_unknown_gender
                    default_dataset fresh_state).1)
  = [["data"; "000001_female_Asian_45"; "mask1.jpg"];
     ["data"; "001_nonbinary_asian_25"; "mask1.jpg"];
     ["data"; "001_nonbinary_asian_25"; "normal.jpg"]].
Proof. vm_compute. reflexivity. Qed.

Lemma recognised_stem_any_extension_witness :
  MaskBaseDataset.setup_file default_dataset "000001_female_Asian_45"
    ("mask1" ++ "." ++ "txt") empty_lists
  = (lists_app empty_lists
       {| image_paths := [["data"; "000001_female_Asian_45"; "mask1.txt"]];
          mask_labels := [MaskLabels.MASK];
          gender_labels := [GenderLabels.FEMALE];
          age_labels := [AgeLabels.MIDDLE] |},
     Ok tt).
Proof.
  apply (recognised_stem_any_extension default_dataset "000001_female_Asian_45"
           "000001" "female" "Asian" "45" "mask1" "txt" MaskLabels.MASK
           GenderLabels.FEMALE AgeLabels.MIDDLE empty_lists); try reflexivity.
  - vm_compute. intros H.
    repeat (apply elem_of_cons in H as [H | H]; [discriminate |]). inversion H.
  - vm_compute. intros H.
    repeat (apply elem_of_cons in H as [H | H]; [discriminate |]). inversion H.
Defined.

(** The file is kept although [is_image_file] rejects it. *)
Example text_file_is_no_image : is_image_file "mask1.txt" = false.
Proof. reflexivity. Qed.

Lemma hidden_file_skipped_witness :
  recognised ".hidden.jpg" = false /\
  MaskBaseDataset.setup_file default_dataset "000001_female_Asian_45" ".hidden.jpg"
    corpus_one_lists = (corpus_one_lists, Ok tt).
Proof.
  apply (hidden_file_skipped default_dataset "000001_female_Asian_45" ".hidden.jpg"
           corpus_one_lists).
  reflexivity.
Defined.

(** A directory name is well named only if [int] reads its age: the scan
    stops at a directory whose age field starts with the separator 28. *)
Example scan_stops_at_separator_in_age :
  MaskBaseDataset.setup corpus_separator_in_age default_dataset empty_lists
  = (empty_lists, Raise (ValueError_age (VStr (bytes [28; 50; 53])))).
Proof. vm_compute. reflexivity. Qed.

(** A mean supplied without a deviation is replaced with it. *)
Example supplied_mean_alone_is_replaced :
  @MaskBaseDataset.calc_statistics unit unit Z (fun _ => (1, 2))
    {| MaskBaseDataset.data_dir := "data"; MaskBaseDataset.mean := Some 7;
       MaskBaseDataset.std := None; MaskBaseDataset.val_ratio := ratio_0_2;
       MaskBaseDataset.transform := None |} corpus_one_lists
  = (corpus_one_lists,
     Ok {| MaskBaseDataset.data_dir := "data"; MaskBaseDataset.mean := Some 1;
           MaskBaseDataset.std := Some 2; MaskBaseDataset.val_ratio := ratio_0_2;
           MaskBaseDataset.transform := None |}).
Proof. reflexivity. Qed.

Lemma scan_appends_recognised_files_witness :
  exists cls',
    MaskBaseDataset.setup corpus_one default_dataset empty_lists = (cls', Ok tt) /\
    length (image_paths cls') = (0 + 3)%nat.
Proof.
  apply (scan_appends_recognised_files corpus_one default_dataset
           ["000001_female_Asian_45"; ".DS_Store"] (fun _ => corpus_one_files)
           empty_lists).
  - reflexivity.
  - intros profile Hp Hhidden.
    apply elem_of_cons in Hp as [-> | Hp].
    + split; [reflexivity |].
      exists "000001", "female", "Asian", "45", GenderLabels.FEMALE, AgeLabels.MIDDLE.
      repeat split.
    + apply elem_of_cons in Hp as [-> | Hp]; [discriminate Hhidden | inversion Hp].
Defined.

End MoreExamples.
